(** * User statistics table (userapi/storage/postgres/stats_table.go)

    A shallow embedding of the statistics statements of the user API:
    the SQL text of every prepared statement is given a list semantics
    over the three tables it reads or writes, and the Go methods of
    [statsStatements] are written in a small state monad whose state
    holds the database, the watermark [lastUpdate], the clock and the
    log of executed statements.

    Conventions.
    - A [time.Time] is the number of nanoseconds since the Unix epoch.
      [GoTime.AddDate] is [AddDate(0, 0, n)] in UTC, a shift by [n] days
      of 24 hours, and the methods are written with it, for a process
      whose local zone is UTC.  [GoTime.AddDateIn] is [AddDate(0, 0, n)]
      in any [time.Location], and [updateUserDailyVisitsIn] is
      [updateUserDailyVisits] for a process in that location: its day
      stamp depends on the zone.
    - A SQL [BIGINT] is a [Z]; the timestamps stored by the server are
      milliseconds since the epoch and their differences stay far away
      from the 64-bit range.  Go [int64] additions wrap explicitly.
    - A SQL [TEXT] is a [string] (bytes); a nullable column is an
      [option].  [LOWER] acts on the ASCII letters.
    - A grouped query lists its groups in the order of their first row;
      the loops reading them do not depend on that order
      ([r30_loop_Permutation]).
    - The timers armed by [startTimers] are a queue of pending delays;
      when they fire is left to the runtime, what a firing does is
      [updateStatsFunc]. *)

From Stdlib Require Import ZArith Ascii String.
From stdpp Require Import gmap strings list fin_maps.

Local Open Scope string_scope.
Local Open Scope Z_scope.

(** ** Go time and int64 *)

Module GoTime.

(** Durations are nanoseconds ([time.Duration]). *)
Definition Millisecond : Z := 1000000.
Definition Hour : Z := 3600 * 1000 * Millisecond.
Definition Day : Z := Hour * 24.

(** [t.Add(d)]. *)
Definition Add (t d : Z) : Z := t + d.

(** [t.AddDate(0, 0, days)], in UTC. *)
Definition AddDate (t days : Z) : Z := t + days * Day.

(** [t.Truncate(d)]: round down to a multiple of [d] since the zero
    time.  The zero time lies a whole number of days before the Unix
    epoch, so for [d] dividing a day the remainder can be taken on the
    Unix value. *)
Definition Truncate (t d : Z) : Z := if d <=? 0 then t else t - t mod d.

(** [t.After(u)]. *)
Definition After (t u : Z) : bool := u <? t.

(** [d.Milliseconds()]. *)
Definition Milliseconds (d : Z) : Z := Z.quot d Millisecond.

(** [gomatrixserverlib.AsTimestamp(t)]: [t.UnixNano() / 1000000],
    Go's division truncating towards zero. *)
Definition AsTimestamp (t : Z) : Z := Z.quot t 1000000.

(** *** Locations *)

Definition Second : Z := 1000 * Millisecond.

(** What [Location.lookup] returns for a Unix time in seconds: the
    offset of the zone in force, in seconds east of UTC, and the Unix
    times from which and until which that zone is in force. *)
Record Zone : Type := { offset : Z; zone_start : Z; zone_end : Z }.

(** A [*time.Location], by its [lookup]. *)
Definition Location : Type := Z -> Zone.

(** [time.UTC]: one zone, from the least to the greatest [int64]. *)
Definition UTC : Location :=
  fun _ => {| offset := 0; zone_start := - 2 ^ 63; zone_end := 2 ^ 63 - 1 |}.

(** [t.AddDate(0, 0, days)] for a [t] in the location [loc], which is
    [time.Local] for a [time.Now()]:
    [Date(year, month, day + days, hour, min, sec, nsec, loc)] of the
    date and the clock [t] shows in [loc].  [Date] normalises the day of
    the month by counting days, so the seconds it counts are those of
    the reading of [t] in [loc] plus [days] times 86400; it then
    subtracts the offset of the zone it looks up at that count or, when
    the result lies outside that zone, of the zone in force at the
    result. *)
Definition AddDateIn (loc : Location) (t days : Z) : Z :=
  let sec := t / Second in
  let nsec := t mod Second in
  let unix := sec + offset (loc sec) + days * 86400 in
  let z := loc unix in
  let unix :=
    if offset z =? 0 then unix
    else
      let utc := unix - offset z in
      let off :=
        if (utc <? zone_start z) || (zone_end z <=? utc)
        then offset (loc utc)
        else offset z in
      unix - off in
  unix * Second + nsec.

End GoTime.

(** Two's complement wrap-around of an [int64] result. *)
Definition wrap64 (z : Z) : Z := (z + 2 ^ 63) mod 2 ^ 64 - 2 ^ 63.

(** ** SQL text operators *)

Module SqlText.

(** [s LIKE p]: [%] matches any run of characters, [_] any single
    character, every other character itself.  (No pattern of this file
    holds an escape character.) *)
Fixpoint like (p s : string) : bool :=
  match p with
  | EmptyString => match s with EmptyString => true | String _ _ => false end
  | String c p' =>
      if Ascii.eqb c "%" then
        (fix skip (s : string) : bool :=
           like p' s ||
           match s with
           | EmptyString => false
           | String _ s' => skip s'
           end) s
      else
        match s with
        | EmptyString => false
        | String d s' => (Ascii.eqb c "_" || Ascii.eqb c d) && like p' s'
        end
  end.

(** [LOWER] on one ASCII character. *)
Definition lower_ascii (c : ascii) : ascii :=
  let n := N_of_ascii c in
  if ((65 <=? n) && (n <=? 90))%N then ascii_of_N (n + 32) else c.

(** [LOWER(s)]. *)
Fixpoint lower (s : string) : string :=
  match s with
  | EmptyString => EmptyString
  | String c s' => String (lower_ascii c) (lower s')
  end.

(** A three-valued condition collapsed the way [CASE WHEN] and [WHERE]
    read it: a NULL operand makes the condition not true. *)
Definition like_null (s : option string) (p : string) : bool :=
  match s with
  | Some s => like p s
  | None => false
  end.

Definition lower_null (s : option string) : option string :=
  match s with
  | Some s => Some (lower s)
  | None => None
  end.

(** [MAX] over a text column: NULLs are skipped, the greatest string
    (bytewise order) is kept, and an all-NULL group gives NULL. *)
Definition max_text (l : list (option string)) : option string :=
  fold_left
    (fun acc x =>
       match acc, x with
       | None, _ => x
       | _, None => acc
       | Some a, Some b => if String.ltb a b then Some b else Some a
       end) l None.

(** [w] occurs in [s] as a contiguous substring. *)
Definition occurs (w s : string) : Prop :=
  exists a b, s = a +:+ w +:+ b.

(** A pattern fragment free of wildcards. *)
Fixpoint literal (w : string) : bool :=
  match w with
  | EmptyString => true
  | String c w' =>
      negb (Ascii.eqb c "%") && negb (Ascii.eqb c "_") && literal w'
  end.

End SqlText.

(** ** Platform classification *)

(** The [CASE] of [countR30UsersSQL] over [device_devices.user_agent]. *)
Definition legacy_platform (user_agent : option string) : string :=
  if SqlText.like_null user_agent "%%Android%%" then "android"
  else if SqlText.like_null user_agent "%%iOS%%" then "ios"
  else if SqlText.like_null user_agent "%%Electron%%" then "electron"
  else if SqlText.like_null user_agent "%%Mozilla%%" then "web"
  else if SqlText.like_null user_agent "%%Gecko%%" then "web"
  else "unknown".

(** The [CASE] of [countR30UsersV2SQL] over
    [user_daily_visits.user_agent]. *)
Definition client_type (user_agent : option string) : string :=
  let ua := SqlText.lower_null user_agent in
  if SqlText.like_null ua "%%riot%%" || SqlText.like_null ua "%%element%%" then
    if SqlText.like_null ua "%%electron%%" then "electron"
    else if SqlText.like_null ua "%%android%%" then "android"
    else if SqlText.like_null ua "%%ios%%" then "ios"
    else "unknown"
  else if SqlText.like_null ua "%%mozilla%%" || SqlText.like_null ua "%%gecko%%" then "web"
  else "unknown".

(** ** Tables *)

(** Modelled from the spec: the account kinds of package [api] (user,
    guest, admin, appservice), whose declaration is not part of this
    file's sources; the statement texts fix 1 = user, 3 = admin and
    4 = appservice. *)
Definition AccountTypeUser : Z := 1.
Definition AccountTypeGuest : Z := 2.
Definition AccountTypeAdmin : Z := 3.
Definition AccountTypeAppService : Z := 4.

(** A row of [account_accounts] (the columns the statements read;
    [appservice_id] is tested for NULL). *)
Record Account := {
  acc_localpart : string;
  acc_created_ts : Z;
  acc_account_type : Z;
  acc_appservice_id : option string
}.

(** A row of [device_devices] (the columns the statements read;
    [user_agent] may be NULL, as in [user_daily_visits]). *)
Record Device := {
  dev_localpart : string;
  dev_device_id : string;
  dev_last_seen_ts : Z;
  dev_user_agent : option string
}.

(** A row of [user_daily_visits], as [userDailyVisitsSchema] declares
    it. *)
Record Visit := {
  localpart : string;
  device_id : string;
  timestamp : Z;
  user_agent : option string
}.

(** The columns of [localpart_device_timestamp_idx]. *)
Definition visit_key (v : Visit) : string * string * Z :=
  (localpart v, device_id v, timestamp v).

(** The unique index holds on a table. *)
Definition unique_visits (tbl : list Visit) : Prop :=
  NoDup (visit_key <$> tbl).

Record DB := {
  account_accounts : list Account;
  device_devices : list Device;
  user_daily_visits : list Visit;
  server_version : string
}.

(** ** Relational operators *)

Module Sql.

(** [l INNER JOIN r ON on]. *)
Definition inner_join {A B} (on : A -> B -> bool) (l : list A) (r : list B)
  : list (A * B) :=
  a ← l; b ← r; if on a b then [(a, b)] else [].

(** [l LEFT JOIN r ON on]: a row of [l] without a partner is kept once,
    with NULLs on the right. *)
Definition left_join {A B} (on : A -> B -> bool) (l : list A) (r : list B)
  : list (A * option B) :=
  a ← l;
  match List.filter (on a) r with
  | [] => [(a, None)]
  | ms => (fun b => (a, Some b)) <$> ms
  end.

(** [GROUP BY key]: one group per distinct key, holding the rows of that
    key. *)
Definition group_by {A K} `{EqDecision K} (key : A -> K) (l : list A)
  : list (K * list A) :=
  (fun k => (k, List.filter (fun x => bool_decide (key x = k)) l))
    <$> remove_dups (key <$> l).

(** [MAX] and [MIN] over a [BIGINT] column (NULL on no row). *)
Definition max_int (l : list Z) : option Z :=
  match l with
  | [] => None
  | x :: l' => Some (fold_left Z.max l' x)
  end.

Definition min_int (l : list Z) : option Z :=
  match l with
  | [] => None
  | x :: l' => Some (fold_left Z.min l' x)
  end.

(** [COUNT( * )]. *)
Definition count {A} (l : list A) : Z := Z.of_nat (length l).

(** [x = ANY(arr)]. *)
Definition any_eq (x : Z) (arr : list Z) : bool := bool_decide (x ∈ arr).

End Sql.

(** ** The statements *)

(** [countUsersLastSeenAfterSQL]. *)
Definition countUsersLastSeenAfterSQL (d : DB) (p1 : Z) : Z :=
  let u :=
    Sql.group_by dev_localpart
      (List.filter (fun r => p1 <? dev_last_seen_ts r) (device_devices d)) in
  Sql.count u.

(** The sub-select [uip] of [countR30UsersSQL]. *)
Record Uip := {
  uip_localpart : string;
  uip_last_seen_ts : Z;
  uip_platform : string
}.

Definition uip_of (r : Device) : Uip :=
  {| uip_localpart := dev_localpart r;
     uip_last_seen_ts := dev_last_seen_ts r;
     uip_platform := legacy_platform (dev_user_agent r) |}.

(** The [ON] condition of [countR30UsersSQL]. *)
Definition r30_on (p1 p2 : Z) (users : Account) (uip : Uip) : bool :=
  bool_decide (acc_localpart users = uip_localpart uip)
  && negb (acc_account_type users =? 4)
  && (acc_created_ts users <? p1)
  && (p1 <? uip_last_seen_ts uip)
  && (p2 <? uip_last_seen_ts uip - acc_created_ts users).

(** The grouped sub-select [u] of [countR30UsersSQL]: one row per
    [(users.localpart, platform, users.created_ts)], with
    [MAX(uip.last_seen_ts)] as last column. *)
Definition r30_groups (d : DB) (p1 p2 : Z)
  : list (string * string * Z * option Z) :=
  let joined :=
    Sql.inner_join (r30_on p1 p2) (account_accounts d)
      (uip_of <$> device_devices d) in
  (fun '(k, g) => (k, Sql.max_int ((fun j => uip_last_seen_ts (snd j)) <$> g)))
    <$> Sql.group_by
          (fun j => (acc_localpart (fst j), uip_platform (snd j),
                     acc_created_ts (fst j)))
          joined.

(** [countR30UsersSQL]: rows [(platform, COUNT( * ))]. *)
Definition countR30UsersSQL (d : DB) (p1 p2 : Z) : list (string * Z) :=
  (fun '(platform, g) => (platform, Sql.count g))
    <$> Sql.group_by (fun u => snd (fst (fst u))) (r30_groups d p1 p2).

(** The [HAVING] clause of [countR30UsersV2SQL]. *)
Definition r30v2_having (p3 : Z) (g : list Visit) : bool :=
  match Sql.max_int (timestamp <$> g), Sql.min_int (timestamp <$> g) with
  | Some hi, Some lo => p3 <? hi - lo
  | _, _ => false
  end.

(** The sub-select [temp] of [countR30UsersV2SQL]: rows
    [(localpart, client_type)]. *)
Definition r30v2_temp (d : DB) (p1 p2 p3 : Z) : list (string * string) :=
  let rows :=
    List.filter (fun v => (p1 <? timestamp v) && (timestamp v <? p2))
      (user_daily_visits d) in
  fst <$> List.filter (fun kg => r30v2_having p3 (snd kg))
            (Sql.group_by (fun v => (localpart v, client_type (user_agent v)))
               rows).

(** [countR30UsersV2SQL]: rows [(client_type, count(client_type))]. *)
Definition countR30UsersV2SQL (d : DB) (p1 p2 p3 : Z) : list (string * Z) :=
  (fun '(ct, g) => (ct, Sql.count g))
    <$> Sql.group_by snd (r30v2_temp d p1 p2 p3).

(** [countUserByAccountTypeSQL]. *)
Definition countUserByAccountTypeSQL (d : DB) (p1 : list Z) : Z :=
  Sql.count
    (List.filter (fun a => Sql.any_eq (acc_account_type a) p1)
       (account_accounts d)).

(** The [CASE] of [countRegisteredUserByTypeStmt]; it has no [ELSE], so
    a row matching no branch has a NULL [user_type]. *)
Definition user_type (p1 : list Z) (p2 : Z) (a : Account) : option string :=
  if Sql.any_eq (acc_account_type a) p1 && negb (bool_decide (is_Some (acc_appservice_id a)))
  then Some "native"
  else if (acc_account_type a =? p2) && negb (bool_decide (is_Some (acc_appservice_id a)))
  then Some "guest"
  else if Sql.any_eq (acc_account_type a) p1 && bool_decide (is_Some (acc_appservice_id a))
  then Some "bridged"
  else None.

(** [countRegisteredUserByTypeStmt]: rows [(user_type, count)]. *)
Definition countRegisteredUserByTypeSQL (d : DB) (p1 : list Z) (p2 p3 : Z)
  : list (option string * Z) :=
  (fun '(ut, g) => (ut, Sql.count g))
    <$> Sql.group_by (user_type p1 p2)
          (List.filter (fun a => p3 <? acc_created_ts a) (account_accounts d)).

(** The [SELECT] of [updateUserDailyVisitsSQL]: the joins from left to
    right, the [WHERE] filter, then one row per
    [(u.localpart, u.device_id)] stamped with [$1]. *)
Definition daily_visit_rows (d : DB) (p1 p2 p3 : Z) : list Visit :=
  let udv := List.filter (fun v => timestamp v =? p1) (user_daily_visits d) in
  let u_udv :=
    Sql.left_join
      (fun (u : Device) (v : Visit) =>
         bool_decide (dev_localpart u = localpart v)
         && bool_decide (dev_device_id u = device_id v))
      (device_devices d) udv in
  let u_udv_d :=
    Sql.inner_join
      (fun (l : Device * option Visit) (d' : Device) =>
         bool_decide (dev_localpart d' = dev_localpart (fst l)))
      u_udv (device_devices d) in
  let u_udv_d_a :=
    Sql.inner_join
      (fun (l : Device * option Visit * Device) (a : Account) =>
         bool_decide (acc_localpart a = dev_localpart (fst (fst l))))
      u_udv_d (account_accounts d) in
  let rows :=
    List.filter
      (fun (r : Device * option Visit * Device * Account) =>
         let d' := snd (fst r) in
         let a := snd r in
         (p2 <=? dev_last_seen_ts d') && (dev_last_seen_ts d' <? p3)
         && ((acc_account_type a =? 1) || (acc_account_type a =? 3)))
      u_udv_d_a in
  (fun '(k, g) =>
     {| localpart := fst k;
        device_id := snd k;
        timestamp := p1;
        user_agent :=
          SqlText.max_text
            ((fun r : Device * option Visit * Device * Account =>
                dev_user_agent (fst (fst (fst r)))) <$> g) |})
    <$> Sql.group_by
          (fun r : Device * option Visit * Device * Account =>
             let u := fst (fst (fst r)) in (dev_localpart u, dev_device_id u))
          rows.

(** [INSERT ... ON CONFLICT (localpart, device_id, timestamp) DO
    NOTHING] of one row. *)
Definition insert_do_nothing (tbl : list Visit) (row : Visit) : list Visit :=
  if bool_decide (visit_key row ∈ visit_key <$> tbl) then tbl
  else tbl ++ [row].

(** [updateUserDailyVisitsSQL]: the table after the statement. *)
Definition updateUserDailyVisitsSQL (d : DB) (p1 p2 p3 : Z) : list Visit :=
  fold_left insert_do_nothing (daily_visit_rows d p1 p2 p3)
    (user_daily_visits d).

(** ** The Go side *)

Inductive Stmt :=
  | countUsersLastSeenAfterStmt
  | countR30UsersStmt
  | countR30UsersV2Stmt
  | updateUserDailyVisitsStmt
  | countUserByAccountTypeStmt
  | countRegisteredUserByTypeStmt
  | dbEngineVersionStmt.

(** A statement argument: an integer (timestamps, durations, account
    kinds) or a [pq.Int64Array]. *)
Inductive Arg :=
  | Int64 (z : Z)
  | Int64Array (l : list Z).

(** One execution of a prepared statement. *)
Record Call := { call_stmt : Stmt; call_args : list Arg }.

Inductive error :=
  | StoreError (msg : string)
  | ScanNullError.

(** What the store does to one statement execution: run it, fail it
    outright, or deliver at most [n] rows and then fail the cursor. *)
Inductive Fault :=
  | NoFault
  | FailQuery (e : error)
  | FailRows (n : nat) (e : error).

(** A [*sql.Rows] read to its end: the rows [Next] delivered and the
    final [rows.Err()]. *)
Record Rows (R : Type) := { delivered : list R; rows_err : option error }.
Arguments delivered {R} _.
Arguments rows_err {R} _.

(** The receiver [s] (its watermark) together with what it acts on: the
    database, the number of clock readings taken so far and the log of
    executed statements. *)
Record World := {
  w_db : DB;
  lastUpdate : Z;
  w_reads : nat;
  w_calls : list Call
}.

Module types.

(** [types.UserStatistics], with the fields [UserStatistics] assigns; a
    Go map is [nil] ([None]) or a finite map. *)
Record UserStatistics := {
  RegisteredUsersByType : option (gmap string Z);
  R30Users : option (gmap string Z);
  R30UsersV2 : option (gmap string Z);
  AllUsers : Z;
  NonBridgedUsers : Z;
  DailyUsers : Z;
  MonthlyUsers : Z
}.

(** [types.DatabaseEngine]. *)
Record DatabaseEngine := { Engine : string; Version : string }.

(** Field assignments [stats.F = v]. *)
Definition set_RegisteredUsersByType v (s : UserStatistics) :=
  {| RegisteredUsersByType := v; R30Users := R30Users s;
     R30UsersV2 := R30UsersV2 s; AllUsers := AllUsers s;
     NonBridgedUsers := NonBridgedUsers s; DailyUsers := DailyUsers s;
     MonthlyUsers := MonthlyUsers s |}.
Definition set_R30Users v (s : UserStatistics) :=
  {| RegisteredUsersByType := RegisteredUsersByType s; R30Users := v;
     R30UsersV2 := R30UsersV2 s; AllUsers := AllUsers s;
     NonBridgedUsers := NonBridgedUsers s; DailyUsers := DailyUsers s;
     MonthlyUsers := MonthlyUsers s |}.
Definition set_R30UsersV2 v (s : UserStatistics) :=
  {| RegisteredUsersByType := RegisteredUsersByType s; R30Users := R30Users s;
     R30UsersV2 := v; AllUsers := AllUsers s;
     NonBridgedUsers := NonBridgedUsers s; DailyUsers := DailyUsers s;
     MonthlyUsers := MonthlyUsers s |}.
Definition set_AllUsers v (s : UserStatistics) :=
  {| RegisteredUsersByType := RegisteredUsersByType s; R30Users := R30Users s;
     R30UsersV2 := R30UsersV2 s; AllUsers := v;
     NonBridgedUsers := NonBridgedUsers s; DailyUsers := DailyUsers s;
     MonthlyUsers := MonthlyUsers s |}.
Definition set_NonBridgedUsers v (s : UserStatistics) :=
  {| RegisteredUsersByType := RegisteredUsersByType s; R30Users := R30Users s;
     R30UsersV2 := R30UsersV2 s; AllUsers := AllUsers s;
     NonBridgedUsers := v; DailyUsers := DailyUsers s;
     MonthlyUsers := MonthlyUsers s |}.
Definition set_DailyUsers v (s : UserStatistics) :=
  {| RegisteredUsersByType := RegisteredUsersByType s; R30Users := R30Users s;
     R30UsersV2 := R30UsersV2 s; AllUsers := AllUsers s;
     NonBridgedUsers := NonBridgedUsers s; DailyUsers := v;
     MonthlyUsers := MonthlyUsers s |}.
Definition set_MonthlyUsers v (s : UserStatistics) :=
  {| RegisteredUsersByType := RegisteredUsersByType s; R30Users := R30Users s;
     R30UsersV2 := R30UsersV2 s; AllUsers := AllUsers s;
     NonBridgedUsers := NonBridgedUsers s; DailyUsers := DailyUsers s;
     MonthlyUsers := v |}.

End types.

(** [m[k]]: reading a missing key, or a nil map, gives zero. *)
Definition map_get (m : gmap string Z) (k : string) : Z := default 0 (m !! k).

(** The body shared by the loops of [r30Users] and [r30UsersV2], for one
    scanned row. *)
Definition r30_row (result : gmap string Z) (row : string * Z)
  : gmap string Z :=
  let '(platform, count) := row in
  let result := <["all" := wrap64 (map_get result "all" + count)]> result in
  if bool_decide (platform = "unknown") then result
  else <[platform := count]> result.

(** The five keys [r30UsersV2] and [UserStatistics] start from. *)
Definition r30v2_init : gmap string Z :=
  <["all" := 0]> (<["electron" := 0]> (<["web" := 0]>
    (<["android" := 0]> (<["ios" := 0]> ∅)))).

(** The loop of [registeredUserByType]; scanning a NULL [user_type] into
    a Go string is an error. *)
Fixpoint registered_loop (rows : list (option string * Z))
    (result : gmap string Z) : option (gmap string Z) * option error :=
  match rows with
  | [] => (Some result, None)
  | (None, _) :: _ => (None, Some ScanNullError)
  | (Some userType, count) :: rows' =>
      registered_loop rows' (<[userType := count]> result)
  end.

(** *** The state monad of the methods *)

Definition M (A : Type) : Type := World -> A * World.

#[global] Instance M_ret : MRet M := fun A (a : A) w => (a, w).

#[global] Instance M_bind : MBind M :=
  fun A B (k : A -> M B) (m : M A) w => let '(a, w') := m w in k a w'.

Section Methods.

(** The successive readings of [time.Now()] and the fault the store
    injects into the [k]-th statement execution. *)
Variable clock : nat -> Z.
Variable fault : nat -> Fault.

Definition Now : M Z :=
  fun w =>
    (clock (w_reads w),
     {| w_db := w_db w; lastUpdate := lastUpdate w;
        w_reads := S (w_reads w); w_calls := w_calls w |}).

Definition log_call (c : Call) (w : World) : World :=
  {| w_db := w_db w; lastUpdate := lastUpdate w;
     w_reads := w_reads w; w_calls := w_calls w ++ [c] |}.

(** [stmt.QueryContext(ctx, args...)]. *)
Definition QueryContext {R} (stmt : Stmt) (args : list Arg)
    (sel : DB -> list R) : M (Rows R + error) :=
  fun w =>
    let w' := log_call {| call_stmt := stmt; call_args := args |} w in
    match fault (length (w_calls w)) with
    | NoFault => (inl {| delivered := sel (w_db w); rows_err := None |}, w')
    | FailQuery e => (inr e, w')
    | FailRows n e =>
        (inl {| delivered := take n (sel (w_db w)); rows_err := Some e |}, w')
    end.

(** [stmt.QueryRowContext(ctx, args...).Scan(&result)] for a statement
    that yields exactly one row: only the first row is fetched. *)
Definition QueryRowContext {R} (stmt : Stmt) (args : list Arg)
    (sel : DB -> R) : M (R + error) :=
  fun w =>
    let w' := log_call {| call_stmt := stmt; call_args := args |} w in
    match fault (length (w_calls w)) with
    | NoFault | FailRows (S _) _ => (inl (sel (w_db w)), w')
    | FailQuery e | FailRows O e => (inr e, w')
    end.

(** [stmt.ExecContext(ctx, args...)]: the statement is atomic, a failed
    execution leaves the tables as they were. *)
Definition ExecContext (stmt : Stmt) (args : list Arg)
    (upd : DB -> DB) : M (option error) :=
  fun w =>
    let w' := log_call {| call_stmt := stmt; call_args := args |} w in
    match fault (length (w_calls w)) with
    | NoFault =>
        (None,
         {| w_db := upd (w_db w'); lastUpdate := lastUpdate w';
            w_reads := w_reads w'; w_calls := w_calls w' |})
    | FailQuery e | FailRows _ e => (Some e, w')
    end.

(** A named result [(result int64, err error)] after
    [err = ...Scan(&result)]: zero when the scan failed. *)
Definition scanned_int64 (r : Z + error) : Z * option error :=
  match r with
  | inl v => (v, None)
  | inr e => (0, Some e)
  end.

Definition allUsers : M (Z * option error) :=
  r ← QueryRowContext countUserByAccountTypeStmt
         [Int64Array [AccountTypeUser; AccountTypeGuest; AccountTypeAdmin;
                      AccountTypeAppService]]
         (fun d => countUserByAccountTypeSQL d
                     [AccountTypeUser; AccountTypeGuest; AccountTypeAdmin;
                      AccountTypeAppService]);
  mret (scanned_int64 r).

Definition nonBridgedUsers : M (Z * option error) :=
  r ← QueryRowContext countUserByAccountTypeStmt
         [Int64Array [AccountTypeUser; AccountTypeGuest; AccountTypeAdmin]]
         (fun d => countUserByAccountTypeSQL d
                     [AccountTypeUser; AccountTypeGuest; AccountTypeAdmin]);
  mret (scanned_int64 r).

Definition registeredUserByType : M (option (gmap string Z) * option error) :=
  now ← Now;
  let registeredAfter := GoTime.AddDate now (-1) in
  r ← QueryContext countRegisteredUserByTypeStmt
         [Int64Array [AccountTypeUser; AccountTypeAdmin; AccountTypeAppService];
          Int64 AccountTypeGuest;
          Int64 (GoTime.AsTimestamp registeredAfter)]
         (fun d => countRegisteredUserByTypeSQL d
                     [AccountTypeUser; AccountTypeAdmin; AccountTypeAppService]
                     AccountTypeGuest
                     (GoTime.AsTimestamp registeredAfter));
  match r with
  | inr err => mret (None, Some err)
  | inl rows =>
      match registered_loop (delivered rows) ∅ with
      | (Some result, _) => mret (Some result, rows_err rows)
      | (None, err) => mret (None, err)
      end
  end.

Definition dailyUsers : M (Z * option error) :=
  now ← Now;
  let lastSeenAfter := GoTime.AddDate now (-1) in
  r ← QueryRowContext countUsersLastSeenAfterStmt
         [Int64 (GoTime.AsTimestamp lastSeenAfter)]
         (fun d => countUsersLastSeenAfterSQL d
                     (GoTime.AsTimestamp lastSeenAfter));
  mret (scanned_int64 r).

Definition monthlyUsers : M (Z * option error) :=
  now ← Now;
  let lastSeenAfter := GoTime.AddDate now (-30) in
  r ← QueryRowContext countUsersLastSeenAfterStmt
         [Int64 (GoTime.AsTimestamp lastSeenAfter)]
         (fun d => countUsersLastSeenAfterSQL d
                     (GoTime.AsTimestamp lastSeenAfter));
  mret (scanned_int64 r).

Definition r30Users : M (option (gmap string Z) * option error) :=
  now ← Now;
  let lastSeenAfter := GoTime.AddDate now (-30) in
  let diff := GoTime.Hour * 24 * 30 in
  r ← QueryContext countR30UsersStmt
         [Int64 (GoTime.AsTimestamp lastSeenAfter);
          Int64 (GoTime.Milliseconds diff)]
         (fun d => countR30UsersSQL d (GoTime.AsTimestamp lastSeenAfter)
                     (GoTime.Milliseconds diff));
  match r with
  | inr err => mret (None, Some err)
  | inl rows =>
      mret (Some (fold_left r30_row (delivered rows) ∅), rows_err rows)
  end.

Definition r30UsersV2 : M (option (gmap string Z) * option error) :=
  now1 ← Now;
  let sixtyDaysAgo := GoTime.AddDate now1 (-60) in
  now2 ← Now;
  let thirtyDaysAgo := GoTime.AddDate now2 (-30) in
  now3 ← Now;
  let tomorrow := GoTime.Add now3 (GoTime.Hour * 24) in
  r ← QueryContext countR30UsersV2Stmt
         [Int64 (GoTime.AsTimestamp sixtyDaysAgo);
          Int64 (GoTime.AsTimestamp tomorrow);
          Int64 (GoTime.AsTimestamp thirtyDaysAgo)]
         (fun d => countR30UsersV2SQL d
                     (GoTime.AsTimestamp sixtyDaysAgo)
                     (GoTime.AsTimestamp tomorrow)
                     (GoTime.AsTimestamp thirtyDaysAgo));
  match r with
  | inr err => mret (None, Some err)
  | inl rows =>
      mret (Some (fold_left r30_row (delivered rows) r30v2_init), rows_err rows)
  end.

(** The [stats] and [dbEngine] values [UserStatistics] starts from. *)
Definition stats_init : types.UserStatistics :=
  {| types.R30UsersV2 := Some r30v2_init;
     types.R30Users := Some ∅;
     types.RegisteredUsersByType := Some ∅;
     types.AllUsers := 0;
     types.NonBridgedUsers := 0;
     types.DailyUsers := 0;
     types.MonthlyUsers := 0 |}.

Definition dbEngine_init : types.DatabaseEngine :=
  {| types.Engine := "Postgres"; types.Version := "unknown" |}.

Definition UserStatistics
  : M (types.UserStatistics * types.DatabaseEngine * option error) :=
  let stats := stats_init in
  let dbEngine := dbEngine_init in
  '(v, err) ← allUsers;
  let stats := types.set_AllUsers v stats in
  if err is Some _ then mret (stats, dbEngine, err) else
  '(v, err) ← dailyUsers;
  let stats := types.set_DailyUsers v stats in
  if err is Some _ then mret (stats, dbEngine, err) else
  '(v, err) ← monthlyUsers;
  let stats := types.set_MonthlyUsers v stats in
  if err is Some _ then mret (stats, dbEngine, err) else
  '(v, err) ← r30Users;
  let stats := types.set_R30Users v stats in
  if err is Some _ then mret (stats, dbEngine, err) else
  '(v, err) ← r30UsersV2;
  let stats := types.set_R30UsersV2 v stats in
  if err is Some _ then mret (stats, dbEngine, err) else
  '(v, err) ← nonBridgedUsers;
  let stats := types.set_NonBridgedUsers v stats in
  if err is Some _ then mret (stats, dbEngine, err) else
  '(v, err) ← registeredUserByType;
  let stats := types.set_RegisteredUsersByType v stats in
  if err is Some _ then mret (stats, dbEngine, err) else
  r ← QueryRowContext dbEngineVersionStmt [] server_version;
  match r with
  | inl version =>
      mret (stats,
            {| types.Engine := types.Engine dbEngine;
               types.Version := version |}, None)
  | inr err => mret (stats, dbEngine, Some err)
  end.

(** Reading and writing [s.lastUpdate]. *)
Definition get_lastUpdate : M Z := fun w => (lastUpdate w, w).

Definition set_lastUpdate (t : Z) : M unit :=
  fun w =>
    (tt, {| w_db := w_db w; lastUpdate := t;
            w_reads := w_reads w; w_calls := w_calls w |}).

Definition with_visits (d : DB) (tbl : list Visit) : DB :=
  {| account_accounts := account_accounts d;
     device_devices := device_devices d;
     user_daily_visits := tbl;
     server_version := server_version d |}.

(** [updateUserDailyVisits] in a process whose local zone is UTC. *)
Definition updateUserDailyVisits : M (option error) :=
  now ← Now;
  let todayStart := GoTime.Truncate now (GoTime.Hour * 24) in
  last ← get_lastUpdate;
  let todayStart :=
    if GoTime.After todayStart last then GoTime.AddDate todayStart (-1)
    else todayStart in
  last ← get_lastUpdate;
  now' ← Now;
  err ← ExecContext updateUserDailyVisitsStmt
          [Int64 (GoTime.AsTimestamp todayStart);
           Int64 (GoTime.AsTimestamp last);
           Int64 (GoTime.AsTimestamp now')]
          (fun d => with_visits d
                      (updateUserDailyVisitsSQL d
                         (GoTime.AsTimestamp todayStart)
                         (GoTime.AsTimestamp last)
                         (GoTime.AsTimestamp now')));
  match err with
  | None => now'' ← Now; _ ← set_lastUpdate now''; mret None
  | Some e => mret (Some e)
  end.

(** [updateUserDailyVisits] in a process whose local zone is [loc]:
    [time.Now()] is a time in [time.Local], [Truncate] and [After] act on
    the instant, [AddDate] on the date and clock shown in [loc]. *)
Variable loc : GoTime.Location.

Definition updateUserDailyVisitsIn : M (option error) :=
  now ← Now;
  let todayStart := GoTime.Truncate now (GoTime.Hour * 24) in
  last ← get_lastUpdate;
  let todayStart :=
    if GoTime.After todayStart last then GoTime.AddDateIn loc todayStart (-1)
    else todayStart in
  last ← get_lastUpdate;
  now' ← Now;
  err ← ExecContext updateUserDailyVisitsStmt
          [Int64 (GoTime.AsTimestamp todayStart);
           Int64 (GoTime.AsTimestamp last);
           Int64 (GoTime.AsTimestamp now')]
          (fun d => with_visits d
                      (updateUserDailyVisitsSQL d
                         (GoTime.AsTimestamp todayStart)
                         (GoTime.AsTimestamp last)
                         (GoTime.AsTimestamp now')));
  match err with
  | None => now'' ← Now; _ ← set_lastUpdate now''; mret None
  | Some e => mret (Some e)
  end.

End Methods.

(** * Vocabulary of the statements below *)

(** The rows the R30 statement joins: an account that is not an
    application service, created before [$1], with a device of that
    account seen after [$1] and more than [$2] after the creation. *)
Definition r30_qualifies (p1 p2 : Z) (a : Account) (r : Device) : Prop :=
  acc_localpart a = dev_localpart r
  /\ acc_account_type a ≠ 4
  /\ acc_created_ts a < p1
  /\ p1 < dev_last_seen_ts r
  /\ p2 < dev_last_seen_ts r - acc_created_ts a.

(** The groups of one platform. *)
Definition r30_groups_of (d : DB) (p1 p2 : Z) (platform : string)
  : list (string * string * Z * option Z) :=
  List.filter (fun u => bool_decide (u.1.1.2 = platform)) (r30_groups d p1 p2).

(** The world after a method that took [reads] clock readings and
    executed the statement call [c]. *)
Definition after (reads : nat) (c : Call) (w : World) : World :=
  {| w_db := w_db w; lastUpdate := lastUpdate w;
     w_reads := reads + w_reads w; w_calls := w_calls w ++ [c] |}.

(** The arguments [r30Users] passes for a clock reading [now]. *)
Definition r30_since (now : Z) : Z :=
  GoTime.AsTimestamp (GoTime.AddDate now (-30)).

Definition r30_diff : Z := GoTime.Milliseconds (GoTime.Hour * 24 * 30).

(** The users the R30 statement retains, each once. *)
Definition r30_qualifying_users (d : DB) (p1 p2 : Z) : list string :=
  remove_dups
    (acc_localpart <$>
       List.filter
         (fun a => existsb (fun r => r30_on p1 p2 a (uip_of r)) (device_devices d))
         (account_accounts d)).

(** ** Sample data *)

Module Sample.

(** 2022-07-01 12:00:00 UTC, in nanoseconds; the clock stands still and
    the store never fails. *)
Definition noon : Z := 1656676800 * 10 ^ 9.
Definition steady : nat -> Z := fun _ => noon.
Definition healthy : nat -> Fault := fun _ => NoFault.

(** The timestamp (milliseconds) [n] days before [noon]. *)
Definition days_ago (n : Z) : Z := GoTime.AsTimestamp noon - n * 86400000.

Definition world_of (d : DB) : World :=
  {| w_db := d; lastUpdate := noon - GoTime.Hour; w_reads := 0; w_calls := [] |}.

(** One account, forty days old, with a device on each of two
    platforms, both seen this week. *)
Definition two_platforms : DB :=
  {| account_accounts :=
       [ {| acc_localpart := "alice"; acc_created_ts := days_ago 40;
            acc_account_type := 1; acc_appservice_id := None |} ];
     device_devices :=
       [ {| dev_localpart := "alice"; dev_device_id := "PHONE";
            dev_last_seen_ts := days_ago 5;
            dev_user_agent := Some "Element/1.4.2 (Android 12)" |};
         {| dev_localpart := "alice"; dev_device_id := "TABLET";
            dev_last_seen_ts := days_ago 3;
            dev_user_agent := Some "Element/1.8.0 (iPad; iOS 15.5)" |} ];
     user_daily_visits := [];
     server_version := "14.4" |}.

(** One account whose only device has an unrecognised identifier, next
    to an account with a recognised one. *)
Definition with_unknown : DB :=
  {| account_accounts :=
       [ {| acc_localpart := "bob"; acc_created_ts := days_ago 50;
            acc_account_type := 1; acc_appservice_id := None |};
         {| acc_localpart := "carol"; acc_created_ts := days_ago 45;
            acc_account_type := 3; acc_appservice_id := None |} ];
     device_devices :=
       [ {| dev_localpart := "bob"; dev_device_id := "CLI";
            dev_last_seen_ts := days_ago 2;
            dev_user_agent := Some "curl/7.81.0" |};
         {| dev_localpart := "carol"; dev_device_id := "DESK";
            dev_last_seen_ts := days_ago 1;
            dev_user_agent := Some "Mozilla/5.0 (X11; Linux x86_64)" |} ];
     user_daily_visits := [];
     server_version := "14.4" |}.

End Sample.

(** The arguments [r30UsersV2] passes: [$1] from its first clock
    reading, [$3] from its second, [$2] from its third. *)
Definition r30v2_from (now : Z) : Z :=
  GoTime.AsTimestamp (GoTime.AddDate now (-60)).

Definition r30v2_gap (now : Z) : Z :=
  GoTime.AsTimestamp (GoTime.AddDate now (-30)).

Definition r30v2_until (now : Z) : Z :=
  GoTime.AsTimestamp (GoTime.Add now (GoTime.Hour * 24)).

(** The keys of an R30V2 result. *)
Definition r30v2_keys : gset string :=
  {[ "ios"; "android"; "web"; "electron"; "all" ]}.

Module SampleV2.
Import Sample.

(** Bob visited 45 and 10 days ago, Dave 45 and 20 days ago, both with
    a browser. *)
Definition browser : option string :=
  Some "Mozilla/5.0 (X11; Linux x86_64; rv:102.0) Gecko/20100101 Firefox/102.0".

Definition bob_only : DB :=
  {| account_accounts := [];
     device_devices := [];
     user_daily_visits :=
       [ {| localpart := "bob"; device_id := "DESK";
            timestamp := days_ago 45; user_agent := browser |};
         {| localpart := "bob"; device_id := "DESK";
            timestamp := days_ago 10; user_agent := browser |} ];
     server_version := "14.4" |}.

Definition bob_and_dave : DB :=
  {| account_accounts := [];
     device_devices := [];
     user_daily_visits :=
       user_daily_visits bob_only ++
       [ {| localpart := "dave"; device_id := "LAP";
            timestamp := days_ago 45; user_agent := browser |};
         {| localpart := "dave"; device_id := "LAP";
            timestamp := days_ago 20; user_agent := browser |} ];
     server_version := "14.4" |}.

End SampleV2.


(** The store made a statement execution fail with [e]. *)
Definition fails_with (f : Fault) (e : error) : Prop :=
  f = FailQuery e \/ exists n, f = FailRows n e.

Module SampleFaults.

(** The store refuses the [k]-th statement execution and no other. *)
Definition broken_at (k : nat) : nat -> Fault :=
  fun i =>
    if (i =? k)%nat then FailQuery (StoreError "connection reset")
    else NoFault.


End SampleFaults.

(** The day stamp [updateUserDailyVisits] passes as [$1], for a first
    clock reading [now] and a watermark [last]. *)
Definition day_stamp (now last : Z) : Z :=
  let todayStart := now - now mod GoTime.Day in
  if bool_decide (last < todayStart) then todayStart - GoTime.Day
  else todayStart.

(** The same for a process whose local zone is [loc]. *)
Definition day_stamp_in (loc : GoTime.Location) (now last : Z) : Z :=
  let todayStart := now - now mod GoTime.Day in
  if bool_decide (last < todayStart) then GoTime.AddDateIn loc todayStart (-1)
  else todayStart.

(** The devices [updateUserDailyVisitsSQL] selects for the window
    [[$2, $3)]: device [dev] of user [lp], when some device of that user
    was last seen inside the window and the account is a user or an
    admin. *)
Definition visit_due (d : DB) (p2 p3 : Z) (lp dev : string) : Prop :=
  exists u d' a,
    u ∈ device_devices d /\ d' ∈ device_devices d /\ a ∈ account_accounts d
    /\ dev_localpart u = lp /\ dev_device_id u = dev
    /\ dev_localpart d' = lp /\ acc_localpart a = lp
    /\ p2 <= dev_last_seen_ts d' < p3
    /\ (acc_account_type a = 1 \/ acc_account_type a = 3).

Module SampleVisits.
Import Sample.

(** Alice's phone was seen an hour and a half ago, her tablet three
    days ago; one fact of an earlier day is in the table. *)
Definition ledger : DB :=
  {| account_accounts :=
       [ {| acc_localpart := "alice"; acc_created_ts := days_ago 40;
            acc_account_type := 1; acc_appservice_id := None |} ];
     device_devices :=
       [ {| dev_localpart := "alice"; dev_device_id := "PHONE";
            dev_last_seen_ts := GoTime.AsTimestamp noon - 5400000;
            dev_user_agent := Some "Element/1.4.2 (Android 12)" |};
         {| dev_localpart := "alice"; dev_device_id := "TABLET";
            dev_last_seen_ts := days_ago 3;
            dev_user_agent := None |} ];
     user_daily_visits :=
       [ {| localpart := "alice"; device_id := "TABLET";
            timestamp := 1656374400000; user_agent := None |} ];
     server_version := "14.4" |}.

(** The watermark is two hours before [noon]. *)
Definition world : World :=
  {| w_db := ledger; lastUpdate := noon - 2 * GoTime.Hour;
     w_reads := 0; w_calls := [] |}.

End SampleVisits.

Module SampleZone.

(** America/New_York around 2022: EST (UTC-5) from 2021-11-07 06:00:00
    UTC, EDT (UTC-4) from 2022-03-13 07:00:00 UTC, EST again from
    2022-11-06 06:00:00 UTC until 2023-03-12 07:00:00 UTC. *)
Definition new_york : GoTime.Location :=
  fun sec =>
    if sec <? 1647154800 then
      {| GoTime.offset := -18000;
         GoTime.zone_start := 1636264800; GoTime.zone_end := 1647154800 |}
    else if sec <? 1667714400 then
      {| GoTime.offset := -14400;
         GoTime.zone_start := 1647154800; GoTime.zone_end := 1667714400 |}
    else
      {| GoTime.offset := -18000;
         GoTime.zone_start := 1667714400; GoTime.zone_end := 1678604400 |}.

(** 2022-03-13, 2022-03-14, 2022-11-06 and 2022-11-07, each at 00:00:00
    UTC, in nanoseconds. *)
Definition march_13 : Z := 1647129600 * 10 ^ 9.
Definition march_14 : Z := 1647216000 * 10 ^ 9.
Definition november_6 : Z := 1667692800 * 10 ^ 9.
Definition november_7 : Z := 1667779200 * 10 ^ 9.

(** Half a minute past a midnight (UTC). *)
Definition half_past (midnight : Z) : nat -> Z :=
  fun _ => midnight + 30 * GoTime.Second.

(** Alice's phone was seen ten minutes before [midnight]; the fact of
    the day then ending was written during that day, with the stamp
    [stamp]; the watermark is an hour before [midnight]. *)
Definition fact (stamp : Z) : Visit :=
  {| localpart := "alice"; device_id := "PHONE";
     timestamp := stamp;
     user_agent := Some "Element/1.4.2 (Android 12)" |}.

Definition world (midnight : Z) (stamp : Z) : World :=
  {| w_db :=
       {| account_accounts :=
            [ {| acc_localpart := "alice";
                 acc_created_ts := 1640995200000;
                 acc_account_type := 1; acc_appservice_id := None |} ];
          device_devices :=
            [ {| dev_localpart := "alice"; dev_device_id := "PHONE";
                 dev_last_seen_ts := GoTime.AsTimestamp midnight - 600000;
                 dev_user_agent := Some "Element/1.4.2 (Android 12)" |} ];
          user_daily_visits := [ fact stamp ];
          server_version := "14.4" |};
     lastUpdate := midnight - GoTime.Hour;
     w_reads := 0; w_calls := [] |}.

End SampleZone.

(** The groups of one client type among the rows of [r30v2_temp]. *)
Definition r30v2_of (temp : list (string * string)) (ct : string)
  : list (string * string) :=
  List.filter (fun x => bool_decide (x.2 = ct)) temp.

Module SampleV2Window.
Import Sample.

(** A clock eighty days after the epoch, where the date [r30UsersV2]
    passes as threshold is fifty days, and a user with facts 59 days
    and 1 day old. *)
Definition early : Z := 80 * GoTime.Day.

Definition early_visits : DB :=
  {| account_accounts := [];
     device_devices := [];
     user_daily_visits :=
       [ {| localpart := "bob"; device_id := "DESK";
            timestamp := GoTime.AsTimestamp early - 59 * 86400000;
            user_agent := SampleV2.browser |};
         {| localpart := "bob"; device_id := "DESK";
            timestamp := GoTime.AsTimestamp early - 1 * 86400000;
            user_agent := SampleV2.browser |} ];
     server_version := "14.4" |}.

End SampleV2Window.

(** The accounts [countRegisteredUserByTypeStmt] looks at: those created
    after [$3]. *)
Definition registered_since (d : DB) (p3 : Z) : list Account :=
  List.filter (fun a => p3 <? acc_created_ts a) (account_accounts d).

(** The argument [registeredUserByType] passes as [$3]. *)
Definition registered_after (now : Z) : Z :=
  GoTime.AsTimestamp (GoTime.AddDate now (-1)).

Module SampleAccounts.
Import Sample.

(** Three accounts registered this morning: a user, a guest, and a
    user of an application service; and an older admin. *)
Definition registry : DB :=
  {| account_accounts :=
       [ {| acc_localpart := "alice"; acc_created_ts := GoTime.AsTimestamp noon - 3600000;
            acc_account_type := 1; acc_appservice_id := None |};
         {| acc_localpart := "guest-17"; acc_created_ts := GoTime.AsTimestamp noon - 7200000;
            acc_account_type := 2; acc_appservice_id := None |};
         {| acc_localpart := "_irc_bob"; acc_created_ts := GoTime.AsTimestamp noon - 9000000;
            acc_account_type := 4; acc_appservice_id := Some "irc" |};
         {| acc_localpart := "root"; acc_created_ts := days_ago 300;
            acc_account_type := 3; acc_appservice_id := None |} ];
     device_devices :=
       [ {| dev_localpart := "alice"; dev_device_id := "PHONE";
            dev_last_seen_ts := GoTime.AsTimestamp noon - 1800000;
            dev_user_agent := Some "Element/1.4.2 (Android 12)" |};
         {| dev_localpart := "root"; dev_device_id := "DESK";
            dev_last_seen_ts := days_ago 7;
            dev_user_agent := Some "Mozilla/5.0 (X11; Linux x86_64)" |} ];
     user_daily_visits := [];
     server_version := "14.4" |}.

End SampleAccounts.

(** The primary key of [device_devices]. *)
Definition device_key (r : Device) : string * string :=
  (dev_localpart r, dev_device_id r).

(** ** The timers of [startTimers] *)

(** A line written through [logrus]. *)
Inductive LogLine :=
  | LogInfo (msg : string)
  | LogError (msg : string) (err : error).

(** The process as its timers see it: the receiver with its world, the
    log, and the delays of the timers [time.AfterFunc] has armed and
    that have not fired yet.  Every timer of this file calls
    [updateStatsFunc]. *)
Record Process := {
  p_world : World;
  p_log : list LogLine;
  p_timers : list Z
}.

Module Timers.

Definition Minute : Z := 60 * 1000 * GoTime.Millisecond.

Definition log_line (l : LogLine) (p : Process) : Process :=
  {| p_world := p_world p; p_log := p_log p ++ [l]; p_timers := p_timers p |}.

(** [time.AfterFunc(d, updateStatsFunc)]. *)
Definition AfterFunc (d : Z) (p : Process) : Process :=
  {| p_world := p_world p; p_log := p_log p; p_timers := p_timers p ++ [d] |}.

Section Timers.
Variable clock : nat -> Z.
Variable fault : nat -> Fault.

(** The closure [updateStatsFunc] of [startTimers]. *)
Definition updateStatsFunc (p : Process) : Process :=
  let p := log_line (LogInfo "Executing UpdateUserDailyVisits") p in
  let '(err, w) := updateUserDailyVisits clock fault (p_world p) in
  let p := {| p_world := w; p_log := p_log p; p_timers := p_timers p |} in
  let p :=
    match err with
    | Some e => log_line (LogError "failed to update daily user visits" e) p
    | None => p
    end in
  AfterFunc (GoTime.Hour * 3) p.

(** [startTimers]. *)
Definition startTimers (p : Process) : Process := AfterFunc (Minute * 5) p.

(** The runtime fires the timer armed first, which runs
    [updateStatsFunc]; without an armed timer nothing runs any more. *)
Definition fire (p : Process) : option Process :=
  match p_timers p with
  | [] => None
  | _ :: timers =>
      Some (updateStatsFunc
              {| p_world := p_world p; p_log := p_log p; p_timers := timers |})
  end.

Fixpoint fire_n (n : nat) (p : Process) : option Process :=
  match n with
  | O => Some p
  | S n' =>
      match fire p with
      | Some p' => fire_n n' p'
      | None => None
      end
  end.

End Timers.

End Timers.

(** The store fails the [i]-th statement execution. *)
Definition faulty (fault : nat -> Fault) (i : nat) : bool :=
  match fault i with
  | NoFault => false
  | _ => true
  end.

Definition is_error_line (l : LogLine) : bool :=
  match l with
  | LogError _ _ => true
  | LogInfo _ => false
  end.

Module SampleTimers.

(** A store that fails every second statement execution. *)
Definition flaky : nat -> Fault :=
  fun i => if Nat.even i then NoFault else FailQuery (StoreError "timeout").

(** A clock that advances three hours per reading. *)
Definition ticking : nat -> Z :=
  fun i => Sample.noon + Z.of_nat i * (3 * GoTime.Hour).

Definition fresh : Process :=
  {| p_world := SampleVisits.world; p_log := []; p_timers := [] |}.

End SampleTimers.

(** * Proof automation *)



(** Closes the facts about the world after a run of [UserStatistics]
    whose result is known. *)
Ltac snapshot_world_leaf Hrun :=
  unfold mret, M_ret in Hrun;
  match type of Hrun with
  | ?run = _ => subst run
  end;
  cbn [fst snd after w_db lastUpdate w_reads Nat.add];
  repeat match goal with |- _ /\ _ => split end;
  first [reflexivity | lia | discriminate | (intros; discriminate) | (intros; lia)].

(** * Properties *)

(** ** LIKE patterns of the form [%%w%%] *)

Section LikeFacts.
Import SqlText.

Lemma append_nil_l (s : string) : "" +:+ s = s.
Proof. reflexivity. Qed.

Lemma append_cons (c : ascii) (a b : string) :
  String c a +:+ b = String c (a +:+ b).
Proof. reflexivity. Qed.

Lemma append_nil_r (s : string) : s +:+ "" = s.
Proof.
  induction s as [|c s IH]; [done | by rewrite append_cons, IH].
Qed.

Lemma append_assoc (a b c : string) : (a +:+ b) +:+ c = a +:+ (b +:+ c).
Proof.
  induction a as [|x a IH]; [done | by rewrite !append_cons, IH].
Qed.

Lemma like_percent (p s : string) :
  like (String "%" p) s = true <-> exists a b, s = a +:+ b /\ like p b = true.
Proof.
  change (like (String "%" p) s) with
    ((fix skip (s : string) : bool :=
        like p s || match s with
                    | EmptyString => false
                    | String _ s' => skip s'
                    end) s).
  induction s as [|c s IH].
  - rewrite orb_false_r. split.
    + intros H. by exists "", "".
    + intros ([|x a] & b & Hs & Hb); [| discriminate].
      rewrite append_nil_l in Hs. by subst b.
  - rewrite orb_true_iff, IH. split.
    + intros [H | (a & b & -> & Hb)].
      * by exists "", (String c s).
      * by exists (String c a), b.
    + intros ([|x a] & b & Hs & Hb).
      * left. rewrite append_nil_l in Hs. by subst b.
      * right. rewrite append_cons in Hs. injection Hs as -> ->. by exists a, b.
Qed.

Lemma like_literal (w q s : string) :
  literal w = true ->
  like (w +:+ q) s = true <-> exists t, s = w +:+ t /\ like q t = true.
Proof.
  revert s. induction w as [|c w IH]; intros s Hw.
  - split; [intros H; by exists s | by intros (t & -> & H)].
  - simpl in Hw. apply andb_true_iff in Hw as [Hc Hw].
    apply andb_true_iff in Hc as [Hc1 Hc2].
    apply negb_true_iff in Hc1, Hc2. rewrite append_cons. simpl.
    rewrite Hc1, Hc2. simpl.
    destruct s as [|d s].
    + split; [done | by intros (t & Ht & _)].
    + rewrite andb_true_iff, (IH s Hw), Ascii.eqb_eq. split.
      * intros (-> & t & -> & Ht). by exists t.
      * intros (t & Ht & Hq). rewrite append_cons in Ht.
        injection Ht as -> ->. split; [done | by exists t].
Qed.

Lemma like_any (s : string) : like "%%" s = true.
Proof.
  apply like_percent. exists "", s. split; [done |].
  apply like_percent. exists s, "". split; [by rewrite append_nil_r | done].
Qed.

Lemma like_contains (w s : string) :
  literal w = true ->
  like ("%%" +:+ w +:+ "%%") s = true <-> occurs w s.
Proof.
  intros Hw. unfold occurs. rewrite !append_cons, append_nil_l, like_percent.
  split.
  - intros (a & b & -> & Hb). apply like_percent in Hb as (a' & b' & -> & Hb).
    apply (like_literal w "%%" b' Hw) in Hb as (t & -> & _).
    exists (a +:+ a'), t. by rewrite append_assoc.
  - intros (a & b & ->). exists a, (w +:+ b). split; [done |].
    apply like_percent. exists "", (w +:+ b). split; [done |].
    apply (like_literal w "%%" _ Hw). exists b. split; [done | apply like_any].
Qed.

End LikeFacts.

(** ** Platform classification of R30 *)

Example legacy_platform_android :
  legacy_platform (Some "Element/1.4.2 (Android 12)") = "android".
Proof. reflexivity. Qed.

Example legacy_platform_lower_case :
  legacy_platform (Some "element android") = "unknown".
Proof. reflexivity. Qed.

Example legacy_platform_first_match :
  legacy_platform (Some "Mozilla/5.0 (Linux; Android 12) Gecko") = "android".
Proof. reflexivity. Qed.

Example client_type_web :
  client_type (Some "MOZILLA/5.0 (X11) Gecko/20100101 Firefox/102.0") = "web".
Proof. reflexivity. Qed.

Example client_type_element_android :
  client_type (Some "Element/1.4.2 (Android 12)") = "android".
Proof. reflexivity. Qed.

Example client_type_null : client_type None = "unknown".
Proof. reflexivity. Qed.

Lemma like_keyword_false (w s : string) :
  SqlText.literal w = true ->
  SqlText.like ("%%" +:+ w +:+ "%%") s = false <-> ~ SqlText.occurs w s.
Proof.
  intros Hw. rewrite <- (like_contains w s Hw).
  destruct (SqlText.like _ s); split; done.
Qed.

(** C2, as stated: any casing of a keyword is recognised.  The statement
    text compares with [LIKE], which is case-sensitive: the identifier
    ["android"] contains the keyword in lower case and is classified
    [unknown]. *)
Lemma legacy_platform_not_case_insensitive :
  ~ (forall s : string,
       SqlText.occurs "android" (SqlText.lower s) ->
       legacy_platform (Some s) = "android").
Proof.
  intros H. specialize (H "android").
  assert (Hocc : SqlText.occurs "android" (SqlText.lower "android")).
  { by exists "", "". }
  specialize (H Hocc). vm_compute in H. discriminate.
Qed.

(** C2, amended: the classification of R30 matches its keywords with
    their exact casing, first match first: an identifier containing
    [Android] is [android]; otherwise one containing [iOS] is [ios];
    otherwise one containing [Electron] is [electron]; otherwise one
    containing [Mozilla] or [Gecko] is [web]; every other identifier, and
    a missing one, is [unknown]. *)
Theorem legacy_platform_case_sensitive (s : string) :
  (SqlText.occurs "Android" s -> legacy_platform (Some s) = "android")
  /\ (~ SqlText.occurs "Android" s -> SqlText.occurs "iOS" s ->
      legacy_platform (Some s) = "ios")
  /\ (~ SqlText.occurs "Android" s -> ~ SqlText.occurs "iOS" s ->
      SqlText.occurs "Electron" s -> legacy_platform (Some s) = "electron")
  /\ (~ SqlText.occurs "Android" s -> ~ SqlText.occurs "iOS" s ->
      ~ SqlText.occurs "Electron" s ->
      SqlText.occurs "Mozilla" s \/ SqlText.occurs "Gecko" s ->
      legacy_platform (Some s) = "web")
  /\ (~ SqlText.occurs "Android" s -> ~ SqlText.occurs "iOS" s ->
      ~ SqlText.occurs "Electron" s -> ~ SqlText.occurs "Mozilla" s ->
      ~ SqlText.occurs "Gecko" s -> legacy_platform (Some s) = "unknown")
  /\ legacy_platform None = "unknown".
Proof.
  pose proof (like_contains "Android" s eq_refl) as HA.
  pose proof (like_contains "iOS" s eq_refl) as HI.
  pose proof (like_contains "Electron" s eq_refl) as HE.
  pose proof (like_contains "Mozilla" s eq_refl) as HM.
  pose proof (like_contains "Gecko" s eq_refl) as HG.
  pose proof (like_keyword_false "Android" s eq_refl) as HA'.
  pose proof (like_keyword_false "iOS" s eq_refl) as HI'.
  pose proof (like_keyword_false "Electron" s eq_refl) as HE'.
  pose proof (like_keyword_false "Mozilla" s eq_refl) as HM'.
  pose proof (like_keyword_false "Gecko" s eq_refl) as HG'.
  change ("%%" +:+ "Android" +:+ "%%") with "%%Android%%" in *.
  change ("%%" +:+ "iOS" +:+ "%%") with "%%iOS%%" in *.
  change ("%%" +:+ "Electron" +:+ "%%") with "%%Electron%%" in *.
  change ("%%" +:+ "Mozilla" +:+ "%%") with "%%Mozilla%%" in *.
  change ("%%" +:+ "Gecko" +:+ "%%") with "%%Gecko%%" in *.
  unfold legacy_platform, SqlText.like_null.
  repeat split.
  - intros H. by rewrite (proj2 HA H).
  - intros H1 H2. by rewrite (proj2 HA' H1), (proj2 HI H2).
  - intros H1 H2 H3. by rewrite (proj2 HA' H1), (proj2 HI' H2), (proj2 HE H3).
  - intros H1 H2 H3 [H4 | H4].
    + by rewrite (proj2 HA' H1), (proj2 HI' H2), (proj2 HE' H3), (proj2 HM H4).
    + rewrite (proj2 HA' H1), (proj2 HI' H2), (proj2 HE' H3), (proj2 HG H4).
      by destruct (SqlText.like "%%Mozilla%%" s).
  - intros H1 H2 H3 H4 H5.
    by rewrite (proj2 HA' H1), (proj2 HI' H2), (proj2 HE' H3), (proj2 HM' H4),
      (proj2 HG' H5).
Qed.

(** ** GROUP BY *)

Section GroupBy.
Context {A K : Type} `{EqDecision K} (key : A -> K).

Lemma group_by_keys (l : list A) :
  (Sql.group_by key l).*1 = remove_dups (key <$> l).
Proof.
  unfold Sql.group_by. generalize (remove_dups (key <$> l)). intros ks.
  induction ks as [|k ks IH]; [done |].
  rewrite !fmap_cons. simpl. f_equal. exact IH.
Qed.

Lemma group_by_NoDup (l : list A) : NoDup (Sql.group_by key l).*1.
Proof. rewrite group_by_keys. apply NoDup_remove_dups. Qed.

Lemma elem_of_group_by (l : list A) (k : K) (g : list A) :
  (k, g) ∈ Sql.group_by key l <->
  k ∈ key <$> l /\ g = List.filter (fun x => bool_decide (key x = k)) l.
Proof.
  unfold Sql.group_by. rewrite list_elem_of_fmap. split.
  - intros (k' & Heq & Hk). injection Heq as -> ->.
    split; [exact (proj1 (elem_of_remove_dups _ _) Hk) | done].
  - intros (Hk & ->). exists k. split; [done |].
    exact (proj2 (elem_of_remove_dups _ _) Hk).
Qed.

Lemma group_by_nil (l : list A) : Sql.group_by key l = [] <-> l = [].
Proof.
  split; [| by intros ->].
  destruct l as [|x l]; [done |]. intros Hnil.
  assert (Hin : (key x, List.filter (fun y => bool_decide (key y = key x)) (x :: l))
                ∈ Sql.group_by key (x :: l)).
  { apply elem_of_group_by. split; [| done]. rewrite fmap_cons. left. }
  rewrite Hnil in Hin. by apply elem_of_nil in Hin.
Qed.

(** The groups partition the rows: their sizes add up to the number of
    rows. *)
Lemma count_one (x : K) (ks : list K) :
  NoDup ks -> x ∈ ks ->
  foldr Z.add 0 ((fun k => if bool_decide (x = k) then 1 else 0) <$> ks) = 1.
Proof.
  induction 1 as [|k ks Hk Hnd IH]; intros Hx; [by apply elem_of_nil in Hx |].
  rewrite fmap_cons. simpl. apply elem_of_cons in Hx as [-> | Hx].
  - rewrite bool_decide_eq_true_2 by done.
    assert (Hz : foldr Z.add 0
              ((fun k0 => if bool_decide (k = k0) then 1 else 0) <$> ks) = 0).
    { clear IH Hnd. induction ks as [|k' ks IH']; [done |].
      rewrite fmap_cons. simpl. apply not_elem_of_cons in Hk as [Hne Hk].
      rewrite bool_decide_eq_false_2 by done. by rewrite IH'. }
    rewrite Hz. lia.
  - rewrite bool_decide_eq_false_2 by (intros ->; done). rewrite IH by done. lia.
Qed.

Lemma sum_pointwise (f g : K -> Z) (ks : list K) :
  foldr Z.add 0 ((fun k => f k + g k) <$> ks)
  = foldr Z.add 0 (f <$> ks) + foldr Z.add 0 (g <$> ks).
Proof.
  induction ks as [|k ks IH]; [done |]. rewrite !fmap_cons. simpl. lia.
Qed.

Lemma filter_sizes (ks : list K) (l : list A) :
  NoDup ks -> (forall x, x ∈ l -> key x ∈ ks) ->
  foldr Z.add 0
    ((fun k => Sql.count (List.filter (fun x => bool_decide (key x = k)) l))
       <$> ks)
  = Sql.count l.
Proof.
  intros Hnd. unfold Sql.count. induction l as [|x l IH]; intros Hks.
  - simpl. clear. induction ks as [|k ks IH]; [done |].
    rewrite fmap_cons. simpl. by rewrite IH.
  - assert (Hx : key x ∈ ks) by (apply Hks; left).
    assert (Hl : forall y, y ∈ l -> key y ∈ ks).
    { intros y Hy. apply Hks. by right. }
    rewrite (list_fmap_ext _
      (fun k => (if bool_decide (key x = k) then 1 else 0)
                + Z.of_nat (length
                    (List.filter (fun y => bool_decide (key y = k)) l))) ks).
    + rewrite sum_pointwise, (count_one (key x) ks Hnd Hx), (IH Hl).
      simpl length. lia.
    + intros _ k _. simpl List.filter.
      destruct (bool_decide (key x = k)); simpl length; lia.
Qed.

Lemma group_by_sizes (l : list A) :
  foldr Z.add 0 ((fun kg => Sql.count kg.2) <$> Sql.group_by key l)
  = Sql.count l.
Proof.
  unfold Sql.group_by. rewrite <- list_fmap_compose.
  rewrite <- (filter_sizes (remove_dups (key <$> l)) l).
  - done.
  - apply NoDup_remove_dups.
  - intros x Hx. apply elem_of_remove_dups, list_elem_of_fmap. by exists x.
Qed.

End GroupBy.

(** ** The counting loop of [r30Users] and [r30UsersV2] *)

Lemma wrap64_small (z : Z) : - 2 ^ 63 <= z < 2 ^ 63 -> wrap64 z = z.
Proof. intros Hz. unfold wrap64. rewrite Z.mod_small; lia. Qed.

Lemma wrap64_add_l (x y : Z) : wrap64 (wrap64 x + y) = wrap64 (x + y).
Proof.
  unfold wrap64. f_equal.
  replace ((x + 2 ^ 63) mod 2 ^ 64 - 2 ^ 63 + y + 2 ^ 63)
    with ((x + 2 ^ 63) mod 2 ^ 64 + y) by lia.
  rewrite Zplus_mod_idemp_l. f_equal. lia.
Qed.

Lemma r30_row_all (m : gmap string Z) (p : string) (c : Z) :
  p ≠ "all" ->
  r30_row m (p, c) !! "all" = Some (wrap64 (map_get m "all" + c)).
Proof.
  intros Hp. unfold r30_row. case_bool_decide.
  - by rewrite lookup_insert_eq.
  - rewrite lookup_insert_ne by done. by rewrite lookup_insert_eq.
Qed.

Lemma r30_row_other (m : gmap string Z) (p q : string) (c : Z) :
  q ≠ "all" -> (q = "unknown" \/ q ≠ p) ->
  r30_row m (p, c) !! q = m !! q.
Proof.
  intros Hq Hqp. unfold r30_row. case_bool_decide as Hu.
  - by rewrite lookup_insert_ne.
  - assert (p ≠ q) by (destruct Hqp; congruence).
    by rewrite !lookup_insert_ne.
Qed.

Lemma r30_row_platform (m : gmap string Z) (p : string) (c : Z) :
  p ≠ "unknown" -> r30_row m (p, c) !! p = Some c.
Proof.
  intros Hp. unfold r30_row. rewrite bool_decide_eq_false_2 by done.
  by rewrite lookup_insert_eq.
Qed.

Lemma r30_loop_cons (r : string * Z) (rows : list (string * Z))
    (m : gmap string Z) :
  fold_left r30_row (r :: rows) m = fold_left r30_row rows (r30_row m r).
Proof. reflexivity. Qed.

Lemma r30_loop_all (rows : list (string * Z)) (m : gmap string Z) :
  "all" ∉ rows.*1 ->
  fold_left r30_row rows m !! "all" =
    match rows with
    | [] => m !! "all"
    | _ :: _ => Some (wrap64 (map_get m "all" + foldr Z.add 0 rows.*2))
    end.
Proof.
  revert m. induction rows as [|[p c] rows IH]; intros m Hall; [done |].
  rewrite fmap_cons in Hall. apply not_elem_of_cons in Hall as [Hp Hall].
  simpl in Hp. rewrite r30_loop_cons. rewrite (IH _ Hall).
  assert (Hrow := r30_row_all m p c (not_eq_sym Hp)).
  destruct rows as [|r rows].
  - rewrite Hrow. simpl. do 2 f_equal. lia.
  - unfold map_get at 1. rewrite Hrow. simpl default.
    rewrite wrap64_add_l. do 2 f_equal. rewrite (fmap_cons snd (p, c)).
    simpl. lia.
Qed.

Lemma r30_loop_other (rows : list (string * Z)) (m : gmap string Z)
    (q : string) :
  q ≠ "all" -> (q = "unknown" \/ q ∉ rows.*1) ->
  fold_left r30_row rows m !! q = m !! q.
Proof.
  intros Hq. revert m. induction rows as [|[p c] rows IH]; intros m Hqr; [done |].
  rewrite r30_loop_cons. rewrite IH.
  - apply r30_row_other; [done |]. destruct Hqr as [-> | Hqr]; [by left |].
    right. intros ->. apply Hqr. rewrite fmap_cons. left.
  - destruct Hqr as [-> | Hqr]; [by left |]. right. intros Hin.
    apply Hqr. rewrite fmap_cons. by right.
Qed.

Lemma r30_loop_platform (rows : list (string * Z)) (m : gmap string Z)
    (p : string) (c : Z) :
  p ≠ "all" -> p ≠ "unknown" -> NoDup rows.*1 -> (p, c) ∈ rows ->
  fold_left r30_row rows m !! p = Some c.
Proof.
  intros Hall Hunk. revert m.
  induction rows as [|[q c'] rows IH]; intros m Hnd Hin.
  - by apply elem_of_nil in Hin.
  - rewrite fmap_cons in Hnd. apply NoDup_cons in Hnd as [Hq Hnd].
    rewrite r30_loop_cons. apply elem_of_cons in Hin as [Heq | Hin].
    + injection Heq as <- <-. rewrite r30_loop_other; [| done | by right].
      by apply r30_row_platform.
    + by apply IH.
Qed.

(** The loop never adds a key beyond ["all"] and the platforms of its
    rows. *)
Lemma r30_loop_dom (rows : list (string * Z)) (m : gmap string Z)
    (keys : gset string) :
  "all" ∈ keys -> (forall r, r ∈ rows -> r.1 = "unknown" \/ r.1 ∈ keys) ->
  dom m = keys -> dom (fold_left r30_row rows m) = keys.
Proof.
  intros Hall. revert m. induction rows as [|[p c] rows IH]; intros m Hrows Hm.
  - done.
  - rewrite r30_loop_cons. apply IH.
    + intros r Hr. apply Hrows. by right.
    + unfold r30_row. case_bool_decide as Hp.
      * rewrite dom_insert_L. set_solver.
      * rewrite !dom_insert_L. destruct (Hrows (p, c)) as [? | Hk]; [left | done |].
        simpl in Hk. set_solver.
Qed.

(** The order in which the store delivers the groups does not matter. *)
Lemma sum_Permutation (l l' : list Z) :
  l ≡ₚ l' -> foldr Z.add 0 l = foldr Z.add 0 l'.
Proof.
  induction 1 as [| x l l' _ IH | x y l | l l' l'' _ IH1 _ IH2]; simpl;
    [done | by rewrite IH | lia | congruence].
Qed.

Lemma r30_loop_Permutation (rows rows' : list (string * Z))
    (m : gmap string Z) :
  rows ≡ₚ rows' -> NoDup rows.*1 -> "all" ∉ rows.*1 ->
  fold_left r30_row rows' m = fold_left r30_row rows m.
Proof.
  intros Hperm Hnd Hall.
  assert (Hperm1 : rows.*1 ≡ₚ rows'.*1) by (by apply fmap_Permutation).
  assert (Hnd' : NoDup rows'.*1) by (by rewrite <- Hperm1).
  assert (Hall' : "all" ∉ rows'.*1) by (by rewrite <- Hperm1).
  apply map_eq. intros k.
  destruct (decide (k = "all")) as [-> | Hk].
  - rewrite !r30_loop_all by done.
    rewrite (sum_Permutation rows'.*2 rows.*2)
      by (symmetry; by apply fmap_Permutation).
    destruct rows as [|r rows], rows' as [|r' rows']; try done.
    + by apply Permutation_nil_cons in Hperm.
    + symmetry in Hperm. by apply Permutation_nil_cons in Hperm.
  - destruct (decide (k = "unknown")) as [-> | Hu].
    { rewrite !r30_loop_other; [done | done | by left | done | by left]. }
    destruct (decide (k ∈ rows.*1)) as [Hin | Hnot].
    + apply list_elem_of_fmap in Hin as ([k' c] & -> & Hin). simpl in *.
      rewrite (r30_loop_platform rows m k' c) by done.
      apply r30_loop_platform; [done | done | done |]. by rewrite <- Hperm.
    + rewrite !r30_loop_other; [done | done | by right | done |].
      right. by rewrite <- Hperm1.
Qed.

(** ** The R30 statement *)

Lemma elem_of_inner_join {A B} (on : A -> B -> bool) (l : list A) (r : list B)
    (a : A) (b : B) :
  (a, b) ∈ Sql.inner_join on l r <-> a ∈ l /\ b ∈ r /\ on a b = true.
Proof.
  unfold Sql.inner_join. rewrite list_elem_of_bind. split.
  - intros (a' & Hab & Ha'). apply list_elem_of_bind in Hab as (b' & Hab & Hb').
    destruct (on a' b') eqn:Hon; [| by apply elem_of_nil in Hab].
    apply list_elem_of_singleton in Hab. injection Hab as -> ->. done.
  - intros (Ha & Hb & Hon). exists a. split; [| done].
    apply list_elem_of_bind. exists b. split; [| done].
    rewrite Hon. by apply list_elem_of_singleton.
Qed.

Lemma r30_on_qualifies (p1 p2 : Z) (a : Account) (r : Device) :
  r30_on p1 p2 a (uip_of r) = true <-> r30_qualifies p1 p2 a r.
Proof.
  unfold r30_on, r30_qualifies. simpl.
  rewrite !andb_true_iff, bool_decide_eq_true, negb_true_iff, Z.eqb_neq,
    !Z.ltb_lt.
  tauto.
Qed.

Lemma r30_groups_keys (d : DB) (p1 p2 : Z) :
  (r30_groups d p1 p2).*1 =
    remove_dups
      ((fun j : Account * Uip =>
          (acc_localpart j.1, uip_platform j.2, acc_created_ts j.1))
         <$> Sql.inner_join (r30_on p1 p2) (account_accounts d)
               (uip_of <$> device_devices d)).
Proof.
  unfold r30_groups. rewrite <- group_by_keys.
  generalize (Sql.group_by
    (fun j : Account * Uip =>
       (acc_localpart j.1, uip_platform j.2, acc_created_ts j.1))
    (Sql.inner_join (r30_on p1 p2) (account_accounts d)
       (uip_of <$> device_devices d))).
  intros gs. induction gs as [|[k g] gs IH]; [done |].
  rewrite !fmap_cons. simpl. f_equal. exact IH.
Qed.

Lemma r30_groups_NoDup (d : DB) (p1 p2 : Z) : NoDup (r30_groups d p1 p2).*1.
Proof. rewrite r30_groups_keys. apply NoDup_remove_dups. Qed.

Lemma elem_of_r30_groups (d : DB) (p1 p2 : Z) (u p : string) (c : Z) :
  (u, p, c) ∈ (r30_groups d p1 p2).*1 <->
  exists a r,
    a ∈ account_accounts d /\ r ∈ device_devices d
    /\ r30_qualifies p1 p2 a r
    /\ u = acc_localpart a /\ p = legacy_platform (dev_user_agent r)
    /\ c = acc_created_ts a.
Proof.
  rewrite r30_groups_keys, elem_of_remove_dups, list_elem_of_fmap. split.
  - intros ([a uip] & Hk & Hj). apply elem_of_inner_join in Hj as (Ha & Huip & Hon).
    apply list_elem_of_fmap in Huip as (r & -> & Hr).
    apply r30_on_qualifies in Hon. simpl in Hk. injection Hk as -> -> ->.
    by exists a, r.
  - intros (a & r & Ha & Hr & Hq & -> & -> & ->). exists (a, uip_of r).
    split; [done |]. apply elem_of_inner_join. split; [done |].
    split; [| by apply r30_on_qualifies].
    apply list_elem_of_fmap. by exists r.
Qed.

Lemma countR30UsersSQL_platforms (d : DB) (p1 p2 : Z) :
  (countR30UsersSQL d p1 p2).*1 =
    remove_dups ((fun u => u.1.1.2) <$> r30_groups d p1 p2).
Proof.
  unfold countR30UsersSQL. rewrite <- group_by_keys.
  generalize (Sql.group_by
    (fun u : string * string * Z * option Z => u.1.1.2) (r30_groups d p1 p2)).
  intros gs. induction gs as [|[k g] gs IH]; [done |].
  rewrite !fmap_cons. simpl. f_equal. exact IH.
Qed.

Lemma countR30UsersSQL_counts (d : DB) (p1 p2 : Z) :
  foldr Z.add 0 (countR30UsersSQL d p1 p2).*2 = Sql.count (r30_groups d p1 p2).
Proof.
  unfold countR30UsersSQL.
  rewrite <- (group_by_sizes (fun u : string * string * Z * option Z => u.1.1.2)
                (r30_groups d p1 p2)).
  generalize (Sql.group_by
    (fun u : string * string * Z * option Z => u.1.1.2) (r30_groups d p1 p2)).
  intros gs. induction gs as [|[k g] gs IH]; [done |].
  rewrite !fmap_cons. simpl. f_equal. exact IH.
Qed.

Lemma elem_of_countR30UsersSQL (d : DB) (p1 p2 : Z) (platform : string) (c : Z) :
  (platform, c) ∈ countR30UsersSQL d p1 p2 <->
  r30_groups_of d p1 p2 platform ≠ []
  /\ c = Sql.count (r30_groups_of d p1 p2 platform).
Proof.
  unfold countR30UsersSQL, r30_groups_of. rewrite list_elem_of_fmap. split.
  - intros ([k g] & Heq & Hin). injection Heq as -> ->.
    apply elem_of_group_by in Hin as (Hk & ->). split; [| done].
    apply list_elem_of_fmap in Hk as (u & -> & Hu).
    intros Hnil.
    assert (Hu' : u ∈ List.filter
              (fun u0 : string * string * Z * option Z =>
                 bool_decide (u0.1.1.2 = u.1.1.2)) (r30_groups d p1 p2)).
    { apply list_elem_of_In, filter_In. split; [by apply list_elem_of_In |].
      by apply bool_decide_eq_true. }
    rewrite Hnil in Hu'. by apply elem_of_nil in Hu'.
  - intros (Hne & ->).
    exists (platform,
            List.filter (fun u : string * string * Z * option Z =>
                           bool_decide (u.1.1.2 = platform))
              (r30_groups d p1 p2)).
    split; [done |]. apply elem_of_group_by. split; [| done].
    destruct (List.filter _ (r30_groups d p1 p2)) as [|u us] eqn:Hf; [done |].
    assert (Hu : In u (u :: us)) by (by left). rewrite <- Hf in Hu.
    apply filter_In in Hu as [Hu Hp]. apply bool_decide_eq_true in Hp.
    apply list_elem_of_fmap. exists u. split; [done | by apply list_elem_of_In].
Qed.

Lemma legacy_platform_cases (ua : option string) :
  legacy_platform ua ∈ ["android"; "ios"; "electron"; "web"; "unknown"].
Proof.
  unfold legacy_platform.
  repeat match goal with
         | |- context [if ?b then _ else _] => destruct b
         end; set_solver.
Qed.

Lemma r30_groups_platform (d : DB) (p1 p2 : Z) (u : string * string * Z * option Z) :
  u ∈ r30_groups d p1 p2 ->
  u.1.1.2 ∈ ["android"; "ios"; "electron"; "web"; "unknown"].
Proof.
  intros Hu. destruct u as [[[lp p] c] mx].
  assert (Hk : (lp, p, c) ∈ (r30_groups d p1 p2).*1).
  { apply list_elem_of_fmap. by exists (lp, p, c, mx). }
  apply elem_of_r30_groups in Hk as (a & r & _ & _ & _ & _ & -> & _).
  apply legacy_platform_cases.
Qed.

Lemma countR30UsersSQL_no_all (d : DB) (p1 p2 : Z) :
  "all" ∉ (countR30UsersSQL d p1 p2).*1.
Proof.
  rewrite countR30UsersSQL_platforms, elem_of_remove_dups, list_elem_of_fmap.
  intros (u & Hall & Hu). apply r30_groups_platform in Hu.
  rewrite <- Hall in Hu. set_solver.
Qed.

Lemma countR30UsersSQL_NoDup (d : DB) (p1 p2 : Z) :
  NoDup (countR30UsersSQL d p1 p2).*1.
Proof. rewrite countR30UsersSQL_platforms. apply NoDup_remove_dups. Qed.

(** ** [r30Users] *)

Section R30Users.
Variable clock : nat -> Z.
Variable fault : nat -> Fault.

Lemma r30Users_run (w : World) :
  let p1 := r30_since (clock (w_reads w)) in
  let rows := countR30UsersSQL (w_db w) p1 r30_diff in
  r30Users clock fault w =
    (match fault (length (w_calls w)) with
     | NoFault => (Some (fold_left r30_row rows ∅), None)
     | FailQuery e => (None, Some e)
     | FailRows n e => (Some (fold_left r30_row (take n rows) ∅), Some e)
     end,
     after 1 {| call_stmt := countR30UsersStmt;
                call_args := [Int64 p1; Int64 r30_diff] |} w).
Proof.
  unfold r30Users, mbind, M_bind, Now, QueryContext, mret, M_ret, after,
    log_call, r30_since, r30_diff.
  simpl. by destruct (fault (length (w_calls w))).
Qed.

Lemma r30Users_success (w : World) :
  (r30Users clock fault w).1.2 = None ->
  (r30Users clock fault w).1.1 =
    Some (fold_left r30_row
            (countR30UsersSQL (w_db w) (r30_since (clock (w_reads w))) r30_diff)
            ∅).
Proof.
  rewrite r30Users_run. simpl. by destruct (fault (length (w_calls w))).
Qed.

Lemma r30_groups_of_nil (d : DB) (p1 p2 : Z) (p : string) :
  r30_groups_of d p1 p2 p = [] <-> p ∉ (countR30UsersSQL d p1 p2).*1.
Proof.
  split.
  - intros Hnil Hin. apply list_elem_of_fmap in Hin as ([p' c] & -> & Hin).
    apply elem_of_countR30UsersSQL in Hin as [Hne _]. done.
  - intros Hnot. destruct (r30_groups_of d p1 p2 p) as [|u us] eqn:Hg; [done |].
    exfalso. apply Hnot. apply list_elem_of_fmap.
    exists (p, Sql.count (r30_groups_of d p1 p2 p)). split; [done |].
    apply elem_of_countR30UsersSQL. by rewrite Hg.
Qed.

Lemma r30_groups_split (d : DB) (p1 p2 : Z) :
  Sql.count (r30_groups d p1 p2) =
    Sql.count (r30_groups_of d p1 p2 "android")
    + Sql.count (r30_groups_of d p1 p2 "ios")
    + Sql.count (r30_groups_of d p1 p2 "electron")
    + Sql.count (r30_groups_of d p1 p2 "web")
    + Sql.count (r30_groups_of d p1 p2 "unknown").
Proof.
  rewrite <- (filter_sizes (fun u : string * string * Z * option Z => u.1.1.2)
                ["android"; "ios"; "electron"; "web"; "unknown"]
                (r30_groups d p1 p2)).
  - unfold r30_groups_of. simpl. lia.
  - repeat (apply NoDup_cons; split; [set_solver |]). apply NoDup_nil_2.
  - intros u Hu. by apply r30_groups_platform in Hu.
Qed.

(** What a successful [r30Users] returns, key by key. *)
Lemma r30Users_lookup (w : World) (m : gmap string Z) :
  let p1 := r30_since (clock (w_reads w)) in
  (r30Users clock fault w).1 = (Some m, None) ->
  m !! "unknown" = None
  /\ m !! "all" =
       match r30_groups (w_db w) p1 r30_diff with
       | [] => None
       | gs => Some (wrap64 (Sql.count gs))
       end
  /\ forall p, p ≠ "unknown" -> p ≠ "all" ->
       m !! p =
         match r30_groups_of (w_db w) p1 r30_diff p with
         | [] => None
         | gs => Some (Sql.count gs)
         end.
Proof.
  intros p1 Hrun.
  assert (Herr : (r30Users clock fault w).1.2 = None) by (by rewrite Hrun).
  apply r30Users_success in Herr. rewrite Hrun in Herr. simpl in Herr.
  injection Herr as ->. fold p1.
  set (rows := countR30UsersSQL (w_db w) p1 r30_diff).
  split; [| split].
  - rewrite r30_loop_other; [done | done | by left].
  - rewrite r30_loop_all by apply countR30UsersSQL_no_all.
    pose proof (countR30UsersSQL_counts (w_db w) p1 r30_diff) as Hsum.
    fold rows in Hsum. rewrite Hsum. unfold map_get. rewrite lookup_empty.
    simpl default. rewrite Z.add_0_l.
    destruct rows as [|r rows'] eqn:Hrows.
    + simpl in Hsum. unfold Sql.count in Hsum.
      destruct (r30_groups (w_db w) p1 r30_diff); [done | simpl in Hsum; lia].
    + destruct (r30_groups (w_db w) p1 r30_diff) as [|g gs] eqn:Hg; [| done].
      exfalso. unfold rows, countR30UsersSQL in Hrows. by rewrite Hg in Hrows.
  - intros p Hunk Hall.
    destruct (r30_groups_of (w_db w) p1 r30_diff p) as [|g gs] eqn:Hg.
    + rewrite r30_loop_other; [done | done |]. right.
      by apply r30_groups_of_nil.
    + apply r30_loop_platform; [done | done | apply countR30UsersSQL_NoDup |].
      apply elem_of_countR30UsersSQL. by rewrite Hg.
Qed.

End R30Users.

Lemma r30_diff_thirty_days : r30_diff = 30 * 86400000.
Proof. reflexivity. Qed.

Lemma filter_fst_length {A B} (P : A -> bool) (l : list (A * B)) :
  length (List.filter (fun x => P x.1) l) = length (List.filter P l.*1).
Proof.
  induction l as [|[a b] l IH]; [done |]. rewrite fmap_cons. simpl.
  destruct (P a); simpl; by rewrite IH.
Qed.

(** C9: in the map [r30Users] returns there is never an ["unknown"] key;
    on success ["all"] counts every group, the groups classified
    [unknown] included, and every other platform that has a group is
    emitted under its own key with the number of its groups. *)
Theorem r30Users_unknown_only_in_all (clock : nat -> Z) (fault : nat -> Fault)
    (w : World) (m : gmap string Z) :
  (r30Users clock fault w).1.1 = Some m ->
  let p1 := r30_since (clock (w_reads w)) in
  let groups_of := r30_groups_of (w_db w) p1 r30_diff in
  m !! "unknown" = None
  /\ ((r30Users clock fault w).1.2 = None ->
      (r30_groups (w_db w) p1 r30_diff ≠ [] ->
       m !! "all" =
         Some (wrap64 (Sql.count (groups_of "android")
                       + Sql.count (groups_of "ios")
                       + Sql.count (groups_of "electron")
                       + Sql.count (groups_of "web")
                       + Sql.count (groups_of "unknown"))))
      /\ forall p, p ≠ "unknown" -> p ≠ "all" -> groups_of p ≠ [] ->
           m !! p = Some (Sql.count (groups_of p))).
Proof.
  intros Hm p1 groups_of. split.
  - rewrite r30Users_run in Hm. cbv zeta in Hm.
    destruct (fault (length (w_calls w))); cbn [fst snd] in Hm;
      [| discriminate |]; injection Hm as <-;
      (rewrite r30_loop_other; [done | done | by left]).
  - intros Herr.
    assert (Hrun : (r30Users clock fault w).1 = (Some m, None)).
    { destruct (r30Users clock fault w) as [[r e] w']. simpl in *. congruence. }
    destruct (r30Users_lookup clock fault w m Hrun) as (_ & Hall & Hp).
    fold p1 in Hall. split.
    + intros Hne. unfold groups_of. rewrite Hall, <- r30_groups_split.
      by destruct (r30_groups (w_db w) p1 r30_diff).
    + intros p Hunk Hnall Hne. rewrite (Hp p Hunk Hnall). fold p1 groups_of.
      by destruct (groups_of p).
Qed.

Lemma r30Users_unknown_only_in_all_witness :
  let m :=
    fold_left r30_row
      (countR30UsersSQL Sample.with_unknown (r30_since Sample.noon) r30_diff)
      ∅ in
  (r30Users Sample.steady Sample.healthy
     (Sample.world_of Sample.with_unknown)).1.1 = Some m
  /\ m !! "unknown" = None.
Proof.
  intros m. split; [reflexivity |].
  exact (proj1 (r30Users_unknown_only_in_all Sample.steady Sample.healthy
                  (Sample.world_of Sample.with_unknown) m eq_refl)).
Defined.

Example r30Users_with_unknown :
  exists m,
    (r30Users Sample.steady Sample.healthy
       (Sample.world_of Sample.with_unknown)).1 = (Some m, None)
    /\ m !! "all" = Some 2 /\ m !! "web" = Some 1 /\ m !! "unknown" = None.
Proof. eexists. split; [reflexivity |]. repeat split; reflexivity. Qed.

(** C3, as stated: a user counts once in ["all"] and under at most one
    platform.  Here a single retained user has a device on each of two
    platforms; the statement groups by user and platform, so the user is
    counted under both and twice in ["all"]. *)
Lemma r30Users_user_on_two_platforms :
  let p1 := r30_since Sample.noon in
  r30_qualifying_users Sample.two_platforms p1 r30_diff = ["alice"]
  /\ exists m,
       (r30Users Sample.steady Sample.healthy
          (Sample.world_of Sample.two_platforms)).1 = (Some m, None)
       /\ m !! "all" = Some 2
       /\ m !! "android" = Some 1
       /\ m !! "ios" = Some 1.
Proof.
  split; [reflexivity |]. eexists. split; [reflexivity |].
  repeat split; reflexivity.
Qed.

(** C3, amended: [r30Users] groups the retained accounts by user,
    platform of a qualifying device and creation time.  The groups are
    exactly the distinct triples of an account that is not an application
    service, was created before [now - 30 days], and has a device seen
    after [now - 30 days] and more than 30 days after the creation,
    together with the platform of that device.  On success every group
    adds one to ["all"], and every platform other than [unknown] is
    emitted with the number of its groups: a user with qualifying
    devices on several platforms is counted once per platform. *)
Theorem r30Users_groups_by_user_and_platform (clock : nat -> Z)
    (fault : nat -> Fault) (w : World) (m : gmap string Z) :
  (r30Users clock fault w).1 = (Some m, None) ->
  let p1 := r30_since (clock (w_reads w)) in
  let keys := (r30_groups (w_db w) p1 r30_diff).*1 in
  NoDup keys
  /\ (forall u p c,
        (u, p, c) ∈ keys <->
        exists a r,
          a ∈ account_accounts (w_db w) /\ r ∈ device_devices (w_db w)
          /\ r30_qualifies p1 (30 * 86400000) a r
          /\ u = acc_localpart a /\ p = legacy_platform (dev_user_agent r)
          /\ c = acc_created_ts a)
  /\ (keys ≠ [] -> m !! "all" = Some (wrap64 (Sql.count keys)))
  /\ (forall p, p ≠ "unknown" -> p ≠ "all" ->
        (exists u c, (u, p, c) ∈ keys) ->
        m !! p =
          Some (Sql.count
                  (List.filter (fun k => bool_decide (k.1.2 = p)) keys))).
Proof.
  intros Hrun p1 keys.
  destruct (r30Users_lookup clock fault w m Hrun) as (_ & Hall & Hp).
  fold p1 in Hall, Hp. split; [apply r30_groups_NoDup |].
  split; [intros u p c; apply elem_of_r30_groups |]. split.
  - intros Hne. rewrite Hall. unfold keys in *. unfold Sql.count.
    rewrite length_fmap.
    by destruct (r30_groups (w_db w) p1 r30_diff).
  - intros p Hunk Hnall (u & c & Hin). rewrite (Hp p Hunk Hnall).
    unfold keys, Sql.count, r30_groups_of.
    rewrite <- (filter_fst_length (fun k : string * string * Z =>
                                     bool_decide (k.1.2 = p))).
    destruct (List.filter _ (r30_groups (w_db w) p1 r30_diff)) as [|g gs] eqn:Hf;
      [| done].
    exfalso. apply list_elem_of_fmap in Hin as ([k mx] & Hk & Hin).
    simpl in Hk. subst k.
    assert (Hg : In (u, p, c, mx)
              (List.filter (fun x : string * string * Z * option Z =>
                              bool_decide (x.1.1.2 = p))
                 (r30_groups (w_db w) p1 r30_diff))).
    { apply filter_In. split; [by apply list_elem_of_In |].
      by apply bool_decide_eq_true. }
    by rewrite Hf in Hg.
Qed.

Lemma r30Users_groups_by_user_and_platform_witness :
  let m :=
    fold_left r30_row
      (countR30UsersSQL Sample.two_platforms (r30_since Sample.noon) r30_diff)
      ∅ in
  (r30Users Sample.steady Sample.healthy
     (Sample.world_of Sample.two_platforms)).1 = (Some m, None)
  /\ NoDup (r30_groups Sample.two_platforms (r30_since Sample.noon) r30_diff).*1.
Proof.
  intros m. split; [reflexivity |].
  exact (proj1 (r30Users_groups_by_user_and_platform Sample.steady
                  Sample.healthy (Sample.world_of Sample.two_platforms) m
                  eq_refl)).
Defined.

(** ** [r30UsersV2] *)

Lemma client_type_cases (ua : option string) :
  client_type ua ∈ ["electron"; "android"; "ios"; "web"; "unknown"].
Proof.
  unfold client_type.
  repeat match goal with
         | |- context [if ?b then _ else _] => destruct b
         end; set_solver.
Qed.

Lemma elem_of_r30v2_temp (d : DB) (p1 p2 p3 : Z) (u ct : string) :
  (u, ct) ∈ r30v2_temp d p1 p2 p3 ->
  exists v, v ∈ user_daily_visits d /\ u = localpart v
            /\ ct = client_type (user_agent v)
            /\ p1 < timestamp v < p2.
Proof.
  unfold r30v2_temp. intros Hin.
  apply list_elem_of_fmap in Hin as ([k g] & Hk & Hin). simpl in Hk. subst k.
  apply list_elem_of_In, filter_In in Hin as [Hin _].
  apply list_elem_of_In, elem_of_group_by in Hin as [Hin _].
  apply list_elem_of_fmap in Hin as (v & Hk & Hv).
  apply list_elem_of_In, filter_In in Hv as [Hv Hts].
  apply andb_true_iff in Hts as [H1 H2]. apply Z.ltb_lt in H1, H2.
  injection Hk as -> ->. exists v.
  split; [by apply list_elem_of_In | repeat split; done].
Qed.

Lemma countR30UsersV2SQL_types (d : DB) (p1 p2 p3 : Z) (ct : string) :
  ct ∈ (countR30UsersV2SQL d p1 p2 p3).*1 <->
  exists u, (u, ct) ∈ r30v2_temp d p1 p2 p3.
Proof.
  unfold countR30UsersV2SQL. split.
  - intros Hin. apply list_elem_of_fmap in Hin as ([ct' c] & -> & Hin).
    apply list_elem_of_fmap in Hin as ([k g] & Hk & Hin).
    injection Hk as -> ->. apply elem_of_group_by in Hin as [Hin _].
    apply list_elem_of_fmap in Hin as ([u ct'] & -> & Hin). by exists u.
  - intros (u & Hin). apply list_elem_of_fmap.
    exists (ct, Sql.count (List.filter
                             (fun x : string * string => bool_decide (x.2 = ct))
                             (r30v2_temp d p1 p2 p3))).
    split; [done |]. apply list_elem_of_fmap.
    exists (ct, List.filter (fun x : string * string => bool_decide (x.2 = ct))
                  (r30v2_temp d p1 p2 p3)).
    split; [done |]. apply elem_of_group_by. split; [| done].
    apply list_elem_of_fmap. by exists (u, ct).
Qed.

Lemma dom_r30v2_init : dom r30v2_init = r30v2_keys.
Proof. unfold r30v2_init, r30v2_keys. rewrite !dom_insert_L. set_solver. Qed.

Section R30UsersV2.
Variable clock : nat -> Z.
Variable fault : nat -> Fault.

Lemma r30UsersV2_run (w : World) :
  let p1 := r30v2_from (clock (w_reads w)) in
  let p3 := r30v2_gap (clock (S (w_reads w))) in
  let p2 := r30v2_until (clock (S (S (w_reads w)))) in
  let rows := countR30UsersV2SQL (w_db w) p1 p2 p3 in
  r30UsersV2 clock fault w =
    (match fault (length (w_calls w)) with
     | NoFault => (Some (fold_left r30_row rows r30v2_init), None)
     | FailQuery e => (None, Some e)
     | FailRows n e =>
         (Some (fold_left r30_row (take n rows) r30v2_init), Some e)
     end,
     after 3 {| call_stmt := countR30UsersV2Stmt;
                call_args := [Int64 p1; Int64 p2; Int64 p3] |} w).
Proof.
  unfold r30UsersV2, mbind, M_bind, Now, QueryContext, mret, M_ret, after,
    log_call, r30v2_from, r30v2_gap, r30v2_until.
  simpl. by destruct (fault (length (w_calls w))).
Qed.

End R30UsersV2.

(** C8: on success the map of [r30UsersV2] has exactly the keys [ios],
    [android], [web], [electron] and [all]; a platform key no group was
    classified to is zero, and so is [all] when no group matched. *)
Theorem r30UsersV2_five_keys (clock : nat -> Z) (fault : nat -> Fault)
    (w : World) :
  (r30UsersV2 clock fault w).1.2 = None ->
  let temp :=
    r30v2_temp (w_db w) (r30v2_from (clock (w_reads w)))
      (r30v2_until (clock (S (S (w_reads w)))))
      (r30v2_gap (clock (S (w_reads w)))) in
  exists m,
    (r30UsersV2 clock fault w).1.1 = Some m
    /\ dom m = {[ "ios"; "android"; "web"; "electron"; "all" ]}
    /\ (forall k, k ∈ ["ios"; "android"; "web"; "electron"] ->
          (forall u, (u, k) ∉ temp) -> m !! k = Some 0)
    /\ (temp = [] -> m !! "all" = Some 0).
Proof.
  intros Herr temp. rewrite r30UsersV2_run in Herr |- *. cbv zeta in Herr |- *.
  destruct (fault (length (w_calls w))); cbn [fst snd] in Herr |- *;
    [| discriminate..].
  eexists. split; [reflexivity |].
  set (rows := countR30UsersV2SQL _ _ _ _). split; [| split].
  - apply r30_loop_dom; [set_solver | | apply dom_r30v2_init].
    intros [ct c] Hr.
    assert (Hct : ct ∈ rows.*1) by (apply list_elem_of_fmap; by exists (ct, c)).
    apply countR30UsersV2SQL_types in Hct as (u & Hu).
    apply elem_of_r30v2_temp in Hu as (v & _ & _ & -> & _).
    pose proof (client_type_cases (user_agent v)) as Hc. simpl. set_solver.
  - intros k Hk Hnone. rewrite r30_loop_other.
    + set_solver.
    + set_solver.
    + right. intros Hin. apply countR30UsersV2SQL_types in Hin as (u & Hu).
      by apply (Hnone u).
  - intros Hnil. unfold rows, countR30UsersV2SQL. fold temp. by rewrite Hnil.
Qed.

Lemma r30UsersV2_five_keys_witness :
  exists m,
    (r30UsersV2 Sample.steady Sample.healthy
       (Sample.world_of SampleV2.bob_and_dave)).1.1 = Some m
    /\ dom m = {[ "ios"; "android"; "web"; "electron"; "all" ]}.
Proof.
  destruct (r30UsersV2_five_keys Sample.steady Sample.healthy
              (Sample.world_of SampleV2.bob_and_dave) eq_refl)
    as (m & Hm & Hdom & _).
  exists m. split; [exact Hm | exact Hdom].
Defined.

(** *** The [HAVING] threshold of R30V2 *)

Lemma fold_max_le (l : list Z) (x b : Z) :
  x <= b -> (forall y, y ∈ l -> y <= b) -> fold_left Z.max l x <= b.
Proof.
  revert x. induction l as [|y l IH]; intros x Hx Hl; [done |].
  simpl. apply IH.
  - assert (y <= b) by (apply Hl; left). lia.
  - intros z Hz. apply Hl. by right.
Qed.

Lemma fold_min_ge (l : list Z) (x a : Z) :
  a <= x -> (forall y, y ∈ l -> a <= y) -> a <= fold_left Z.min l x.
Proof.
  revert x. induction l as [|y l IH]; intros x Hx Hl; [done |].
  simpl. apply IH.
  - assert (a <= y) by (apply Hl; left). lia.
  - intros z Hz. apply Hl. by right.
Qed.

Lemma r30v2_having_window (p1 p2 p3 : Z) (g : list Visit) :
  (forall v, v ∈ g -> p1 < timestamp v < p2) ->
  p2 - p1 - 2 <= p3 ->
  r30v2_having p3 g = false.
Proof.
  intros Hg Hp. unfold r30v2_having. destruct g as [|v g]; [done |].
  rewrite fmap_cons. simpl. apply Z.ltb_ge.
  assert (Hv : p1 < timestamp v < p2) by (apply Hg; left).
  assert (Hrest : forall y, y ∈ timestamp <$> g -> p1 + 1 <= y <= p2 - 1).
  { intros y Hy. apply list_elem_of_fmap in Hy as (v' & -> & Hv').
    assert (p1 < timestamp v' < p2) by (apply Hg; by right). lia. }
  assert (fold_left Z.max (timestamp <$> g) (timestamp v) <= p2 - 1).
  { apply fold_max_le; [lia |]. intros y Hy. apply Hrest in Hy. lia. }
  assert (p1 + 1 <= fold_left Z.min (timestamp <$> g) (timestamp v)).
  { apply fold_min_ge; [lia |]. intros y Hy. apply Hrest in Hy. lia. }
  lia.
Qed.

Lemma filter_none {A} (f : A -> bool) (l : list A) :
  (forall x, x ∈ l -> f x = false) -> List.filter f l = [].
Proof.
  induction l as [|x l IH]; intros Hl; [done |]. simpl.
  rewrite (Hl x) by left. apply IH. intros y Hy. apply Hl. by right.
Qed.

(** The statement returns no row whenever its threshold [$3] is at
    least the width of its window [($1, $2)]. *)
Lemma countR30UsersV2SQL_threshold (d : DB) (p1 p2 p3 : Z) :
  p2 - p1 - 2 <= p3 -> countR30UsersV2SQL d p1 p2 p3 = [].
Proof.
  intros Hp. unfold countR30UsersV2SQL, r30v2_temp.
  rewrite filter_none; [done |].
  intros [k g] Hkg. simpl. apply elem_of_group_by in Hkg as [_ ->].
  apply (r30v2_having_window p1 p2); [| done].
  intros v Hv. apply list_elem_of_In, filter_In in Hv as [Hv _].
  apply filter_In in Hv as [_ Hts].
  apply andb_true_iff in Hts as [H1 H2]. apply Z.ltb_lt in H1, H2. done.
Qed.

(** With a clock later than 1 April 1970 the argument [r30UsersV2]
    passes as threshold, a date in milliseconds, exceeds the 61 days its
    window spans: no group is ever counted. *)
Lemma r30UsersV2_counts_nothing (fault : nat -> Fault) (w : World) (now : Z) :
  91 * GoTime.Day <= now ->
  (r30UsersV2 (fun _ => now) fault w).1.2 = None ->
  (r30UsersV2 (fun _ => now) fault w).1.1 = Some r30v2_init.
Proof.
  intros Hnow. rewrite r30UsersV2_run. cbv zeta.
  destruct (fault (length (w_calls w))); cbn [fst snd]; [| discriminate..].
  intros _. rewrite countR30UsersV2SQL_threshold; [done |].
  unfold r30v2_until, r30v2_from, r30v2_gap, GoTime.AsTimestamp,
    GoTime.AddDate, GoTime.Add.
  change GoTime.Day with 86400000000000 in *.
  change (GoTime.Hour * 24) with 86400000000000.
  rewrite !Z.quot_div_nonneg by lia.
  pose proof (Z.div_mod (now + 86400000000000) 1000000 ltac:(lia)).
  pose proof (Z.mod_pos_bound (now + 86400000000000) 1000000 ltac:(lia)).
  pose proof (Z.div_mod (now + -60 * 86400000000000) 1000000 ltac:(lia)).
  pose proof (Z.mod_pos_bound (now + -60 * 86400000000000) 1000000 ltac:(lia)).
  pose proof (Z.div_mod (now + -30 * 86400000000000) 1000000 ltac:(lia)).
  pose proof (Z.mod_pos_bound (now + -30 * 86400000000000) 1000000 ltac:(lia)).
  lia.
Qed.

(** C1: Bob has two facts, 45 and 10 days old, of one browser: a group
    whose gap is 35 days.  [r30UsersV2] passes the date [now - 30 days]
    where the statement expects the 30 days, so the group is not counted
    and every key stays zero; with a threshold of 30 days the same
    statement counts Bob under [web]. *)
Theorem r30UsersV2_gap_of_35_days_not_counted :
  let w := Sample.world_of SampleV2.bob_only in
  let run := r30UsersV2 Sample.steady Sample.healthy w in
  run.1 = (Some r30v2_init, None)
  /\ r30v2_init !! "web" = Some 0
  /\ call_args <$> w_calls run.2 =
       [[Int64 (Sample.days_ago 60); Int64 (Sample.days_ago (-1));
         Int64 1654084800000]]
  /\ countR30UsersV2SQL SampleV2.bob_only (Sample.days_ago 60)
       (Sample.days_ago (-1)) (30 * 86400000) = [("web", 1)].
Proof. intros w run. repeat split; reflexivity. Qed.

(** ** The sub-queries of [UserStatistics], one by one *)

Section SubQueries.
Variable clock : nat -> Z.
Variable fault : nat -> Fault.

Lemma bind_run {A B} (m : M A) (k : A -> M B) (w : World) :
  (m ≫= k) w = k (m w).1 (m w).2.
Proof. unfold mbind, M_bind. by destruct (m w). Qed.

Lemma QueryRowContext_cases {R} (stmt : Stmt) (args : list Arg)
    (sel : DB -> R) (w : World) :
  (QueryRowContext fault stmt args sel w).2 =
    after 0 {| call_stmt := stmt; call_args := args |} w
  /\ ((QueryRowContext fault stmt args sel w).1 = inl (sel (w_db w))
      \/ exists e,
           (QueryRowContext fault stmt args sel w).1 = inr e
           /\ fails_with (fault (length (w_calls w))) e).
Proof.
  unfold QueryRowContext, fails_with.
  destruct (fault (length (w_calls w))) as [|e|[|n] e]; (split; [done |]);
    [by left | right; exists e | right; exists e | by left];
    (split; [done |]); [by left | right; by exists 0%nat].
Qed.

(** A sub-query that scans one integer. *)
Lemma scanned_cases (stmt : Stmt) (args : list Arg) (sel : DB -> Z)
    (w : World) :
  let q := r ← QueryRowContext fault stmt args sel; mret (scanned_int64 r) in
  (q w).2 = after 0 {| call_stmt := stmt; call_args := args |} w
  /\ ((q w).1 = (sel (w_db w), None)
      \/ exists e, (q w).1 = (0, Some e)
                   /\ fails_with (fault (length (w_calls w))) e).
Proof.
  intros q. unfold q. rewrite bind_run.
  destruct (QueryRowContext_cases stmt args sel w) as [Hw [Hok | (e & He & Hf)]].
  - rewrite Hok. by split; [| left].
  - rewrite He. split; [done |]. right. by exists e.
Qed.

Lemma allUsers_cases (w : World) :
  (allUsers fault w).2 =
    after 0 {| call_stmt := countUserByAccountTypeStmt;
               call_args := [Int64Array [1; 2; 3; 4]] |} w
  /\ ((allUsers fault w).1 =
        (countUserByAccountTypeSQL (w_db w) [1; 2; 3; 4], None)
      \/ exists e, (allUsers fault w).1 = (0, Some e)
                   /\ fails_with (fault (length (w_calls w))) e).
Proof. apply scanned_cases. Qed.

Lemma nonBridgedUsers_cases (w : World) :
  (nonBridgedUsers fault w).2 =
    after 0 {| call_stmt := countUserByAccountTypeStmt;
               call_args := [Int64Array [1; 2; 3]] |} w
  /\ ((nonBridgedUsers fault w).1 =
        (countUserByAccountTypeSQL (w_db w) [1; 2; 3], None)
      \/ exists e, (nonBridgedUsers fault w).1 = (0, Some e)
                   /\ fails_with (fault (length (w_calls w))) e).
Proof. apply scanned_cases. Qed.

Lemma dailyUsers_cases (w : World) :
  let p1 := GoTime.AsTimestamp (GoTime.AddDate (clock (w_reads w)) (-1)) in
  (dailyUsers clock fault w).2 =
    after 1 {| call_stmt := countUsersLastSeenAfterStmt;
               call_args := [Int64 p1] |} w
  /\ ((dailyUsers clock fault w).1 =
        (countUsersLastSeenAfterSQL (w_db w) p1, None)
      \/ exists e, (dailyUsers clock fault w).1 = (0, Some e)
                   /\ fails_with (fault (length (w_calls w))) e).
Proof.
  intros p1. unfold dailyUsers. rewrite bind_run. unfold Now at 1 2. cbn [fst snd].
  apply (scanned_cases countUsersLastSeenAfterStmt [Int64 p1]
           (fun d => countUsersLastSeenAfterSQL d p1)
           {| w_db := w_db w; lastUpdate := lastUpdate w;
              w_reads := S (w_reads w); w_calls := w_calls w |}).
Qed.

Lemma monthlyUsers_cases (w : World) :
  let p1 := GoTime.AsTimestamp (GoTime.AddDate (clock (w_reads w)) (-30)) in
  (monthlyUsers clock fault w).2 =
    after 1 {| call_stmt := countUsersLastSeenAfterStmt;
               call_args := [Int64 p1] |} w
  /\ ((monthlyUsers clock fault w).1 =
        (countUsersLastSeenAfterSQL (w_db w) p1, None)
      \/ exists e, (monthlyUsers clock fault w).1 = (0, Some e)
                   /\ fails_with (fault (length (w_calls w))) e).
Proof.
  intros p1. unfold monthlyUsers. rewrite bind_run. unfold Now at 1 2. cbn [fst snd].
  apply (scanned_cases countUsersLastSeenAfterStmt [Int64 p1]
           (fun d => countUsersLastSeenAfterSQL d p1)
           {| w_db := w_db w; lastUpdate := lastUpdate w;
              w_reads := S (w_reads w); w_calls := w_calls w |}).
Qed.

Lemma r30Users_cases (w : World) :
  let p1 := r30_since (clock (w_reads w)) in
  (r30Users clock fault w).2 =
    after 1 {| call_stmt := countR30UsersStmt;
               call_args := [Int64 p1; Int64 r30_diff] |} w
  /\ ((r30Users clock fault w).1 =
        (Some (fold_left r30_row (countR30UsersSQL (w_db w) p1 r30_diff) ∅),
         None)
      \/ exists e, (r30Users clock fault w).1.2 = Some e
                   /\ fails_with (fault (length (w_calls w))) e).
Proof.
  intros p1. rewrite r30Users_run. fold p1. split; [done |].
  unfold fails_with. destruct (fault (length (w_calls w))) as [|e|n e].
  - by left.
  - right. exists e. split; [done | by left].
  - right. exists e. split; [done | right; by exists n].
Qed.

Lemma r30UsersV2_cases (w : World) :
  let p1 := r30v2_from (clock (w_reads w)) in
  let p3 := r30v2_gap (clock (S (w_reads w))) in
  let p2 := r30v2_until (clock (S (S (w_reads w)))) in
  (r30UsersV2 clock fault w).2 =
    after 3 {| call_stmt := countR30UsersV2Stmt;
               call_args := [Int64 p1; Int64 p2; Int64 p3] |} w
  /\ ((r30UsersV2 clock fault w).1 =
        (Some (fold_left r30_row (countR30UsersV2SQL (w_db w) p1 p2 p3)
                 r30v2_init), None)
      \/ exists e, (r30UsersV2 clock fault w).1.2 = Some e
                   /\ fails_with (fault (length (w_calls w))) e).
Proof.
  intros p1 p3 p2. rewrite r30UsersV2_run. fold p1 p2 p3. split; [done |].
  unfold fails_with. destruct (fault (length (w_calls w))) as [|e|n e].
  - by left.
  - right. exists e. split; [done | by left].
  - right. exists e. split; [done | right; by exists n].
Qed.

Lemma registered_loop_cases (rows : list (option string * Z))
    (m : gmap string Z) :
  (exists m', registered_loop rows m = (Some m', None))
  \/ registered_loop rows m = (None, Some ScanNullError).
Proof.
  revert m. induction rows as [|[[ut|] c] rows IH]; intros m; simpl.
  - left. by exists m.
  - apply IH.
  - by right.
Qed.

Lemma registeredUserByType_cases (w : World) :
  let p3 := GoTime.AsTimestamp (GoTime.AddDate (clock (w_reads w)) (-1)) in
  let rows := countRegisteredUserByTypeSQL (w_db w) [1; 3; 4] 2 p3 in
  (registeredUserByType clock fault w).2 =
    after 1 {| call_stmt := countRegisteredUserByTypeStmt;
               call_args := [Int64Array [1; 3; 4]; Int64 2; Int64 p3] |} w
  /\ ((registeredUserByType clock fault w).1 =
        ((registered_loop rows ∅).1, None)
      \/ exists e, (registeredUserByType clock fault w).1.2 = Some e
                   /\ (fails_with (fault (length (w_calls w))) e
                       \/ e = ScanNullError)).
Proof.
  intros p3 rows.
  unfold registeredUserByType, mbind, M_bind, Now, QueryContext, mret, M_ret,
    after, log_call, fails_with.
  cbn [w_reads w_calls w_db lastUpdate fst snd].
  change (countRegisteredUserByTypeSQL (w_db w)
            [AccountTypeUser; AccountTypeAdmin; AccountTypeAppService]
            AccountTypeGuest
            (GoTime.AsTimestamp (GoTime.AddDate (clock (w_reads w)) (-1))))
    with rows.
  destruct (fault (length (w_calls w))) as [|e|n e]; cbn [delivered rows_err].
  - destruct (registered_loop_cases rows ∅) as [(m' & ->) | ->].
    + split; [done | by left].
    + split; [done |]. right. exists ScanNullError. split; [done | by right].
  - split; [done |]. right. exists e. split; [done | left; by left].
  - destruct (registered_loop_cases (take n rows) ∅) as [(m' & ->) | ->].
    + split; [done |]. right. exists e. split; [done | left; right; by exists n].
    + split; [done |]. right. exists ScanNullError. split; [done | by right].
Qed.




Lemma version_cases (w : World) :
  (QueryRowContext fault dbEngineVersionStmt [] server_version w).2 =
    after 0 {| call_stmt := dbEngineVersionStmt; call_args := [] |} w
  /\ ((QueryRowContext fault dbEngineVersionStmt [] server_version w).1
        = inl (server_version (w_db w))
      \/ exists e,
           (QueryRowContext fault dbEngineVersionStmt [] server_version w).1
             = inr e
           /\ fails_with (fault (length (w_calls w))) e).
Proof. apply QueryRowContext_cases. Qed.

End SubQueries.

(** ** [UserStatistics] *)



(** C10: the R30V2 statement, fifth in order, fails.  [UserStatistics]
    assigns the nil map of the failed call to the field before it
    returns, so the statistics it returns with the error have a nil
    [R30UsersV2] in place of the five zero keys they were initialised
    with; in the same way a failing R30 statement leaves [R30Users] nil
    and a failing registration statement [RegisteredUsersByType] nil. *)
Theorem UserStatistics_failed_map_is_nil :
  let run k :=
    UserStatistics Sample.steady (SampleFaults.broken_at k)
      (Sample.world_of Sample.two_platforms) in
  (run 4%nat).1.2 = Some (StoreError "connection reset")
  /\ types.R30UsersV2 (run 4%nat).1.1.1 = None
  /\ types.R30Users (run 3%nat).1.1.1 = None
  /\ types.RegisteredUsersByType (run 6%nat).1.1.1 = None
  /\ (run 4%nat).1.1.2 = dbEngine_init
  /\ types.R30UsersV2 (run 3%nat).1.1.1 = Some r30v2_init.
Proof. intros run. repeat split; reflexivity. Qed.

(** ** [updateUserDailyVisits] *)

Section Materialize.
Variable clock : nat -> Z.
Variable fault : nat -> Fault.

Lemma Truncate_day (now : Z) :
  GoTime.Truncate now (GoTime.Hour * 24) = now - now mod GoTime.Day.
Proof. reflexivity. Qed.

Lemma updateUserDailyVisits_run (w : World) :
  let p1 := GoTime.AsTimestamp (day_stamp (clock (w_reads w)) (lastUpdate w)) in
  let p2 := GoTime.AsTimestamp (lastUpdate w) in
  let p3 := GoTime.AsTimestamp (clock (S (w_reads w))) in
  let call := {| call_stmt := updateUserDailyVisitsStmt;
                 call_args := [Int64 p1; Int64 p2; Int64 p3] |} in
  updateUserDailyVisits clock fault w =
    match fault (length (w_calls w)) with
    | NoFault =>
        (None,
         {| w_db := with_visits (w_db w)
                      (updateUserDailyVisitsSQL (w_db w) p1 p2 p3);
            lastUpdate := clock (S (S (w_reads w)));
            w_reads := 3 + w_reads w;
            w_calls := w_calls w ++ [call] |})
    | FailQuery e | FailRows _ e => (Some e, after 2 call w)
    end.
Proof.
  unfold updateUserDailyVisits, mbind, M_bind, Now, get_lastUpdate,
    set_lastUpdate, ExecContext, mret, M_ret, after, log_call, day_stamp.
  cbn [w_reads w_calls w_db lastUpdate fst snd].
  rewrite Truncate_day. unfold GoTime.After, GoTime.AddDate.
  replace (bool_decide
             (lastUpdate w < clock (w_reads w) - clock (w_reads w) mod GoTime.Day))
    with (lastUpdate w <? clock (w_reads w) - clock (w_reads w) mod GoTime.Day).
  2: { case_bool_decide; [by apply Z.ltb_lt | by apply Z.ltb_ge; lia]. }
  replace (clock (w_reads w) - clock (w_reads w) mod GoTime.Day + -1 * GoTime.Day)
    with (clock (w_reads w) - clock (w_reads w) mod GoTime.Day - GoTime.Day)
    by lia.
  by destruct (fault (length (w_calls w))).
Qed.

End Materialize.

(** *** The inserts of [updateUserDailyVisitsSQL] *)

Lemma insert_fold_cons (r : Visit) (rows tbl : list Visit) :
  fold_left insert_do_nothing (r :: rows) tbl =
    fold_left insert_do_nothing rows (insert_do_nothing tbl r).
Proof. reflexivity. Qed.

Lemma insert_fold_prefix (rows tbl : list Visit) :
  exists new,
    fold_left insert_do_nothing rows tbl = (tbl ++ new)%list
    /\ forall v, v ∈ new -> v ∈ rows /\ visit_key v ∉ visit_key <$> tbl.
Proof.
  revert tbl. induction rows as [|r rows IH]; intros tbl.
  - exists []. split; [by rewrite app_nil_r | intros v Hv; by apply elem_of_nil in Hv].
  - rewrite insert_fold_cons. unfold insert_do_nothing at 2.
    case_bool_decide as Hr.
    + destruct (IH tbl) as (new & -> & Hnew). exists new. split; [done |].
      intros v Hv. destruct (Hnew v Hv). split; [by right | done].
    + destruct (IH (tbl ++ [r])%list) as (new & -> & Hnew). exists (r :: new).
      split; [by rewrite <- app_assoc |].
      intros v Hv. apply elem_of_cons in Hv as [-> | Hv]; [split; [left | done] |].
      destruct (Hnew v Hv) as [Hin Hkey]. split; [by right |].
      intros Hk. apply Hkey. rewrite fmap_app. apply elem_of_app. by left.
Qed.

Lemma insert_do_nothing_unique (tbl : list Visit) (r : Visit) :
  unique_visits tbl -> unique_visits (insert_do_nothing tbl r).
Proof.
  unfold unique_visits, insert_do_nothing. intros Hu.
  case_bool_decide as Hr; [done |]. rewrite fmap_app. apply NoDup_app.
  split; [done |]. split; [| apply NoDup_singleton].
  intros k Hk Hk'. apply list_elem_of_singleton in Hk'. by subst k.
Qed.

Lemma insert_fold_unique (rows tbl : list Visit) :
  unique_visits tbl -> unique_visits (fold_left insert_do_nothing rows tbl).
Proof.
  revert tbl. induction rows as [|r rows IH]; intros tbl Hu; [done |].
  rewrite insert_fold_cons. apply IH. by apply insert_do_nothing_unique.
Qed.

Lemma insert_fold_noop (rows tbl : list Visit) :
  (forall r, r ∈ rows -> visit_key r ∈ visit_key <$> tbl) ->
  fold_left insert_do_nothing rows tbl = tbl.
Proof.
  induction rows as [|r rows IH]; intros Hrows; [done |].
  rewrite insert_fold_cons. unfold insert_do_nothing at 2.
  rewrite bool_decide_eq_true_2 by (apply Hrows; left).
  apply IH. intros r' Hr'. apply Hrows. by right.
Qed.

Lemma insert_fold_covers (rows tbl : list Visit) (r : Visit) :
  r ∈ rows ->
  visit_key r ∈ visit_key <$> fold_left insert_do_nothing rows tbl.
Proof.
  revert tbl. induction rows as [|r' rows IH]; intros tbl Hr.
  - by apply elem_of_nil in Hr.
  - rewrite insert_fold_cons. apply elem_of_cons in Hr as [-> | Hr]; [| by apply IH].
    destruct (insert_fold_prefix rows (insert_do_nothing tbl r')) as (new & -> & _).
    rewrite fmap_app. apply elem_of_app. left. unfold insert_do_nothing.
    case_bool_decide as Hk; [done |].
    rewrite fmap_app. apply elem_of_app. right. rewrite list_fmap_singleton.
    by apply list_elem_of_singleton.
Qed.

(** *** The rows [updateUserDailyVisitsSQL] selects *)

Lemma left_join_fst {A B} (on : A -> B -> bool) (l : list A) (r : list B)
    (a : A) :
  (exists ob, (a, ob) ∈ Sql.left_join on l r) <-> a ∈ l.
Proof.
  unfold Sql.left_join. split.
  - intros (ob & Hin). apply list_elem_of_bind in Hin as (a' & Hin & Ha').
    destruct (List.filter (on a') r) as [|b bs].
    + apply list_elem_of_singleton in Hin. by injection Hin as -> _.
    + apply list_elem_of_fmap in Hin as (b' & Heq & _). by injection Heq as -> _.
  - intros Ha. destruct (List.filter (on a) r) as [|b bs] eqn:Hf.
    + exists None. apply list_elem_of_bind. exists a. split; [| done].
      rewrite Hf. by apply list_elem_of_singleton.
    + exists (Some b). apply list_elem_of_bind. exists a. split; [| done].
      rewrite Hf. apply list_elem_of_fmap. exists b. split; [done | left].
Qed.

Lemma daily_visit_rows_stamp (d : DB) (p1 p2 p3 : Z) (v : Visit) :
  v ∈ daily_visit_rows d p1 p2 p3 -> timestamp v = p1.
Proof.
  unfold daily_visit_rows. intros Hv.
  apply list_elem_of_fmap in Hv as ([k g] & -> & _). done.
Qed.

Lemma daily_visit_rows_due (d : DB) (p1 p2 p3 : Z) (lp dev : string) :
  (exists v, v ∈ daily_visit_rows d p1 p2 p3 /\ visit_key v = (lp, dev, p1))
  <-> visit_due d p2 p3 lp dev.
Proof.
  unfold daily_visit_rows, visit_due. split.
  - intros (v & Hv & Hk).
    apply list_elem_of_fmap in Hv as ([k g] & -> & Hkg).
    unfold visit_key in Hk. simpl in Hk. injection Hk as <- <-.
    apply elem_of_group_by in Hkg as [Hk _].
    apply list_elem_of_fmap in Hk as ([[[u ov] d'] a] & -> & Hr).
    apply list_elem_of_In, filter_In in Hr as [Hr Hwhere].
    apply list_elem_of_In, elem_of_inner_join in Hr as (Hr & Ha & Hona).
    apply elem_of_inner_join in Hr as (Hu & Hd' & Hond).
    assert (Hu' : u ∈ device_devices d) by (eapply left_join_fst; eauto).
    simpl in *. apply bool_decide_eq_true in Hona, Hond.
    rewrite !andb_true_iff, orb_true_iff, Z.leb_le, Z.ltb_lt, !Z.eqb_eq
      in Hwhere.
    exists u, d', a. repeat split; try done; lia || tauto.
  - intros (u & d' & a & Hu & Hd' & Ha & <- & <- & Hlp & Hacc & Hseen & Htype).
    apply (left_join_fst
             (fun (u : Device) (v : Visit) =>
                bool_decide (dev_localpart u = localpart v)
                && bool_decide (dev_device_id u = device_id v))
             (device_devices d)
             (List.filter (fun v : Visit => timestamp v =? p1)
                (user_daily_visits d))) in Hu as (ov & Hu).
    set (rows := List.filter _ (Sql.inner_join _ (Sql.inner_join _ _ _) _)).
    assert (Hr : (u, ov, d', a) ∈ rows).
    { apply list_elem_of_In, filter_In. split.
      - apply list_elem_of_In, elem_of_inner_join. split; [| split; [done |]].
        + apply elem_of_inner_join. split; [done |]. split; [done |].
          by apply bool_decide_eq_true.
        + by apply bool_decide_eq_true.
      - simpl. rewrite !andb_true_iff, orb_true_iff, Z.leb_le, Z.ltb_lt,
          !Z.eqb_eq. tauto. }
    eexists. split.
    + apply list_elem_of_fmap.
      exists (dev_localpart u, dev_device_id u,
              List.filter
                (fun r : Device * option Visit * Device * Account =>
                   bool_decide
                     ((dev_localpart r.1.1.1, dev_device_id r.1.1.1)
                      = (dev_localpart u, dev_device_id u))) rows).
      split; [reflexivity |]. apply elem_of_group_by. split; [| done].
      apply list_elem_of_fmap. by exists (u, ov, d', a).
    + done.
Qed.

(** The selection depends on the devices and accounts only, not on the
    facts already in the table. *)
Lemma daily_visit_rows_keys (d : DB) (tbl : list Visit) (p1 p2 p3 : Z)
    (v : Visit) :
  v ∈ daily_visit_rows (with_visits d tbl) p1 p2 p3 ->
  exists v', v' ∈ daily_visit_rows d p1 p2 p3 /\ visit_key v' = visit_key v.
Proof.
  intros Hv. pose proof (daily_visit_rows_stamp _ _ _ _ _ Hv) as Hts.
  assert (Hdue : visit_due (with_visits d tbl) p2 p3 (localpart v) (device_id v)).
  { apply (daily_visit_rows_due _ p1). exists v. split; [done |].
    unfold visit_key. by rewrite Hts. }
  apply (daily_visit_rows_due d p1) in Hdue as (v' & Hv' & Hk).
  exists v'. split; [done |]. unfold visit_key at 2. by rewrite Hts.
Qed.

Lemma updateUserDailyVisitsSQL_elem (d : DB) (p1 p2 p3 : Z) (v : Visit) :
  v ∈ updateUserDailyVisitsSQL d p1 p2 p3 ->
  v ∈ user_daily_visits d \/ timestamp v = p1.
Proof.
  unfold updateUserDailyVisitsSQL. intros Hv.
  destruct (insert_fold_prefix (daily_visit_rows d p1 p2 p3)
              (user_daily_visits d)) as (new & Heq & Hnew).
  rewrite Heq in Hv. apply elem_of_app in Hv as [Hv | Hv]; [by left |].
  right. apply Hnew in Hv as [Hv _]. by apply daily_visit_rows_stamp in Hv.
Qed.

(** C7: whatever its arguments, the statement keeps the unique index:
    it only appends facts whose [(localpart, device_id, timestamp)] is
    not yet in the table and leaves every existing fact where and as it
    was.  A later execution on the resulting table, over any window,
    does the same; it appends nothing when it has the day stamp and the
    window of the first execution, and nothing when no device was last
    seen inside its window. *)
Theorem updateUserDailyVisitsSQL_idempotent (d : DB) (p1 p2 p3 : Z) :
  unique_visits (user_daily_visits d) ->
  let once := updateUserDailyVisitsSQL d p1 p2 p3 in
  unique_visits once
  /\ (exists new, once = (user_daily_visits d ++ new)%list)
  /\ forall p1' p2' p3',
       let twice :=
         updateUserDailyVisitsSQL (with_visits d once) p1' p2' p3' in
       unique_visits twice
       /\ (exists new, twice = (once ++ new)%list)
       /\ (p1' = p1 /\ p2' = p2 /\ p3' = p3 -> twice = once)
       /\ ((forall r, r ∈ device_devices d ->
              ~ p2' <= dev_last_seen_ts r < p3') ->
           twice = once).
Proof.
  intros Hu once.
  assert (Hu1 : unique_visits once) by (by apply insert_fold_unique).
  split; [done |]. split.
  { destruct (insert_fold_prefix (daily_visit_rows d p1 p2 p3)
                (user_daily_visits d)) as (new & Heq & _).
    by exists new. }
  intros p1' p2' p3' twice. split; [by apply insert_fold_unique |]. split.
  { destruct (insert_fold_prefix
                (daily_visit_rows (with_visits d once) p1' p2' p3') once)
      as (new & Heq & _).
    by exists new. }
  split.
  - intros (-> & -> & ->). apply insert_fold_noop. intros r Hr.
    apply daily_visit_rows_keys in Hr as (r' & Hr' & <-).
    by apply insert_fold_covers.
  - intros Hidle. apply insert_fold_noop. intros r Hr. exfalso.
    pose proof (daily_visit_rows_stamp _ _ _ _ _ Hr) as Hts.
    assert (Hdue : visit_due (with_visits d once) p2' p3'
                     (localpart r) (device_id r)).
    { apply (daily_visit_rows_due _ p1'). exists r. split; [done |].
      unfold visit_key. by rewrite Hts. }
    destruct Hdue as (u & d' & a & _ & Hd' & _ & _ & _ & _ & _ & Hseen & _).
    by apply (Hidle d').
Qed.

Lemma updateUserDailyVisitsSQL_idempotent_witness :
  let once :=
    updateUserDailyVisitsSQL SampleVisits.ledger 1656633600000
      (GoTime.AsTimestamp (Sample.noon - 2 * GoTime.Hour))
      (GoTime.AsTimestamp Sample.noon) in
  unique_visits (user_daily_visits SampleVisits.ledger)
  /\ unique_visits once.
Proof.
  intros once.
  assert (Hu : unique_visits (user_daily_visits SampleVisits.ledger)).
  { unfold unique_visits. simpl. apply NoDup_singleton. }
  split; [exact Hu |].
  exact (proj1 (updateUserDailyVisitsSQL_idempotent SampleVisits.ledger
                  1656633600000
                  (GoTime.AsTimestamp (Sample.noon - 2 * GoTime.Hour))
                  (GoTime.AsTimestamp Sample.noon) Hu)).
Defined.

Example updateUserDailyVisits_sample :
  let run := updateUserDailyVisits Sample.steady Sample.healthy
               SampleVisits.world in
  let again := updateUserDailyVisits Sample.steady Sample.healthy run.2 in
  run.1 = None
  /\ user_daily_visits (w_db run.2) =
       [ {| localpart := "alice"; device_id := "TABLET";
            timestamp := 1656374400000; user_agent := None |};
         {| localpart := "alice"; device_id := "PHONE";
            timestamp := 1656633600000;
            user_agent := Some "Element/1.4.2 (Android 12)" |};
         {| localpart := "alice"; device_id := "TABLET";
            timestamp := 1656633600000; user_agent := None |} ]
  /\ lastUpdate run.2 = Sample.noon
  /\ user_daily_visits (w_db again.2) = user_daily_visits (w_db run.2).
Proof. intros run again. repeat split; reflexivity. Qed.

(** C5: [updateUserDailyVisits] returns no error exactly when the store
    executed the insert; it then sets [lastUpdate] to the clock reading
    it takes after the insert.  When the insert failed, [lastUpdate] and
    the tables are as before the call.  The next run passes the
    watermark this run left as start of its window: after a failure, the
    very watermark this run started from. *)
Theorem updateUserDailyVisits_watermark (clock : nat -> Z)
    (fault : nat -> Fault) (w : World) :
  let run := updateUserDailyVisits clock fault w in
  let next := updateUserDailyVisits clock fault run.2 in
  (run.1 = None <-> fault (length (w_calls w)) = NoFault)
  /\ (run.1 = None -> lastUpdate run.2 = clock (2 + w_reads w)%nat)
  /\ (run.1 <> None -> lastUpdate run.2 = lastUpdate w /\ w_db run.2 = w_db w)
  /\ (exists p1 p3,
        last (w_calls next.2) =
          Some {| call_stmt := updateUserDailyVisitsStmt;
                  call_args := [Int64 p1;
                                Int64 (GoTime.AsTimestamp (lastUpdate run.2));
                                Int64 p3] |})
  /\ (run.1 <> None ->
      exists p1 p3 p1' p3',
        last (w_calls run.2) =
          Some {| call_stmt := updateUserDailyVisitsStmt;
                  call_args := [Int64 p1;
                                Int64 (GoTime.AsTimestamp (lastUpdate w));
                                Int64 p3] |}
        /\ last (w_calls next.2) =
             Some {| call_stmt := updateUserDailyVisitsStmt;
                     call_args := [Int64 p1';
                                   Int64 (GoTime.AsTimestamp (lastUpdate w));
                                   Int64 p3'] |}).
Proof.
  intros run next.
  assert (Hnext : exists p1 p3,
            last (w_calls next.2) =
              Some {| call_stmt := updateUserDailyVisitsStmt;
                      call_args := [Int64 p1;
                                    Int64 (GoTime.AsTimestamp (lastUpdate run.2));
                                    Int64 p3] |}).
  { unfold next. rewrite (updateUserDailyVisits_run clock fault run.2).
    cbv zeta. do 2 eexists.
    destruct (fault (length (w_calls run.2))); cbn [snd after w_calls];
      by rewrite last_snoc. }
  assert (Hrun : exists p1 p3,
            last (w_calls run.2) =
              Some {| call_stmt := updateUserDailyVisitsStmt;
                      call_args := [Int64 p1;
                                    Int64 (GoTime.AsTimestamp (lastUpdate w));
                                    Int64 p3] |}).
  { unfold run. rewrite (updateUserDailyVisits_run clock fault w).
    cbv zeta. do 2 eexists.
    destruct (fault (length (w_calls w))); cbn [snd after w_calls];
      by rewrite last_snoc. }
  assert (Hkeep : run.1 <> None ->
                  lastUpdate run.2 = lastUpdate w /\ w_db run.2 = w_db w).
  { unfold run. rewrite (updateUserDailyVisits_run clock fault w). cbv zeta.
    by destruct (fault (length (w_calls w))). }
  split; [| split; [| split; [done | split; [done |]]]].
  - unfold run. rewrite (updateUserDailyVisits_run clock fault w). cbv zeta.
    by destruct (fault (length (w_calls w))).
  - unfold run. rewrite (updateUserDailyVisits_run clock fault w). cbv zeta.
    by destruct (fault (length (w_calls w))).
  - intros Hfail. destruct (Hkeep Hfail) as [Hlast _].
    destruct Hrun as (p1 & p3 & Hrun). destruct Hnext as (p1' & p3' & Hnext).
    rewrite Hlast in Hnext. by exists p1, p3, p1', p3'.
Qed.

(** In a process whose local zone is UTC, the day stamp
    [updateUserDailyVisits] passes to the insert is the start of the
    current day, or, when that start lies strictly after the watermark,
    the start of the day before; every fact the run adds to the table
    carries that stamp. *)
Lemma updateUserDailyVisits_day_stamp_utc (clock : nat -> Z)
    (fault : nat -> Fault) (w : World) :
  let now := clock (w_reads w) in
  let todayStart := now - now mod GoTime.Day in
  let stamp :=
    if bool_decide (lastUpdate w < todayStart) then todayStart - GoTime.Day
    else todayStart in
  let run := updateUserDailyVisits clock fault w in
  (todayStart mod GoTime.Day = 0 /\ todayStart <= now < todayStart + GoTime.Day)
  /\ (exists p2 p3,
        last (w_calls run.2) =
          Some {| call_stmt := updateUserDailyVisitsStmt;
                  call_args := [Int64 (GoTime.AsTimestamp stamp);
                                Int64 p2; Int64 p3] |})
  /\ (forall v, v ∈ user_daily_visits (w_db run.2) ->
        v ∈ user_daily_visits (w_db w)
        \/ timestamp v = GoTime.AsTimestamp stamp)
  /\ (lastUpdate w < todayStart ->
      stamp + GoTime.Day = todayStart
      /\ GoTime.AsTimestamp stamp = GoTime.AsTimestamp todayStart - 86400000).
Proof.
  intros now todayStart stamp run.
  assert (Hday : 0 < GoTime.Day) by done.
  split; [| split; [| split]].
  - unfold todayStart. pose proof (Z.mod_pos_bound now GoTime.Day Hday).
    split; [| lia]. rewrite Zminus_mod, Zmod_mod, Z.sub_diag. done.
  - unfold run. rewrite (updateUserDailyVisits_run clock fault w). cbv zeta.
    do 2 eexists.
    destruct (fault (length (w_calls w))); cbn [snd after w_calls];
      by rewrite last_snoc.
  - intros v. unfold run. rewrite (updateUserDailyVisits_run clock fault w).
    cbv zeta.
    destruct (fault (length (w_calls w)));
      cbn [snd after w_db with_visits user_daily_visits]; [| by left..].
    apply updateUserDailyVisitsSQL_elem.
  - intros Hlt. unfold stamp. rewrite bool_decide_eq_true_2 by done.
    split; [lia |]. unfold GoTime.AsTimestamp.
    change GoTime.Day with (86400000 * 1000000).
    replace (todayStart - 86400000 * 1000000)
      with (todayStart + (- 86400000) * 1000000) by lia.
    assert (Hmul : todayStart = 1000000 * (86400000 * (todayStart / GoTime.Day))).
    { assert (Hm : todayStart mod GoTime.Day = 0).
      { unfold todayStart. rewrite Zminus_mod, Zmod_mod, Z.sub_diag. done. }
      pose proof (Z.div_mod todayStart GoTime.Day ltac:(lia)) as Hdm.
      rewrite Hm in Hdm. change GoTime.Day with (86400000 * 1000000) in Hdm at 1.
      lia. }
    rewrite Hmul.
    replace (1000000 * (86400000 * (todayStart / GoTime.Day))
             + -86400000 * 1000000)
      with ((86400000 * (todayStart / GoTime.Day) - 86400000) * 1000000) by lia.
    replace (1000000 * (86400000 * (todayStart / GoTime.Day)))
      with ((86400000 * (todayStart / GoTime.Day)) * 1000000) by lia.
    rewrite !Z.quot_mul by lia. done.
Qed.

(** *** The day stamp in a local zone *)

(** In a location whose offset never changes, [AddDate(0, 0, days)] is a
    shift by [days] days of 24 hours. *)
Lemma AddDateIn_fixed_offset (loc : GoTime.Location) (o t days : Z) :
  (forall sec, GoTime.offset (loc sec) = o) ->
  GoTime.AddDateIn loc t days = GoTime.AddDate t days.
Proof.
  intros Ho. unfold GoTime.AddDateIn, GoTime.AddDate. cbv zeta. rewrite !Ho.
  assert (Hs : (t / GoTime.Second + o + days * 86400 - o) * GoTime.Second
               + t mod GoTime.Second = t + days * GoTime.Day).
  { pose proof (Z.div_mod t GoTime.Second ltac:(done)) as Hdm.
    change GoTime.Day with (86400 * GoTime.Second). lia. }
  destruct (o =? 0) eqn:Hz.
  - apply Z.eqb_eq in Hz. subst o. rewrite <- Hs. f_equal. lia.
  - by destruct (_ || _).
Qed.

Section MaterializeIn.
Variable loc : GoTime.Location.
Variable clock : nat -> Z.
Variable fault : nat -> Fault.

Lemma updateUserDailyVisitsIn_run (w : World) :
  let p1 :=
    GoTime.AsTimestamp (day_stamp_in loc (clock (w_reads w)) (lastUpdate w)) in
  let p2 := GoTime.AsTimestamp (lastUpdate w) in
  let p3 := GoTime.AsTimestamp (clock (S (w_reads w))) in
  let call := {| call_stmt := updateUserDailyVisitsStmt;
                 call_args := [Int64 p1; Int64 p2; Int64 p3] |} in
  updateUserDailyVisitsIn clock fault loc w =
    match fault (length (w_calls w)) with
    | NoFault =>
        (None,
         {| w_db := with_visits (w_db w)
                      (updateUserDailyVisitsSQL (w_db w) p1 p2 p3);
            lastUpdate := clock (S (S (w_reads w)));
            w_reads := 3 + w_reads w;
            w_calls := w_calls w ++ [call] |})
    | FailQuery e | FailRows _ e => (Some e, after 2 call w)
    end.
Proof.
  unfold updateUserDailyVisitsIn, mbind, M_bind, Now, get_lastUpdate,
    set_lastUpdate, ExecContext, mret, M_ret, after, log_call, day_stamp_in.
  cbn [w_reads w_calls w_db lastUpdate fst snd].
  rewrite Truncate_day. unfold GoTime.After.
  replace (bool_decide
             (lastUpdate w < clock (w_reads w) - clock (w_reads w) mod GoTime.Day))
    with (lastUpdate w <? clock (w_reads w) - clock (w_reads w) mod GoTime.Day).
  2: { case_bool_decide; [by apply Z.ltb_lt | by apply Z.ltb_ge; lia]. }
  by destruct (fault (length (w_calls w))).
Qed.

(** In a zone whose offset never changes, UTC among them, the method
    runs as it does in UTC. *)
Lemma updateUserDailyVisitsIn_fixed_offset (o : Z) (w : World) :
  (forall sec, GoTime.offset (loc sec) = o) ->
  updateUserDailyVisitsIn clock fault loc w = updateUserDailyVisits clock fault w.
Proof.
  intros Ho. rewrite updateUserDailyVisitsIn_run, updateUserDailyVisits_run.
  cbv zeta.
  replace (day_stamp_in loc (clock (w_reads w)) (lastUpdate w))
    with (day_stamp (clock (w_reads w)) (lastUpdate w)); [done |].
  unfold day_stamp, day_stamp_in. cbv zeta.
  rewrite (AddDateIn_fixed_offset loc o) by done.
  unfold GoTime.AddDate. case_bool_decide; [lia | done].
Qed.

End MaterializeIn.

(** C6: the process runs in America/New_York and [updateUserDailyVisits]
    is called half a minute after midnight UTC, with a watermark of the
    day before.  On 2022-03-14, [AddDate(0, 0, -1)] steps from 20:00 EDT
    back to 20:00 EST: the day stamp is one hour after the start of 13
    March, and the phone, which already has the fact of 13 March written
    during that day, gets a second fact of the same day.  In UTC the
    same run passes the start of 13 March and adds nothing.  On
    2022-11-07 the step from 19:00 EST back to 19:00 EDT takes 25 hours:
    the day stamp lies before the start of 6 November, the previous
    day. *)
Theorem updateUserDailyVisits_day_stamp_in_dst_zone :
  let fact := SampleZone.fact in
  let spring :=
    updateUserDailyVisitsIn (SampleZone.half_past SampleZone.march_14)
      Sample.healthy SampleZone.new_york
      (SampleZone.world SampleZone.march_14 1647129600000) in
  let spring_utc :=
    updateUserDailyVisits (SampleZone.half_past SampleZone.march_14)
      Sample.healthy
      (SampleZone.world SampleZone.march_14 1647129600000) in
  let autumn :=
    updateUserDailyVisitsIn (SampleZone.half_past SampleZone.november_7)
      Sample.healthy SampleZone.new_york
      (SampleZone.world SampleZone.november_7 1667692800000) in
  GoTime.AsTimestamp (SampleZone.march_14 - GoTime.Day) = 1647129600000
  /\ GoTime.AsTimestamp SampleZone.march_13 = 1647129600000
  /\ spring.1 = None
  /\ w_calls spring.2 =
       [ {| call_stmt := updateUserDailyVisitsStmt;
            call_args := [Int64 1647133200000; Int64 1647212400000;
                          Int64 1647216030000] |} ]
  /\ user_daily_visits (w_db spring.2) =
       [ fact 1647129600000; fact 1647133200000 ]
  /\ w_calls spring_utc.2 =
       [ {| call_stmt := updateUserDailyVisitsStmt;
            call_args := [Int64 1647129600000; Int64 1647212400000;
                          Int64 1647216030000] |} ]
  /\ user_daily_visits (w_db spring_utc.2) = [ fact 1647129600000 ]
  /\ GoTime.AsTimestamp (SampleZone.november_7 - GoTime.Day) = 1667692800000
  /\ GoTime.AsTimestamp SampleZone.november_6 = 1667692800000
  /\ w_calls autumn.2 =
       [ {| call_stmt := updateUserDailyVisitsStmt;
            call_args := [Int64 1667689200000; Int64 1667775600000;
                          Int64 1667779230000] |} ]
  /\ user_daily_visits (w_db autumn.2) =
       [ fact 1667692800000; fact 1667689200000 ].
Proof. intros fact spring spring_utc autumn. repeat split; reflexivity. Qed.

(** * Further properties *)

(** ** Platform classification of R30V2 *)

Lemma lower_ascii_idempotent (c : ascii) :
  SqlText.lower_ascii (SqlText.lower_ascii c) = SqlText.lower_ascii c.
Proof. by destruct c as [[] [] [] [] [] [] [] []]. Qed.

Lemma lower_idempotent (s : string) :
  SqlText.lower (SqlText.lower s) = SqlText.lower s.
Proof.
  induction s as [|c s IH]; [done |]. simpl.
  by rewrite lower_ascii_idempotent, IH.
Qed.

Lemma like_keyword_bool (w s : string) (b : bool) :
  SqlText.literal w = true ->
  SqlText.like ("%%" +:+ w +:+ "%%") s = b ->
  if b then SqlText.occurs w s else ~ SqlText.occurs w s.
Proof.
  intros Hw Hb. destruct b.
  - by apply like_contains.
  - by apply like_keyword_false.
Qed.

(** X1: The classification of R30V2 looks at the identifier in lower case.
    An identifier naming [riot] or [element] is classified by the first
    of [electron], [android], [ios] it contains and is [unknown]
    without one of them, whatever else it contains; any other
    identifier is [web] when it contains [mozilla] or [gecko] and
    [unknown] otherwise.  A missing identifier is [unknown]. *)
Theorem client_type_by_lower_case (s : string) :
  let l := SqlText.lower s in
  let app := SqlText.occurs "riot" l \/ SqlText.occurs "element" l in
  client_type (Some (SqlText.lower s)) = client_type (Some s)
  /\ (app -> SqlText.occurs "electron" l -> client_type (Some s) = "electron")
  /\ (app -> ~ SqlText.occurs "electron" l -> SqlText.occurs "android" l ->
      client_type (Some s) = "android")
  /\ (app -> ~ SqlText.occurs "electron" l -> ~ SqlText.occurs "android" l ->
      SqlText.occurs "ios" l -> client_type (Some s) = "ios")
  /\ (app -> ~ SqlText.occurs "electron" l -> ~ SqlText.occurs "android" l ->
      ~ SqlText.occurs "ios" l -> client_type (Some s) = "unknown")
  /\ (~ app -> SqlText.occurs "mozilla" l \/ SqlText.occurs "gecko" l ->
      client_type (Some s) = "web")
  /\ (~ app -> ~ SqlText.occurs "mozilla" l -> ~ SqlText.occurs "gecko" l ->
      client_type (Some s) = "unknown")
  /\ client_type None = "unknown".
Proof.
  intros l app. split.
  { unfold client_type, SqlText.lower_null. by rewrite lower_idempotent. }
  unfold client_type, SqlText.lower_null, SqlText.like_null. fold l.
  pose proof (like_keyword_bool "riot" l _ eq_refl eq_refl) as Hr.
  pose proof (like_keyword_bool "element" l _ eq_refl eq_refl) as Hel.
  pose proof (like_keyword_bool "electron" l _ eq_refl eq_refl) as He.
  pose proof (like_keyword_bool "android" l _ eq_refl eq_refl) as Ha.
  pose proof (like_keyword_bool "ios" l _ eq_refl eq_refl) as Hi.
  pose proof (like_keyword_bool "mozilla" l _ eq_refl eq_refl) as Hm.
  pose proof (like_keyword_bool "gecko" l _ eq_refl eq_refl) as Hg.
  change ("%%" +:+ "riot" +:+ "%%") with "%%riot%%" in *.
  change ("%%" +:+ "element" +:+ "%%") with "%%element%%" in *.
  change ("%%" +:+ "electron" +:+ "%%") with "%%electron%%" in *.
  change ("%%" +:+ "android" +:+ "%%") with "%%android%%" in *.
  change ("%%" +:+ "ios" +:+ "%%") with "%%ios%%" in *.
  change ("%%" +:+ "mozilla" +:+ "%%") with "%%mozilla%%" in *.
  change ("%%" +:+ "gecko" +:+ "%%") with "%%gecko%%" in *.
  unfold app.
  destruct (SqlText.like "%%riot%%" l), (SqlText.like "%%element%%" l),
    (SqlText.like "%%electron%%" l), (SqlText.like "%%android%%" l),
    (SqlText.like "%%ios%%" l), (SqlText.like "%%mozilla%%" l),
    (SqlText.like "%%gecko%%" l); simpl; repeat split; tauto.
Qed.

(** ** The groups of the R30V2 statement *)

Lemma fold_max_spec (l : list Z) (x : Z) :
  fold_left Z.max l x ∈ x :: l
  /\ forall y, y ∈ x :: l -> y <= fold_left Z.max l x.
Proof.
  revert x. induction l as [|z l IH]; intros x; simpl.
  - split; [left |]. intros y Hy. apply list_elem_of_singleton in Hy. lia.
  - destruct (IH (Z.max x z)) as [Hin Hge]. split.
    + apply elem_of_cons in Hin as [Heq | Hin].
      * rewrite Heq. destruct (Z.max_spec x z) as [[_ ->] | [_ ->]];
          [right; left | left].
      * right. by right.
    + intros y Hy.
      assert (Hm : Z.max x z <= fold_left Z.max l (Z.max x z)) by (apply Hge; left).
      apply elem_of_cons in Hy as [-> | Hy]; [lia |].
      apply elem_of_cons in Hy as [-> | Hy]; [lia |].
      apply Hge. by right.
Qed.

Lemma fold_min_spec (l : list Z) (x : Z) :
  fold_left Z.min l x ∈ x :: l
  /\ forall y, y ∈ x :: l -> fold_left Z.min l x <= y.
Proof.
  revert x. induction l as [|z l IH]; intros x; simpl.
  - split; [left |]. intros y Hy. apply list_elem_of_singleton in Hy. lia.
  - destruct (IH (Z.min x z)) as [Hin Hle]. split.
    + apply elem_of_cons in Hin as [Heq | Hin].
      * rewrite Heq. destruct (Z.min_spec x z) as [[_ ->] | [_ ->]];
          [left | right; left].
      * right. by right.
    + intros y Hy.
      assert (Hm : fold_left Z.min l (Z.min x z) <= Z.min x z) by (apply Hle; left).
      apply elem_of_cons in Hy as [-> | Hy]; [lia |].
      apply elem_of_cons in Hy as [-> | Hy]; [lia |].
      apply Hle. by right.
Qed.

(** [HAVING max(timestamp) - min(timestamp) > $3] holds of a group
    exactly when two of its facts lie more than [$3] apart. *)
Lemma r30v2_having_spec (p3 : Z) (g : list Visit) :
  r30v2_having p3 g = true <->
  exists v1 v2, v1 ∈ g /\ v2 ∈ g /\ p3 < timestamp v1 - timestamp v2.
Proof.
  unfold r30v2_having. destruct g as [|v g].
  - split; [done |]. intros (v1 & _ & Hv1 & _). by apply elem_of_nil in Hv1.
  - rewrite fmap_cons. cbn [Sql.max_int Sql.min_int]. rewrite Z.ltb_lt.
    destruct (fold_max_spec (timestamp <$> g) (timestamp v)) as [Hmax Hmax'].
    destruct (fold_min_spec (timestamp <$> g) (timestamp v)) as [Hmin Hmin'].
    rewrite <- fmap_cons in Hmax, Hmax', Hmin, Hmin'. split.
    + intros Hlt.
      apply list_elem_of_fmap in Hmax as (v1 & Hv1 & Hin1).
      apply list_elem_of_fmap in Hmin as (v2 & Hv2 & Hin2).
      exists v1, v2. split; [done |]. split; [done |]. lia.
    + intros (v1 & v2 & Hin1 & Hin2 & Hlt).
      assert (timestamp v1 <= fold_left Z.max (timestamp <$> g) (timestamp v)).
      { apply Hmax'. apply list_elem_of_fmap. by exists v1. }
      assert (fold_left Z.min (timestamp <$> g) (timestamp v) <= timestamp v2).
      { apply Hmin'. apply list_elem_of_fmap. by exists v2. }
      lia.
Qed.

Lemma NoDup_filter_bool {A} (f : A -> bool) (l : list A) :
  NoDup l -> NoDup (List.filter f l).
Proof.
  induction 1 as [|x l Hx Hnd IH]; simpl; [constructor |].
  destruct (f x); [| done]. constructor; [| done].
  intros Hin. apply Hx. by apply list_elem_of_In, filter_In in Hin as [?%list_elem_of_In _].
Qed.

Lemma NoDup_fst_keys {A B} (l : list (A * B)) : NoDup l.*1 -> NoDup l.
Proof. apply NoDup_fmap_1. Qed.

Lemma r30v2_temp_NoDup (d : DB) (p1 p2 p3 : Z) : NoDup (r30v2_temp d p1 p2 p3).
Proof.
  unfold r30v2_temp.
  set (gs := Sql.group_by _ _).
  assert (Hnd : NoDup gs.*1) by apply group_by_NoDup.
  clearbody gs. induction gs as [|[k g] gs IH]; simpl; [constructor |].
  rewrite fmap_cons in Hnd. apply NoDup_cons in Hnd as [Hk Hnd].
  destruct (r30v2_having p3 g); simpl; [| by apply IH].
  constructor; [| by apply IH].
  intros Hin. apply Hk. apply list_elem_of_fmap in Hin as ([k' g'] & -> & Hin).
  apply list_elem_of_In, filter_In in Hin as [Hin _].
  apply list_elem_of_fmap. exists (k', g'). split; [done | by apply list_elem_of_In].
Qed.

Lemma elem_of_countR30UsersV2SQL (d : DB) (p1 p2 p3 : Z) (ct : string)
    (c : Z) :
  (ct, c) ∈ countR30UsersV2SQL d p1 p2 p3 <->
  0 < c
  /\ c = Sql.count
           (List.filter (fun x : string * string => bool_decide (x.2 = ct))
              (r30v2_temp d p1 p2 p3)).
Proof.
  set (temp := r30v2_temp d p1 p2 p3). unfold countR30UsersV2SQL. fold temp.
  rewrite list_elem_of_fmap. split.
  - intros ([k g] & Heq & Hin). injection Heq as -> ->.
    apply elem_of_group_by in Hin as [Hk ->]. split; [| done].
    apply list_elem_of_fmap in Hk as (x & -> & Hx).
    unfold Sql.count.
    destruct (List.filter _ temp) as [|y ys] eqn:Hf; [| simpl; lia].
    exfalso.
    assert (Hx' : In x (List.filter
              (fun x0 : string * string => bool_decide (x0.2 = x.2)) temp)).
    { apply filter_In. split; [by apply list_elem_of_In |].
      by apply bool_decide_eq_true. }
    by rewrite Hf in Hx'.
  - intros [Hpos ->].
    exists (ct, List.filter
                  (fun x : string * string => bool_decide (x.2 = ct)) temp).
    split; [done |]. apply elem_of_group_by. split; [| done].
    destruct (List.filter _ temp) as [|y ys] eqn:Hf; [done |].
    assert (Hy : In y (y :: ys)) by (by left). rewrite <- Hf in Hy.
    apply filter_In in Hy as [Hy Hct]. apply bool_decide_eq_true in Hct.
    apply list_elem_of_fmap. exists y. split; [done | by apply list_elem_of_In].
Qed.

(** X2: The R30V2 statement, for any arguments: a user is retained under a
    client type exactly when two facts of that user and client type,
    both inside the window [($1, $2)], lie more than [$3] apart; each
    retained pair is listed once, and each client type with a retained
    user is returned with the number of its users. *)
Theorem countR30UsersV2SQL_groups (d : DB) (p1 p2 p3 : Z) :
  let temp := r30v2_temp d p1 p2 p3 in
  NoDup temp
  /\ (forall u ct,
        (u, ct) ∈ temp <->
        exists v1 v2,
          v1 ∈ user_daily_visits d /\ v2 ∈ user_daily_visits d
          /\ localpart v1 = u /\ localpart v2 = u
          /\ client_type (user_agent v1) = ct
          /\ client_type (user_agent v2) = ct
          /\ p1 < timestamp v1 < p2 /\ p1 < timestamp v2 < p2
          /\ p3 < timestamp v1 - timestamp v2)
  /\ (forall ct c,
        (ct, c) ∈ countR30UsersV2SQL d p1 p2 p3 <->
        0 < c
        /\ c = Sql.count
                 (List.filter (fun x : string * string => bool_decide (x.2 = ct))
                    temp)).
Proof.
  intros temp. split; [apply r30v2_temp_NoDup |]. split.
  - intros u ct. unfold temp, r30v2_temp.
    set (rows := List.filter _ (user_daily_visits d)).
    assert (Hrows : forall v, v ∈ rows <->
              v ∈ user_daily_visits d /\ p1 < timestamp v < p2).
    { intros v. unfold rows.
      rewrite list_elem_of_In, filter_In, andb_true_iff, !Z.ltb_lt,
        <- list_elem_of_In. tauto. }
    assert (Hgroup : forall v, v ∈ List.filter
              (fun x : Visit =>
                 bool_decide ((localpart x, client_type (user_agent x)) = (u, ct)))
              rows <->
              v ∈ rows /\ localpart v = u /\ client_type (user_agent v) = ct).
    { intros v. rewrite list_elem_of_In, filter_In, bool_decide_eq_true,
        <- list_elem_of_In.
      split; [intros [? [= ? ?]]; done | intros (? & <- & <-); done]. }
    split.
    + intros Hin. apply list_elem_of_fmap in Hin as ([k g] & Hk & Hin).
      simpl in Hk. subst k.
      apply list_elem_of_In, filter_In in Hin as [Hin Hhaving].
      apply list_elem_of_In, elem_of_group_by in Hin as [_ ->].
      apply r30v2_having_spec in Hhaving as (v1 & v2 & H1 & H2 & Hgap).
      apply Hgroup in H1 as (H1 & Hu1 & Hc1). apply Hgroup in H2 as (H2 & Hu2 & Hc2).
      apply Hrows in H1 as [H1 Hw1]. apply Hrows in H2 as [H2 Hw2].
      by exists v1, v2.
    + intros (v1 & v2 & H1 & H2 & Hu1 & Hu2 & Hc1 & Hc2 & Hw1 & Hw2 & Hgap).
      apply list_elem_of_fmap.
      exists (u, ct,
              List.filter
                (fun x : Visit =>
                   bool_decide
                     ((localpart x, client_type (user_agent x)) = (u, ct)))
                rows).
      split; [done |]. apply list_elem_of_In, filter_In. split.
      * apply list_elem_of_In, elem_of_group_by. split; [| done].
        apply list_elem_of_fmap. exists v1. split; [by rewrite Hu1, Hc1 |].
        by apply Hrows.
      * apply r30v2_having_spec. exists v1, v2.
        split; [apply Hgroup; split; [by apply Hrows | done] |].
        split; [apply Hgroup; split; [by apply Hrows | done] | done].
  - intros ct c. apply elem_of_countR30UsersV2SQL.
Qed.

(** ** What [r30UsersV2] returns *)

Lemma countR30UsersV2SQL_NoDup (d : DB) (p1 p2 p3 : Z) :
  NoDup (countR30UsersV2SQL d p1 p2 p3).*1.
Proof.
  unfold countR30UsersV2SQL.
  assert (Hk := group_by_NoDup (snd : string * string -> string)
                  (r30v2_temp d p1 p2 p3)).
  revert Hk.
  generalize (Sql.group_by (snd : string * string -> string)
                (r30v2_temp d p1 p2 p3)).
  intros gs Hk.
  replace (((fun '(ct, g) => (ct, Sql.count g)) <$> gs).*1) with gs.*1; [done |].
  clear Hk. induction gs as [|[k g] gs IH]; [done |].
  rewrite !fmap_cons. simpl. f_equal. exact IH.
Qed.

Lemma countR30UsersV2SQL_no_all (d : DB) (p1 p2 p3 : Z) :
  "all" ∉ (countR30UsersV2SQL d p1 p2 p3).*1.
Proof.
  intros Hin. apply countR30UsersV2SQL_types in Hin as (u & Hu).
  apply elem_of_r30v2_temp in Hu as (v & _ & _ & Hct & _).
  pose proof (client_type_cases (user_agent v)) as Hc. rewrite <- Hct in Hc.
  set_solver.
Qed.

Lemma countR30UsersV2SQL_counts (d : DB) (p1 p2 p3 : Z) :
  foldr Z.add 0 (countR30UsersV2SQL d p1 p2 p3).*2
  = Sql.count (r30v2_temp d p1 p2 p3).
Proof.
  unfold countR30UsersV2SQL.
  rewrite <- (group_by_sizes (snd : string * string -> string)
                (r30v2_temp d p1 p2 p3)).
  generalize (Sql.group_by (snd : string * string -> string)
                (r30v2_temp d p1 p2 p3)).
  intros gs. induction gs as [|[k g] gs IH]; [done |].
  rewrite !fmap_cons. simpl. f_equal. exact IH.
Qed.

(** X3: On success [r30UsersV2] reports, under each of [ios], [android],
    [web] and [electron], the number of users the statement retains with
    that client type, and under [all] the number of all retained pairs,
    those of client type [unknown] included. *)
Theorem r30UsersV2_counts_per_client_type (clock : nat -> Z)
    (fault : nat -> Fault) (w : World) (m : gmap string Z) :
  (r30UsersV2 clock fault w).1 = (Some m, None) ->
  let temp :=
    r30v2_temp (w_db w) (r30v2_from (clock (w_reads w)))
      (r30v2_until (clock (S (S (w_reads w)))))
      (r30v2_gap (clock (S (w_reads w)))) in
  m !! "all" = Some (wrap64 (Sql.count temp))
  /\ (forall k, k ∈ ["ios"; "android"; "web"; "electron"] ->
        m !! k = Some (Sql.count (r30v2_of temp k)))
  /\ Sql.count temp =
       Sql.count (r30v2_of temp "ios") + Sql.count (r30v2_of temp "android")
       + Sql.count (r30v2_of temp "web") + Sql.count (r30v2_of temp "electron")
       + Sql.count (r30v2_of temp "unknown").
Proof.
  intros Hrun temp. rewrite r30UsersV2_run in Hrun. cbv zeta in Hrun.
  destruct (fault (length (w_calls w))); cbn [fst] in Hrun; [| discriminate..].
  injection Hrun as <-.
  set (rows := countR30UsersV2SQL _ _ _ _).
  assert (Hrows := elem_of_countR30UsersV2SQL (w_db w)
                      (r30v2_from (clock (w_reads w)))
                      (r30v2_until (clock (S (S (w_reads w)))))
                      (r30v2_gap (clock (S (w_reads w))))).
  fold temp rows in Hrows.
  split; [| split].
  - rewrite r30_loop_all by apply countR30UsersV2SQL_no_all.
    pose proof (countR30UsersV2SQL_counts (w_db w)
                  (r30v2_from (clock (w_reads w)))
                  (r30v2_until (clock (S (S (w_reads w)))))
                  (r30v2_gap (clock (S (w_reads w))))) as Hsum.
    fold temp rows in Hsum. rewrite Hsum.
    destruct rows as [|r rows'] eqn:Hr; [| done].
    simpl in Hsum. by rewrite <- Hsum.
  - intros k Hk.
    assert (Hk' : k ≠ "all" /\ k ≠ "unknown") by set_solver.
    destruct Hk' as [Hall Hunk].
    destruct (r30v2_of temp k) as [|x xs] eqn:Hf.
    + rewrite r30_loop_other; [set_solver | done |]. right. intros Hin.
      apply list_elem_of_fmap in Hin as ([k' c] & Hkc & Hin).
      simpl in Hkc. subst k'. apply Hrows in Hin as [Hpos Hc].
      unfold r30v2_of in Hf. rewrite Hf in Hc. subst c. done.
    + apply r30_loop_platform;
        [done | done | apply countR30UsersV2SQL_NoDup |].
      apply Hrows. unfold r30v2_of in Hf. rewrite Hf.
      split; [unfold Sql.count; simpl; lia | done].
  - rewrite <- (filter_sizes (snd : string * string -> string)
                  ["ios"; "android"; "web"; "electron"; "unknown"] temp).
    + unfold r30v2_of. simpl. lia.
    + repeat (apply NoDup_cons; split; [set_solver |]). apply NoDup_nil_2.
    + intros [u ct] Hx. apply elem_of_r30v2_temp in Hx as (v & _ & _ & -> & _).
      pose proof (client_type_cases (user_agent v)) as Hc. simpl. set_solver.
Qed.

Lemma r30UsersV2_counts_per_client_type_witness :
  let m :=
    fold_left r30_row
      (countR30UsersV2SQL SampleV2Window.early_visits
         (r30v2_from SampleV2Window.early) (r30v2_until SampleV2Window.early)
         (r30v2_gap SampleV2Window.early))
      r30v2_init in
  (r30UsersV2 (fun _ => SampleV2Window.early) Sample.healthy
     (Sample.world_of SampleV2Window.early_visits)).1 = (Some m, None)
  /\ m !! "all" =
       Some (wrap64 (Sql.count
                       (r30v2_temp SampleV2Window.early_visits
                          (r30v2_from SampleV2Window.early)
                          (r30v2_until SampleV2Window.early)
                          (r30v2_gap SampleV2Window.early)))).
Proof.
  intros m. split; [reflexivity |].
  exact (proj1 (r30UsersV2_counts_per_client_type
                  (fun _ => SampleV2Window.early) Sample.healthy
                  (Sample.world_of SampleV2Window.early_visits) m eq_refl)).
Defined.

Example r30UsersV2_early_sample :
  exists m,
    (r30UsersV2 (fun _ => SampleV2Window.early) Sample.healthy
       (Sample.world_of SampleV2Window.early_visits)).1 = (Some m, None)
    /\ m !! "web" = Some 1 /\ m !! "all" = Some 1 /\ m !! "ios" = Some 0.
Proof. eexists. split; [reflexivity |]. repeat split; reflexivity. Qed.

(** X4: [r30UsersV2] passes as threshold [$3] the date thirty days before
    its second clock reading, in milliseconds since 1970.  Once that
    date is at least as large as the window is wide, which holds for
    every clock later than March 1970 whose readings are taken in
    order, the statement retains nobody and a successful call returns
    the five keys at zero, whatever the facts. *)
Theorem r30UsersV2_zero_after_1970 (clock : nat -> Z) (fault : nat -> Fault)
    (w : World) :
  let n1 := clock (w_reads w) in
  let n2 := clock (S (w_reads w)) in
  let n3 := clock (S (S (w_reads w))) in
  60 * GoTime.Day <= n1 -> n1 <= n3 -> 91 * GoTime.Day + (n3 - n1) <= n2 ->
  (r30UsersV2 clock fault w).1.2 = None ->
  (r30UsersV2 clock fault w).1.1 = Some r30v2_init.
Proof.
  intros n1 n2 n3 H1 H13 H2. rewrite r30UsersV2_run. cbv zeta. fold n1 n2 n3.
  destruct (fault (length (w_calls w))); cbn [fst snd]; [| discriminate..].
  intros _. rewrite countR30UsersV2SQL_threshold; [done |].
  unfold r30v2_until, r30v2_from, r30v2_gap, GoTime.AsTimestamp,
    GoTime.AddDate, GoTime.Add.
  change GoTime.Day with 86400000000000 in *.
  change (GoTime.Hour * 24) with 86400000000000.
  rewrite !Z.quot_div_nonneg by lia.
  pose proof (Z.div_mod (n3 + 86400000000000) 1000000 ltac:(lia)).
  pose proof (Z.mod_pos_bound (n3 + 86400000000000) 1000000 ltac:(lia)).
  pose proof (Z.div_mod (n1 + -60 * 86400000000000) 1000000 ltac:(lia)).
  pose proof (Z.mod_pos_bound (n1 + -60 * 86400000000000) 1000000 ltac:(lia)).
  pose proof (Z.div_mod (n2 + -30 * 86400000000000) 1000000 ltac:(lia)).
  pose proof (Z.mod_pos_bound (n2 + -30 * 86400000000000) 1000000 ltac:(lia)).
  lia.
Qed.

Lemma r30UsersV2_zero_after_1970_witness :
  (r30UsersV2 Sample.steady Sample.healthy
     (Sample.world_of SampleV2.bob_and_dave)).1.1 = Some r30v2_init.
Proof.
  apply (r30UsersV2_zero_after_1970 Sample.steady Sample.healthy
           (Sample.world_of SampleV2.bob_and_dave)); by vm_compute.
Defined.

(** ** What [r30Users] returns *)

(** X5: A successful [r30Users] returns a map with no key beyond [all],
    [android], [ios], [electron] and [web].  It has no fixed keys: the
    map is empty, without even [all], exactly when no account has a
    qualifying device. *)
Theorem r30Users_keys (clock : nat -> Z) (fault : nat -> Fault) (w : World)
    (m : gmap string Z) :
  (r30Users clock fault w).1 = (Some m, None) ->
  let p1 := r30_since (clock (w_reads w)) in
  dom m ⊆ {[ "all"; "android"; "ios"; "electron"; "web" ]}
  /\ (m = ∅ <->
      ~ exists a r,
          a ∈ account_accounts (w_db w) /\ r ∈ device_devices (w_db w)
          /\ r30_qualifies p1 (30 * 86400000) a r)
  /\ (m ≠ ∅ -> is_Some (m !! "all")).
Proof.
  intros Hrun p1.
  destruct (r30Users_lookup clock fault w m Hrun) as (Hunk & Hall & Hp).
  fold p1 in Hall, Hp.
  assert (Hgroups : r30_groups (w_db w) p1 r30_diff = [] <->
            ~ exists a r,
                a ∈ account_accounts (w_db w) /\ r ∈ device_devices (w_db w)
                /\ r30_qualifies p1 (30 * 86400000) a r).
  { split.
    - intros Hnil (a & r & Ha & Hr & Hq).
      assert (Hin : (acc_localpart a, legacy_platform (dev_user_agent r),
                     acc_created_ts a) ∈ (r30_groups (w_db w) p1 r30_diff).*1).
      { apply elem_of_r30_groups. by exists a, r. }
      rewrite Hnil in Hin. by apply elem_of_nil in Hin.
    - intros Hnone.
      destruct (r30_groups (w_db w) p1 r30_diff) as [|[[[u p] c] mx] gs] eqn:Hg;
        [done |].
      exfalso. apply Hnone.
      assert (Hin : (u, p, c) ∈ (r30_groups (w_db w) p1 r30_diff).*1).
      { rewrite Hg, fmap_cons. left. }
      apply elem_of_r30_groups in Hin as (a & r & Ha & Hr & Hq & _).
      by exists a, r. }
  assert (Hempty : r30_groups (w_db w) p1 r30_diff = [] -> m = ∅).
  { intros Hnil.
    assert (Herr : (r30Users clock fault w).1.2 = None) by (by rewrite Hrun).
    apply r30Users_success in Herr. rewrite Hrun in Herr. simpl in Herr.
    injection Herr as ->. fold p1. unfold countR30UsersSQL. by rewrite Hnil. }
  split; [| split].
  - intros k Hk. apply elem_of_dom in Hk as [c Hc].
    destruct (decide (k = "all")) as [-> | Hnall]; [set_solver |].
    destruct (decide (k = "unknown")) as [-> | Hnunk]; [congruence |].
    rewrite (Hp k Hnunk Hnall) in Hc.
    destruct (r30_groups_of (w_db w) p1 r30_diff k) as [|g gs] eqn:Hg;
      [done |].
    assert (Hin : In g (g :: gs)) by (by left). rewrite <- Hg in Hin.
    apply filter_In in Hin as [Hin Hk]. apply bool_decide_eq_true in Hk.
    apply list_elem_of_In, r30_groups_platform in Hin. rewrite Hk in Hin.
    set_solver.
  - rewrite <- Hgroups. split; [| done].
    intros ->. rewrite lookup_empty in Hall.
    by destruct (r30_groups (w_db w) p1 r30_diff).
  - intros Hne. rewrite Hall.
    destruct (r30_groups (w_db w) p1 r30_diff); [by destruct Hne; apply Hempty | done].
Qed.

Lemma r30Users_keys_witness :
  let m :=
    fold_left r30_row
      (countR30UsersSQL Sample.with_unknown (r30_since Sample.noon) r30_diff)
      ∅ in
  (r30Users Sample.steady Sample.healthy
     (Sample.world_of Sample.with_unknown)).1 = (Some m, None)
  /\ dom m ⊆ {[ "all"; "android"; "ios"; "electron"; "web" ]}.
Proof.
  intros m. split; [reflexivity |].
  exact (proj1 (r30Users_keys Sample.steady Sample.healthy
                  (Sample.world_of Sample.with_unknown) m eq_refl)).
Defined.

(** X6: The store lists the groups of a statement in no promised order.
    The map [r30Users] builds does not depend on it: reading the rows of
    the statement in any other order gives the map it returns. *)
Theorem r30Users_row_order (clock : nat -> Z) (fault : nat -> Fault)
    (w : World) (m : gmap string Z) (rows : list (string * Z)) :
  (r30Users clock fault w).1 = (Some m, None) ->
  rows ≡ₚ countR30UsersSQL (w_db w) (r30_since (clock (w_reads w))) r30_diff ->
  fold_left r30_row rows ∅ = m.
Proof.
  intros Hrun Hperm.
  assert (Herr : (r30Users clock fault w).1.2 = None) by (by rewrite Hrun).
  apply r30Users_success in Herr. rewrite Hrun in Herr. simpl in Herr.
  injection Herr as ->.
  apply r30_loop_Permutation;
    [done | apply countR30UsersSQL_NoDup | apply countR30UsersSQL_no_all].
Qed.

Lemma r30Users_row_order_witness :
  let rows :=
    countR30UsersSQL Sample.two_platforms (r30_since Sample.noon) r30_diff in
  let m := fold_left r30_row rows ∅ in
  (r30Users Sample.steady Sample.healthy
     (Sample.world_of Sample.two_platforms)).1 = (Some m, None)
  /\ fold_left r30_row (reverse rows) ∅ = m.
Proof.
  intros rows m. split; [reflexivity |].
  apply (r30Users_row_order Sample.steady Sample.healthy
           (Sample.world_of Sample.two_platforms) m (reverse rows));
    [reflexivity | apply reverse_Permutation].
Defined.

(** X7: The map [r30UsersV2] builds from its five zero keys does not
    depend on the order of the rows either. *)
Theorem r30UsersV2_row_order (clock : nat -> Z) (fault : nat -> Fault)
    (w : World) (m : gmap string Z) (rows : list (string * Z)) :
  (r30UsersV2 clock fault w).1 = (Some m, None) ->
  rows ≡ₚ countR30UsersV2SQL (w_db w) (r30v2_from (clock (w_reads w)))
            (r30v2_until (clock (S (S (w_reads w)))))
            (r30v2_gap (clock (S (w_reads w)))) ->
  fold_left r30_row rows r30v2_init = m.
Proof.
  intros Hrun Hperm. rewrite r30UsersV2_run in Hrun. cbv zeta in Hrun.
  destruct (fault (length (w_calls w))); cbn [fst] in Hrun; [| discriminate..].
  injection Hrun as <-.
  apply r30_loop_Permutation;
    [done | apply countR30UsersV2SQL_NoDup | apply countR30UsersV2SQL_no_all].
Qed.

Lemma r30UsersV2_row_order_witness :
  let rows :=
    countR30UsersV2SQL SampleV2Window.early_visits
      (r30v2_from SampleV2Window.early) (r30v2_until SampleV2Window.early)
      (r30v2_gap SampleV2Window.early) in
  let m := fold_left r30_row rows r30v2_init in
  (r30UsersV2 (fun _ => SampleV2Window.early) Sample.healthy
     (Sample.world_of SampleV2Window.early_visits)).1 = (Some m, None)
  /\ fold_left r30_row (reverse rows) r30v2_init = m.
Proof.
  intros rows m. split; [reflexivity |].
  apply (r30UsersV2_row_order (fun _ => SampleV2Window.early) Sample.healthy
           (Sample.world_of SampleV2Window.early_visits) m (reverse rows));
    [reflexivity | apply reverse_Permutation].
Defined.

(** ** Active users *)

Lemma remove_dups_length_le {A} `{EqDecision A} (l : list A) :
  (length (remove_dups l) <= length l)%nat.
Proof.
  induction l as [|x l IH]; simpl; [done |].
  destruct (decide_rel elem_of x l); simpl; lia.
Qed.

Lemma filter_bool_length_le {A} (f : A -> bool) (l : list A) :
  (length (List.filter f l) <= length l)%nat.
Proof. induction l as [|x l IH]; simpl; [done |]. destruct (f x); simpl; lia. Qed.

Lemma countUsersLastSeenAfterSQL_length (d : DB) (p : Z) :
  countUsersLastSeenAfterSQL d p =
    Z.of_nat (length (remove_dups
      (dev_localpart <$>
         List.filter (fun r => p <? dev_last_seen_ts r) (device_devices d)))).
Proof.
  unfold countUsersLastSeenAfterSQL, Sql.count.
  by rewrite <- group_by_keys, length_fmap.
Qed.

Lemma elem_of_active_users (d : DB) (p : Z) (u : string) :
  u ∈ remove_dups
        (dev_localpart <$>
           List.filter (fun r => p <? dev_last_seen_ts r) (device_devices d))
  <-> exists r, r ∈ device_devices d /\ dev_localpart r = u
                /\ p < dev_last_seen_ts r.
Proof.
  rewrite elem_of_remove_dups, list_elem_of_fmap. split.
  - intros (r & -> & Hr). apply list_elem_of_In, filter_In in Hr as [Hr Hp].
    apply Z.ltb_lt in Hp. exists r. by rewrite list_elem_of_In.
  - intros (r & Hr & <- & Hp). exists r. split; [done |].
    apply list_elem_of_In, filter_In. split; [by apply list_elem_of_In |].
    by apply Z.ltb_lt.
Qed.

Lemma countUsersLastSeenAfterSQL_antitone (d : DB) (p1 p1' : Z) :
  p1 <= p1' ->
  0 <= countUsersLastSeenAfterSQL d p1' <= countUsersLastSeenAfterSQL d p1.
Proof.
  intros Hle. rewrite !countUsersLastSeenAfterSQL_length. split; [lia |].
  apply Nat2Z.inj_le, submseteq_length, NoDup_submseteq;
    [apply NoDup_remove_dups |].
  intros u Hu. apply elem_of_active_users in Hu as (r & Hr & Hu & Hp).
  apply elem_of_active_users. exists r. split; [done |]. split; [done | lia].
Qed.

(** X8: [countUsersLastSeenAfterSQL] counts each user with a device seen
    after [$1] once, however many devices the user has; the count cannot
    grow when the threshold moves forward. *)
Theorem countUsersLastSeenAfterSQL_distinct_users (d : DB) (p1 : Z) :
  (exists users : list string,
     NoDup users
     /\ (forall u, u ∈ users <->
           exists r, r ∈ device_devices d /\ dev_localpart r = u
                     /\ p1 < dev_last_seen_ts r)
     /\ countUsersLastSeenAfterSQL d p1 = Z.of_nat (length users))
  /\ (forall p1', p1 <= p1' ->
        0 <= countUsersLastSeenAfterSQL d p1' <= countUsersLastSeenAfterSQL d p1)
  /\ countUsersLastSeenAfterSQL d p1 <= Z.of_nat (length (device_devices d)).
Proof.
  split; [| split].
  - eexists. split; [apply NoDup_remove_dups |].
    split; [apply elem_of_active_users | apply countUsersLastSeenAfterSQL_length].
  - intros p1'. apply countUsersLastSeenAfterSQL_antitone.
  - rewrite countUsersLastSeenAfterSQL_length. apply Nat2Z.inj_le.
    etrans; [apply remove_dups_length_le |]. rewrite length_fmap.
    apply filter_bool_length_le.
Qed.

Section ActiveUsers.
Variable clock : nat -> Z.
Variable fault : nat -> Fault.

(** X9: The daily count never exceeds the monthly count taken on the same
    devices, as long as the clock reading of [monthlyUsers] is less than
    29 days after that of [dailyUsers]. *)
Theorem dailyUsers_le_monthlyUsers (w w' : World) (daily monthly : Z) :
  w_db w' = w_db w ->
  clock (w_reads w') <= clock (w_reads w) + 29 * GoTime.Day ->
  (dailyUsers clock fault w).1 = (daily, None) ->
  (monthlyUsers clock fault w').1 = (monthly, None) ->
  0 <= daily <= monthly.
Proof.
  intros Hdb Hclock Hd Hm.
  destruct (dailyUsers_cases clock fault w) as [_ [Hok | (e & He & _)]];
    [| by rewrite Hd in He].
  destruct (monthlyUsers_cases clock fault w') as [_ [Hok' | (e & He & _)]];
    [| by rewrite Hm in He].
  rewrite Hd in Hok. rewrite Hm in Hok'.
  injection Hok as ->. injection Hok' as ->. rewrite Hdb.
  apply countUsersLastSeenAfterSQL_antitone.
  unfold GoTime.AsTimestamp, GoTime.AddDate. apply Z.quot_le_mono; lia.
Qed.

End ActiveUsers.

Lemma dailyUsers_le_monthlyUsers_witness :
  0 <= countUsersLastSeenAfterSQL SampleAccounts.registry
         (GoTime.AsTimestamp (GoTime.AddDate Sample.noon (-1)))
    <= countUsersLastSeenAfterSQL SampleAccounts.registry
         (GoTime.AsTimestamp (GoTime.AddDate Sample.noon (-30))).
Proof.
  apply (dailyUsers_le_monthlyUsers Sample.steady Sample.healthy
           (Sample.world_of SampleAccounts.registry)
           (Sample.world_of SampleAccounts.registry));
    [reflexivity | by vm_compute | reflexivity | reflexivity].
Defined.

Example active_users_sample :
  (dailyUsers Sample.steady Sample.healthy
     (Sample.world_of SampleAccounts.registry)).1 = (1, None)
  /\ (monthlyUsers Sample.steady Sample.healthy
        (Sample.world_of SampleAccounts.registry)).1 = (2, None).
Proof. split; reflexivity. Qed.

(** ** Account counts *)

Lemma countUserByAccountTypeSQL_split (d : DB) :
  countUserByAccountTypeSQL d [1; 2; 3; 4] =
    countUserByAccountTypeSQL d [1; 2; 3] + countUserByAccountTypeSQL d [4]
  /\ 0 <= countUserByAccountTypeSQL d [1; 2; 3]
  /\ 0 <= countUserByAccountTypeSQL d [4].
Proof.
  unfold countUserByAccountTypeSQL, Sql.count, Sql.any_eq.
  induction (account_accounts d) as [|a l IH]; [done |]. simpl.
  destruct IH as (IH & H1 & H2).
  repeat case_bool_decide; simpl length; set_unfold; lia.
Qed.

(** X10: The count of all users is the count of non-bridged users plus the
    number of application service accounts, when both are taken on the
    same accounts. *)
Theorem allUsers_is_nonBridgedUsers_plus_appservices (fault : nat -> Fault)
    (w w' : World) (all nonBridged : Z) :
  w_db w' = w_db w ->
  (allUsers fault w).1 = (all, None) ->
  (nonBridgedUsers fault w').1 = (nonBridged, None) ->
  all = nonBridged
        + Sql.count (List.filter (fun a => acc_account_type a =? 4)
                       (account_accounts (w_db w)))
  /\ 0 <= nonBridged <= all.
Proof.
  intros Hdb Ha Hn.
  destruct (allUsers_cases fault w) as [_ [Hok | (e & He & _)]];
    [| by rewrite Ha in He].
  destruct (nonBridgedUsers_cases fault w') as [_ [Hok' | (e & He & _)]];
    [| by rewrite Hn in He].
  rewrite Ha in Hok. rewrite Hn in Hok'.
  injection Hok as ->. injection Hok' as ->. rewrite Hdb.
  destruct (countUserByAccountTypeSQL_split (w_db w)) as (Hsplit & H1 & H2).
  assert (Hfour : countUserByAccountTypeSQL (w_db w) [4] =
            Sql.count (List.filter (fun a => acc_account_type a =? 4)
                         (account_accounts (w_db w)))).
  { unfold countUserByAccountTypeSQL, Sql.any_eq. f_equal.
    induction (account_accounts (w_db w)) as [|a l IH]; [done |]. simpl.
    rewrite IH. destruct (acc_account_type a =? 4) eqn:H4.
    - apply Z.eqb_eq in H4. rewrite bool_decide_eq_true_2; [done | set_unfold; lia].
    - apply Z.eqb_neq in H4. rewrite bool_decide_eq_false_2; [done | set_unfold; lia]. }
  rewrite <- Hfour. lia.
Qed.

Lemma allUsers_is_nonBridgedUsers_plus_appservices_witness :
  countUserByAccountTypeSQL SampleAccounts.registry [1; 2; 3; 4] =
    countUserByAccountTypeSQL SampleAccounts.registry [1; 2; 3]
    + Sql.count (List.filter (fun a => acc_account_type a =? 4)
                   (account_accounts SampleAccounts.registry)).
Proof.
  exact (proj1 (allUsers_is_nonBridgedUsers_plus_appservices Sample.healthy
                  (Sample.world_of SampleAccounts.registry)
                  (Sample.world_of SampleAccounts.registry) _ _
                  eq_refl eq_refl eq_refl)).
Defined.

(** ** Registration breakdown *)

Lemma user_type_cases (a : Account) :
  (user_type [1; 3; 4] 2 a = Some "native" <->
     acc_account_type a ∈ [1; 3; 4] /\ acc_appservice_id a = None)
  /\ (user_type [1; 3; 4] 2 a = Some "guest" <->
        acc_account_type a = 2 /\ acc_appservice_id a = None)
  /\ (user_type [1; 3; 4] 2 a = Some "bridged" <->
        acc_account_type a ∈ [1; 3; 4] /\ acc_appservice_id a <> None)
  /\ (user_type [1; 3; 4] 2 a = None <->
        (acc_account_type a = 2 /\ acc_appservice_id a <> None)
        \/ acc_account_type a ∉ [1; 2; 3; 4])
  /\ (forall k, user_type [1; 3; 4] 2 a = Some k ->
        k ∈ ["native"; "guest"; "bridged"]).
Proof.
  unfold user_type, Sql.any_eq.
  destruct (decide (acc_account_type a ∈ [1; 3; 4])) as [Hin | Hin];
    [rewrite (bool_decide_eq_true_2 _ Hin) | rewrite (bool_decide_eq_false_2 _ Hin)];
    (destruct (acc_account_type a =? 2) eqn:H2;
     [apply Z.eqb_eq in H2 | apply Z.eqb_neq in H2]);
    (destruct (acc_appservice_id a) as [id|];
     [rewrite (bool_decide_eq_true_2 (is_Some (Some id))) by eauto
     | rewrite (bool_decide_eq_false_2 (is_Some None)) by (by intros [? ?])]);
    simpl; set_unfold;
    (repeat split; intros; try discriminate; try done; try lia;
     try (destruct_and?; done || lia);
     try (simplify_eq; tauto);
     try (destruct_or?; destruct_and?; done || lia);
     try (left; split; [done | discriminate]);
     try (right; lia)).
Qed.

Lemma registered_loop_null (rows : list (option string * Z))
    (m : gmap string Z) :
  (exists c, (None, c) ∈ rows) ->
  registered_loop rows m = (None, Some ScanNullError).
Proof.
  revert m. induction rows as [|[[k|] c'] rows IH]; intros m (c & Hin).
  - by apply elem_of_nil in Hin.
  - simpl. apply IH. exists c. by apply elem_of_cons in Hin as [? | ?].
  - done.
Qed.

Lemma registered_loop_ok (rows : list (option string * Z))
    (m : gmap string Z) :
  (forall c, (None, c) ∉ rows) -> NoDup rows.*1 ->
  exists m',
    registered_loop rows m = (Some m', None)
    /\ forall k, m' !! k =
         match list_find (fun r : option string * Z => r.1 = Some k) rows with
         | Some (_, (_, c)) => Some c
         | None => m !! k
         end.
Proof.
  revert m. induction rows as [|[[k'|] c'] rows IH]; intros m Hnull Hnd.
  - by exists m.
  - rewrite fmap_cons in Hnd. apply NoDup_cons in Hnd as [Hk' Hnd].
    destruct (IH (<[k' := c']> m)) as (m' & Hloop & Hm'); [| done |].
    { intros c Hc. apply (Hnull c). by right. }
    exists m'. split; [done |]. intros k. rewrite Hm'. simpl.
    case_decide as Hk.
    + injection Hk as ->. simpl.
      destruct (list_find _ rows) as [[i [ok c]]|] eqn:Hfind.
      * apply list_find_Some in Hfind as (Hi & Hok & _). simpl in Hok. subst ok.
        exfalso. apply Hk'. apply list_elem_of_fmap. exists (Some k, c).
        split; [done |]. by eapply list_elem_of_lookup_2.
      * by rewrite lookup_insert_eq.
    + destruct (list_find _ rows) as [[i [ok c]]|]; simpl; [done |].
      rewrite lookup_insert_ne; [done | congruence].
  - exfalso. apply (Hnull c'). left.
Qed.

Lemma countRegisteredUserByTypeSQL_keys (d : DB) (p1 : list Z) (p2 p3 : Z) :
  (countRegisteredUserByTypeSQL d p1 p2 p3).*1 =
    remove_dups (user_type p1 p2 <$> registered_since d p3).
Proof.
  unfold countRegisteredUserByTypeSQL, registered_since.
  rewrite <- group_by_keys.
  generalize (Sql.group_by (user_type p1 p2)
                (List.filter (fun a => p3 <? acc_created_ts a)
                   (account_accounts d))).
  intros gs. induction gs as [|[k g] gs IH]; [done |].
  rewrite !fmap_cons. simpl. f_equal. exact IH.
Qed.

Lemma elem_of_countRegisteredUserByTypeSQL (d : DB) (p1 : list Z) (p2 p3 : Z)
    (ut : option string) (c : Z) :
  (ut, c) ∈ countRegisteredUserByTypeSQL d p1 p2 p3 <->
  ut ∈ user_type p1 p2 <$> registered_since d p3
  /\ c = Sql.count
           (List.filter (fun a => bool_decide (user_type p1 p2 a = ut))
              (registered_since d p3)).
Proof.
  unfold countRegisteredUserByTypeSQL. fold (registered_since d p3).
  rewrite list_elem_of_fmap. split.
  - intros ([k g] & Heq & Hin). injection Heq as -> ->.
    by apply elem_of_group_by in Hin as [Hk ->].
  - intros [Hk ->]. eexists (ut, _). split; [reflexivity |].
    by apply elem_of_group_by.
Qed.

(** X11: When the store runs the registration statement without fault,
    [registeredUserByType] fails as soon as one account created in the
    last day is a guest with an application service id, or is of a kind
    other than 1 to 4: the statement gives such an account a NULL type,
    which cannot be scanned.  Otherwise it returns a map over [native],
    [guest] and [bridged] only, holding for each the number of accounts
    of that type created in the last day, and no key for a type without
    account. *)
Theorem registeredUserByType_breakdown (clock : nat -> Z)
    (fault : nat -> Fault) (w : World) :
  fault (length (w_calls w)) = NoFault ->
  let recent :=
    registered_since (w_db w) (registered_after (clock (w_reads w))) in
  let untyped (a : Account) :=
    (acc_account_type a = 2 /\ acc_appservice_id a <> None)
    \/ acc_account_type a ∉ [1; 2; 3; 4] in
  let run := registeredUserByType clock fault w in
  ((exists a, a ∈ recent /\ untyped a) -> run.1 = (None, Some ScanNullError))
  /\ ((forall a, a ∈ recent -> ~ untyped a) ->
      exists m,
        run.1 = (Some m, None)
        /\ dom m ⊆ {[ "native"; "guest"; "bridged" ]}
        /\ forall k,
             m !! k =
               match List.filter
                       (fun a => bool_decide (user_type [1; 3; 4] 2 a = Some k))
                       recent with
               | [] => None
               | g => Some (Sql.count g)
               end).
Proof.
  intros Hfault recent untyped run.
  set (rows := countRegisteredUserByTypeSQL (w_db w) [1; 3; 4] 2
                 (registered_after (clock (w_reads w)))).
  assert (Hrun : run.1 =
            match registered_loop rows ∅ with
            | (Some result, _) => (Some result, None)
            | (None, err) => (None, err)
            end).
  { unfold run, registeredUserByType, mbind, M_bind, Now, QueryContext, mret,
      M_ret, log_call.
    cbn [w_reads w_calls w_db lastUpdate fst snd]. rewrite Hfault.
    cbn [delivered rows_err]. fold rows.
    change (countRegisteredUserByTypeSQL (w_db w)
              [AccountTypeUser; AccountTypeAdmin; AccountTypeAppService]
              AccountTypeGuest
              (GoTime.AsTimestamp (GoTime.AddDate (clock (w_reads w)) (-1))))
      with rows.
    by destruct (registered_loop rows ∅) as [[m|] e]. }
  assert (Hnull : forall a, untyped a <-> user_type [1; 3; 4] 2 a = None).
  { intros a. symmetry. apply user_type_cases. }
  split.
  - intros (a & Ha & Hu). rewrite Hrun, registered_loop_null; [done |].
    eexists. apply elem_of_countRegisteredUserByTypeSQL. split; [| done].
    apply list_elem_of_fmap. exists a. split; [| done].
    symmetry. by apply Hnull.
  - intros Htyped.
    destruct (registered_loop_ok rows ∅) as (m & Hloop & Hm).
    { intros c Hc. apply elem_of_countRegisteredUserByTypeSQL in Hc as [Hc _].
      apply list_elem_of_fmap in Hc as (a & Ha & Hin).
      apply (Htyped a Hin). by apply Hnull. }
    { unfold rows. rewrite countRegisteredUserByTypeSQL_keys.
      apply NoDup_remove_dups. }
    exists m. rewrite Hrun, Hloop. split; [done |].
    assert (Hlookup : forall k,
              m !! k =
                match List.filter
                        (fun a => bool_decide (user_type [1; 3; 4] 2 a = Some k))
                        recent with
                | [] => None
                | g => Some (Sql.count g)
                end).
    { intros k. rewrite Hm, lookup_empty.
      destruct (list_find _ rows) as [[i [ok c]]|] eqn:Hfind.
      - apply list_find_Some in Hfind as (Hi & Hok & _). simpl in Hok. subst ok.
        apply list_elem_of_lookup_2, elem_of_countRegisteredUserByTypeSQL
          in Hi as [Hk ->].
        fold recent in Hk |- *.
        destruct (List.filter _ recent) as [|a g] eqn:Hf; [| done].
        exfalso. apply list_elem_of_fmap in Hk as (a & Ha & Hin).
        assert (Hin' : In a (List.filter
                  (fun a0 => bool_decide (user_type [1; 3; 4] 2 a0 = Some k))
                  recent)).
        { apply filter_In. split; [by apply list_elem_of_In |].
          by apply bool_decide_eq_true. }
        by rewrite Hf in Hin'.
      - destruct (List.filter _ recent) as [|a g] eqn:Hf; [done |].
        exfalso. assert (Hin : In a (a :: g)) by (by left). rewrite <- Hf in Hin.
        apply filter_In in Hin as [Hin Hk]. apply bool_decide_eq_true in Hk.
        apply list_find_None in Hfind.
        assert (Hrow : (Some k, Sql.count (List.filter
                  (fun a0 => bool_decide (user_type [1; 3; 4] 2 a0 = Some k))
                  recent)) ∈ rows).
        { apply elem_of_countRegisteredUserByTypeSQL. split; [| done].
          apply list_elem_of_fmap. exists a. split; [done |].
          by apply list_elem_of_In. }
        rewrite Forall_forall in Hfind. by apply (Hfind _ Hrow). }
    split; [| done].
    intros k Hk. apply elem_of_dom in Hk as [c Hc]. rewrite Hlookup in Hc.
    destruct (List.filter _ recent) as [|a g] eqn:Hf; [done |].
    assert (Hin : In a (a :: g)) by (by left). rewrite <- Hf in Hin.
    apply filter_In in Hin as [_ Hk]. apply bool_decide_eq_true in Hk.
    apply user_type_cases in Hk. set_solver.
Qed.

Lemma registeredUserByType_breakdown_witness :
  exists m,
    (registeredUserByType Sample.steady Sample.healthy
       (Sample.world_of SampleAccounts.registry)).1 = (Some m, None)
    /\ dom m ⊆ {[ "native"; "guest"; "bridged" ]}.
Proof.
  destruct (proj2 (registeredUserByType_breakdown Sample.steady Sample.healthy
                     (Sample.world_of SampleAccounts.registry) eq_refl))
    as (m & Hm & Hdom & _).
  - intros a Ha [[H2 Hid] | Hkind].
    + apply list_elem_of_In, filter_In in Ha as [Ha _]. simpl in Ha.
      destruct Ha as [<- | [<- | [<- | [<- | []]]]]; simpl in *; done.
    + apply Hkind. apply list_elem_of_In, filter_In in Ha as [Ha _]. simpl in Ha.
      destruct Ha as [<- | [<- | [<- | [<- | []]]]]; simpl; set_unfold; lia.
  - exists m. split; [exact Hm | exact Hdom].
Defined.

Example registeredUserByType_sample :
  exists m,
    (registeredUserByType Sample.steady Sample.healthy
       (Sample.world_of SampleAccounts.registry)).1 = (Some m, None)
    /\ m !! "native" = Some 1 /\ m !! "guest" = Some 1
    /\ m !! "bridged" = Some 1.
Proof. eexists. split; [reflexivity |]. repeat split; reflexivity. Qed.

(** ** What the insert of [updateUserDailyVisitsSQL] writes *)

(** X12: After the statement the table holds a fact for a user, a device and
    a day exactly when it held one before, or the day is [$1] and the
    device is due: it belongs to a user or admin account one of whose
    devices, not necessarily this one, was last seen inside
    [[$2, $3)]. *)
Theorem updateUserDailyVisitsSQL_keys (d : DB) (p1 p2 p3 : Z)
    (lp dev : string) (ts : Z) :
  (lp, dev, ts) ∈ visit_key <$> updateUserDailyVisitsSQL d p1 p2 p3 <->
  (lp, dev, ts) ∈ visit_key <$> user_daily_visits d
  \/ (ts = p1 /\
      exists u d' a,
        u ∈ device_devices d /\ d' ∈ device_devices d
        /\ a ∈ account_accounts d
        /\ dev_localpart u = lp /\ dev_device_id u = dev
        /\ dev_localpart d' = lp /\ acc_localpart a = lp
        /\ p2 <= dev_last_seen_ts d' < p3
        /\ (acc_account_type a = 1 \/ acc_account_type a = 3)).
Proof.
  change (exists u d' a,
            u ∈ device_devices d /\ d' ∈ device_devices d
            /\ a ∈ account_accounts d
            /\ dev_localpart u = lp /\ dev_device_id u = dev
            /\ dev_localpart d' = lp /\ acc_localpart a = lp
            /\ p2 <= dev_last_seen_ts d' < p3
            /\ (acc_account_type a = 1 \/ acc_account_type a = 3))
    with (visit_due d p2 p3 lp dev).
  unfold updateUserDailyVisitsSQL.
  destruct (insert_fold_prefix (daily_visit_rows d p1 p2 p3)
              (user_daily_visits d)) as (new & Heq & Hnew).
  split.
  - rewrite Heq, fmap_app, elem_of_app. intros [Hold | Hin]; [by left |].
    right. apply list_elem_of_fmap in Hin as (v & Hk & Hv).
    apply Hnew in Hv as [Hv _].
    pose proof (daily_visit_rows_stamp _ _ _ _ _ Hv) as Hts.
    unfold visit_key in Hk. injection Hk as -> -> ->. split; [done |].
    apply (daily_visit_rows_due d p1). exists v. split; [done |].
    unfold visit_key. by rewrite Hts.
  - intros [Hold | [-> Hdue]].
    + rewrite Heq, fmap_app, elem_of_app. by left.
    + apply (daily_visit_rows_due d p1) in Hdue as (v & Hv & <-).
      by apply insert_fold_covers.
Qed.

Lemma NoDup_fmap_eq {A B} (f : A -> B) (l : list A) (x y : A) :
  NoDup (f <$> l) -> x ∈ l -> y ∈ l -> f x = f y -> x = y.
Proof.
  induction l as [|z l IH]; intros Hnd Hx Hy Hf; [by apply elem_of_nil in Hx |].
  rewrite fmap_cons in Hnd. apply NoDup_cons in Hnd as [Hz Hnd].
  apply elem_of_cons in Hx as [-> | Hx]; apply elem_of_cons in Hy as [-> | Hy].
  - done.
  - exfalso. apply Hz. rewrite Hf. apply list_elem_of_fmap. by exists y.
  - exfalso. apply Hz. rewrite <- Hf. apply list_elem_of_fmap. by exists x.
  - by apply IH.
Qed.

Lemma max_text_constant (l : list (option string)) (a : option string) :
  l ≠ [] -> (forall x, x ∈ l -> x = a) -> SqlText.max_text l = a.
Proof.
  intros Hne Hl. unfold SqlText.max_text.
  destruct l as [|x l]; [done |]. simpl.
  rewrite (Hl x) by left.
  assert (Hrest : forall y, y ∈ l -> y = a) by (intros y Hy; apply Hl; by right).
  clear Hl Hne. induction l as [|y l IH]; [done |]. simpl.
  rewrite (Hrest y) by left.
  replace (match a with
           | Some a0 =>
               match a with
               | Some b => if (a0 <? b)%string then Some b else Some a0
               | None => a
               end
           | None => a
           end) with a.
  - apply IH. intros z Hz. apply Hrest. by right.
  - destruct a as [s|]; [| done]. by destruct (s <? s)%string.
Qed.

(** X13: When [(localpart, device_id)] identifies a device, every fact the
    statement adds is the fact of one device: stamped [$1] and carrying
    the user agent of that device. *)
Theorem updateUserDailyVisitsSQL_user_agent (d : DB) (p1 p2 p3 : Z)
    (v : Visit) :
  NoDup (device_key <$> device_devices d) ->
  v ∈ updateUserDailyVisitsSQL d p1 p2 p3 ->
  v ∈ user_daily_visits d
  \/ exists u,
       u ∈ device_devices d
       /\ v = {| localpart := dev_localpart u; device_id := dev_device_id u;
                 timestamp := p1; user_agent := dev_user_agent u |}.
Proof.
  intros Hpk Hv. unfold updateUserDailyVisitsSQL in Hv.
  destruct (insert_fold_prefix (daily_visit_rows d p1 p2 p3)
              (user_daily_visits d)) as (new & Heq & Hnew).
  rewrite Heq in Hv. apply elem_of_app in Hv as [Hv | Hv]; [by left |].
  right. apply Hnew in Hv as [Hv _]. unfold daily_visit_rows in Hv.
  apply list_elem_of_fmap in Hv as ([[lp dev] g] & -> & Hkg).
  apply elem_of_group_by in Hkg as [Hk Hg].
  apply list_elem_of_fmap in Hk as ([[[u ov] d'] a] & Hkey & Hr).
  simpl in Hkey. injection Hkey as -> ->.
  assert (Hdev : forall r : Device * option Visit * Device * Account,
            r ∈ g -> r.1.1.1 = u).
  { intros [[[u' ov'] d''] a'] Hr'. rewrite Hg in Hr'.
    apply list_elem_of_In, filter_In in Hr' as [Hr' Hkey].
    apply bool_decide_eq_true in Hkey. simpl in Hkey |- *.
    apply (NoDup_fmap_eq device_key (device_devices d)); [done | | | done].
    - apply filter_In in Hr' as [Hr' _].
      apply list_elem_of_In, elem_of_inner_join in Hr' as (Hr' & _ & _).
      apply elem_of_inner_join in Hr' as (Hr' & _ & _).
      eapply left_join_fst. eauto.
    - apply list_elem_of_In, filter_In in Hr as [Hr _].
      apply list_elem_of_In, elem_of_inner_join in Hr as (Hr & _ & _).
      apply elem_of_inner_join in Hr as (Hr & _ & _).
      eapply left_join_fst. eauto. }
  exists u. split.
  - apply list_elem_of_In, filter_In in Hr as [Hr _].
    apply list_elem_of_In, elem_of_inner_join in Hr as (Hr & _ & _).
    apply elem_of_inner_join in Hr as (Hr & _ & _).
    eapply left_join_fst. eauto.
  - simpl. f_equal. apply max_text_constant.
    + assert (Hin : (u, ov, d', a) ∈ g).
      { rewrite Hg. apply list_elem_of_In, filter_In.
        split; [by apply list_elem_of_In | by apply bool_decide_eq_true]. }
      destruct g; [by apply elem_of_nil in Hin | done].
    + intros x Hx. apply list_elem_of_fmap in Hx as (r & -> & Hr').
      by rewrite (Hdev r Hr').
Qed.

Lemma updateUserDailyVisitsSQL_user_agent_witness :
  let v :=
    {| localpart := "alice"; device_id := "PHONE";
       timestamp := 1656633600000;
       user_agent := Some "Element/1.4.2 (Android 12)" |} in
  NoDup (device_key <$> device_devices SampleVisits.ledger)
  /\ (v ∈ user_daily_visits SampleVisits.ledger
      \/ exists u,
           u ∈ device_devices SampleVisits.ledger
           /\ v = {| localpart := dev_localpart u;
                     device_id := dev_device_id u;
                     timestamp := 1656633600000;
                     user_agent := dev_user_agent u |}).
Proof.
  intros v.
  assert (Hpk : NoDup (device_key <$> device_devices SampleVisits.ledger)).
  { unfold device_key. simpl.
    apply NoDup_cons. split; [set_solver |]. apply NoDup_singleton. }
  split; [exact Hpk |].
  apply (updateUserDailyVisitsSQL_user_agent SampleVisits.ledger 1656633600000
           (GoTime.AsTimestamp (Sample.noon - 2 * GoTime.Hour))
           (GoTime.AsTimestamp Sample.noon) v Hpk).
  apply list_elem_of_In. vm_compute. right. by left.
Defined.

(** ** Runs of [updateUserDailyVisits] *)

Section MaterializeRuns.
Variable clock : nat -> Z.
Variable fault : nat -> Fault.

Lemma updateUserDailyVisits_appends (w : World) :
  let run := updateUserDailyVisits clock fault w in
  account_accounts (w_db run.2) = account_accounts (w_db w)
  /\ device_devices (w_db run.2) = device_devices (w_db w)
  /\ server_version (w_db run.2) = server_version (w_db w)
  /\ (exists new,
        user_daily_visits (w_db run.2) = (user_daily_visits (w_db w) ++ new)%list
        /\ (run.1 <> None -> new = []))
  /\ (unique_visits (user_daily_visits (w_db w)) ->
      unique_visits (user_daily_visits (w_db run.2)))
  /\ w_calls run.2 =
       (w_calls w ++
        [{| call_stmt := updateUserDailyVisitsStmt;
            call_args :=
              [Int64 (GoTime.AsTimestamp
                        (day_stamp (clock (w_reads w)) (lastUpdate w)));
               Int64 (GoTime.AsTimestamp (lastUpdate w));
               Int64 (GoTime.AsTimestamp (clock (S (w_reads w))))] |}])%list
  /\ (run.1 = None <-> faulty fault (length (w_calls w)) = false).
Proof.
  intros run. unfold run, faulty.
  rewrite (updateUserDailyVisits_run clock fault w). cbv zeta.
  destruct (fault (length (w_calls w)));
    cbn [fst snd after w_db w_calls with_visits account_accounts device_devices
         server_version user_daily_visits];
    (split; [done |]); (split; [done |]); (split; [done |]).
  - split; [| split; [apply insert_fold_unique | done]].
    destruct (insert_fold_prefix
                (daily_visit_rows (w_db w)
                   (GoTime.AsTimestamp
                      (day_stamp (clock (w_reads w)) (lastUpdate w)))
                   (GoTime.AsTimestamp (lastUpdate w))
                   (GoTime.AsTimestamp (clock (S (w_reads w)))))
                (user_daily_visits (w_db w))) as (new & Heq & _).
    exists new. split; [exact Heq | done].
  - split; [exists []; by rewrite app_nil_r | done].
  - split; [exists []; by rewrite app_nil_r | done].
Qed.

(** X14: A run of [updateUserDailyVisits], successful or not, leaves the
    accounts and devices alone, keeps the unique index of the facts and
    only appends to them; a failed run appends nothing. *)
Theorem updateUserDailyVisits_only_appends (w : World) :
  unique_visits (user_daily_visits (w_db w)) ->
  let run := updateUserDailyVisits clock fault w in
  unique_visits (user_daily_visits (w_db run.2))
  /\ account_accounts (w_db run.2) = account_accounts (w_db w)
  /\ device_devices (w_db run.2) = device_devices (w_db w)
  /\ exists new,
       user_daily_visits (w_db run.2) = (user_daily_visits (w_db w) ++ new)%list
       /\ (run.1 <> None -> new = []).
Proof.
  intros Hu run.
  destruct (updateUserDailyVisits_appends w) as (Ha & Hd & _ & Hnew & Huniq & _).
  auto.
Qed.

Lemma AsTimestamp_mono (a b : Z) :
  a <= b -> GoTime.AsTimestamp a <= GoTime.AsTimestamp b.
Proof. intros Hab. unfold GoTime.AsTimestamp. apply Z.quot_le_mono; lia. Qed.

Lemma updateUserDailyVisits_clock (w : World) :
  (forall i j, (i <= j)%nat -> clock i <= clock j) ->
  lastUpdate w <= clock (w_reads w) ->
  let run := updateUserDailyVisits clock fault w in
  lastUpdate w <= lastUpdate run.2
  /\ lastUpdate run.2 <= clock (w_reads run.2)
  /\ (run.1 = None -> clock (S (w_reads w)) <= lastUpdate run.2)
  /\ (run.1 <> None -> lastUpdate run.2 = lastUpdate w).
Proof.
  intros Hmono Hlast run. unfold run.
  rewrite (updateUserDailyVisits_run clock fault w). cbv zeta.
  pose proof (Hmono (w_reads w) (S (S (w_reads w))) ltac:(lia)).
  pose proof (Hmono (S (w_reads w)) (S (S (w_reads w))) ltac:(lia)).
  pose proof (Hmono (S (S (w_reads w))) (3 + w_reads w)%nat ltac:(lia)).
  pose proof (Hmono (w_reads w) (2 + w_reads w)%nat ltac:(lia)).
  destruct (fault (length (w_calls w)));
    cbn [fst snd after lastUpdate w_reads]; repeat split; try done; lia.
Qed.

(** X15: With a clock that never runs backwards and a watermark not in the
    future, the watermark never moves back, and every run covers a
    window [[$2, $3)] with [$2 <= $3].  After a successful run the next
    window starts at or after the end of this one, at the clock reading
    taken after the insert: the two windows do not overlap.  After a
    failed run the next window starts where this one started. *)
Theorem updateUserDailyVisits_windows (w : World) :
  (forall i j, (i <= j)%nat -> clock i <= clock j) ->
  lastUpdate w <= clock (w_reads w) ->
  let run := updateUserDailyVisits clock fault w in
  let next := updateUserDailyVisits clock fault run.2 in
  lastUpdate w <= lastUpdate run.2 <= clock (w_reads run.2)
  /\ exists p1 p2 p3 p1' p2' p3',
       last (w_calls run.2) =
         Some {| call_stmt := updateUserDailyVisitsStmt;
                 call_args := [Int64 p1; Int64 p2; Int64 p3] |}
       /\ last (w_calls next.2) =
            Some {| call_stmt := updateUserDailyVisitsStmt;
                    call_args := [Int64 p1'; Int64 p2'; Int64 p3'] |}
       /\ p2 <= p3 /\ p2' <= p3'
       /\ (run.1 = None -> p3 <= p2')
       /\ (run.1 <> None -> p2' = p2).
Proof.
  intros Hmono Hlast run next.
  destruct (updateUserDailyVisits_clock w Hmono Hlast)
    as (Hback & Hfuture & Hok & Hfail).
  fold run in Hback, Hfuture, Hok, Hfail. split; [done |].
  destruct (updateUserDailyVisits_appends w) as (_ & _ & _ & _ & _ & Hcalls & _).
  destruct (updateUserDailyVisits_appends run.2)
    as (_ & _ & _ & _ & _ & Hcalls' & _).
  fold run in Hcalls, Hcalls'. fold next in Hcalls'.
  do 6 eexists. rewrite Hcalls, Hcalls', !last_snoc.
  split; [reflexivity |]. split; [reflexivity |].
  assert (Hreads : (w_reads w <= w_reads run.2)%nat).
  { unfold run. rewrite (updateUserDailyVisits_run clock fault w). cbv zeta.
    destruct (fault (length (w_calls w))); cbn [snd after w_reads]; lia. }
  split.
  { apply AsTimestamp_mono. etrans; [exact Hlast |]. apply Hmono. lia. }
  split.
  { apply AsTimestamp_mono. etrans; [exact Hfuture |]. apply Hmono. lia. }
  split.
  - intros Hnone. apply AsTimestamp_mono. by apply Hok.
  - intros Hsome. by rewrite (Hfail Hsome).
Qed.

End MaterializeRuns.

Lemma updateUserDailyVisits_only_appends_witness :
  unique_visits
    (user_daily_visits
       (w_db (updateUserDailyVisits Sample.steady Sample.healthy
                SampleVisits.world).2)).
Proof.
  apply (updateUserDailyVisits_only_appends Sample.steady Sample.healthy
           SampleVisits.world).
  unfold unique_visits. simpl. apply NoDup_singleton.
Defined.

Lemma updateUserDailyVisits_windows_witness :
  lastUpdate SampleVisits.world
  <= lastUpdate (updateUserDailyVisits SampleTimers.ticking Sample.healthy
                   SampleVisits.world).2.
Proof.
  refine (proj1 (proj1 (updateUserDailyVisits_windows SampleTimers.ticking
                          Sample.healthy SampleVisits.world _ _))).
  - intros i j Hij. unfold SampleTimers.ticking.
    assert (0 <= 3 * GoTime.Hour) by done. nia.
  - by vm_compute.
Defined.

(** ** The day stamp where the zone never changes *)

(** X19: in a process whose local zone has one offset at all times, UTC
    among them, the day stamp [updateUserDailyVisits] passes to the
    insert is the start of the current day, a multiple of 24 hours since
    the epoch, or, when that start lies strictly after the watermark,
    that start minus 24 hours; every fact the run adds to the table
    carries that stamp. *)
Theorem updateUserDailyVisitsIn_day_stamp_fixed_offset
    (loc : GoTime.Location) (o : Z) (clock : nat -> Z) (fault : nat -> Fault)
    (w : World) :
  (forall sec, GoTime.offset (loc sec) = o) ->
  let now := clock (w_reads w) in
  let todayStart := now - now mod GoTime.Day in
  let stamp :=
    if bool_decide (lastUpdate w < todayStart) then todayStart - GoTime.Day
    else todayStart in
  let run := updateUserDailyVisitsIn clock fault loc w in
  (todayStart mod GoTime.Day = 0 /\ todayStart <= now < todayStart + GoTime.Day)
  /\ (exists p2 p3,
        last (w_calls run.2) =
          Some {| call_stmt := updateUserDailyVisitsStmt;
                  call_args := [Int64 (GoTime.AsTimestamp stamp);
                                Int64 p2; Int64 p3] |})
  /\ (forall v, v ∈ user_daily_visits (w_db run.2) ->
        v ∈ user_daily_visits (w_db w)
        \/ timestamp v = GoTime.AsTimestamp stamp)
  /\ (lastUpdate w < todayStart ->
      stamp + GoTime.Day = todayStart
      /\ GoTime.AsTimestamp stamp = GoTime.AsTimestamp todayStart - 86400000).
Proof.
  intros Ho now todayStart stamp run. unfold run.
  rewrite (updateUserDailyVisitsIn_fixed_offset loc clock fault o w Ho).
  apply updateUserDailyVisits_day_stamp_utc.
Qed.

Lemma updateUserDailyVisitsIn_day_stamp_fixed_offset_witness :
  exists p2 p3,
    last (w_calls
            (updateUserDailyVisitsIn (SampleZone.half_past SampleZone.march_14)
               Sample.healthy GoTime.UTC
               (SampleZone.world SampleZone.march_14 1647129600000)).2) =
      Some {| call_stmt := updateUserDailyVisitsStmt;
              call_args := [Int64 1647129600000; Int64 p2; Int64 p3] |}.
Proof.
  refine (proj1 (proj2
            (updateUserDailyVisitsIn_day_stamp_fixed_offset GoTime.UTC 0
               (SampleZone.half_past SampleZone.march_14) Sample.healthy
               (SampleZone.world SampleZone.march_14 1647129600000) _))).
  intros sec. reflexivity.
Defined.

(** ** The timer loop *)

Section TimerLoop.
Variable clock : nat -> Z.
Variable fault : nat -> Fault.

Lemma fire_armed (p : Process) (d : Z) (timers : list Z) :
  p_timers p = d :: timers ->
  let run := updateUserDailyVisits clock fault (p_world p) in
  exists p',
    Timers.fire clock fault p = Some p'
    /\ p_world p' = run.2
    /\ p_timers p' = (timers ++ [GoTime.Hour * 3])%list
    /\ p_log p' =
         (p_log p ++
          LogInfo "Executing UpdateUserDailyVisits" ::
          match run.1 with
          | Some e => [LogError "failed to update daily user visits" e]
          | None => []
          end)%list.
Proof.
  intros Ht run. unfold Timers.fire. rewrite Ht.
  unfold Timers.updateStatsFunc, Timers.log_line, Timers.AfterFunc.
  cbn [p_world p_log p_timers]. fold run.
  destruct run as [[e|] w']; eexists; (split; [reflexivity |]);
    cbn [p_world p_log p_timers fst snd];
    (split; [done |]); (split; [done |]).
  - by rewrite <- app_assoc.
  - done.
Qed.

Lemma fire_n_armed (n : nat) (p : Process) (d : Z) :
  p_timers p = [d] ->
  exists p' calls lines,
    Timers.fire_n clock fault n p = Some p'
    /\ p_timers p' = [if (n =? 0)%nat then d else GoTime.Hour * 3]
    /\ w_calls (p_world p') = (w_calls (p_world p) ++ calls)%list
    /\ length calls = n
    /\ Forall (fun c => call_stmt c = updateUserDailyVisitsStmt) calls
    /\ p_log p' = (p_log p ++ lines)%list
    /\ length (List.filter (fun l => negb (is_error_line l)) lines) = n
    /\ length (List.filter is_error_line lines) =
         length (List.filter (faulty fault)
                   (seq (length (w_calls (p_world p))) n)).
Proof.
  revert p d. induction n as [|n IH]; intros p d Ht.
  - exists p, [], []. simpl. rewrite !app_nil_r. by rewrite Ht.
  - destruct (fire_armed p d [] Ht) as (p1 & Hfire & Hw & Ht1 & Hlog).
    destruct (updateUserDailyVisits_appends clock fault (p_world p))
      as (_ & _ & _ & _ & _ & Hcalls & Hok).
    rewrite <- Hw in Hcalls. simpl in Ht1.
    destruct (IH p1 _ Ht1)
      as (p' & calls & lines & Hn & Ht' & Hcalls' & Hlen & Hall & Hlog' & Hinfo
          & Herr).
    eexists p', (_ :: calls), (_ ++ lines)%list.
    cbn [Timers.fire_n]. rewrite Hfire.
    split; [exact Hn |].
    split; [rewrite Ht'; by destruct n |].
    split; [by rewrite Hcalls', Hcalls, <- app_assoc |].
    split; [simpl; by rewrite Hlen |].
    split; [by constructor |].
    split; [by rewrite Hlog', Hlog, <- app_assoc |].
    rewrite Hcalls, length_app in Herr. cbn [length] in Herr.
    rewrite Nat.add_1_r in Herr.
    rewrite !List.filter_app, !length_app, Hinfo, Herr. cbn [seq List.filter].
    unfold faulty at 2.
    destruct (updateUserDailyVisits clock fault (p_world p)).1 as [e|] eqn:He.
    + assert (Hf : faulty fault (length (w_calls (p_world p))) = true).
      { destruct (faulty fault (length (w_calls (p_world p)))); [done |].
        discriminate (proj2 Hok eq_refl). }
      unfold faulty in Hf.
      destruct (fault (length (w_calls (p_world p)))); [done | |]; simpl; lia.
    + assert (Hf : faulty fault (length (w_calls (p_world p))) = false)
        by (by apply Hok).
      unfold faulty in Hf.
      destruct (fault (length (w_calls (p_world p)))); [| done..]; simpl; lia.
Qed.

(** X16: Once [startTimers] has armed the first timer, the loop never ends:
    every firing runs [updateUserDailyVisits] exactly once, whether it
    fails or not, and leaves exactly one timer armed, of three hours.
    After [n] firings [n] inserts have been executed and nothing else,
    [n] lines announce them, and there is one error line for every
    insert the store failed. *)
Theorem startTimers_keeps_running (n : nat) (p : Process) :
  p_timers p = [] ->
  exists p' calls lines,
    Timers.fire_n clock fault n (Timers.startTimers p) = Some p'
    /\ p_timers p' =
         [if (n =? 0)%nat then Timers.Minute * 5 else GoTime.Hour * 3]
    /\ w_calls (p_world p') = (w_calls (p_world p) ++ calls)%list
    /\ length calls = n
    /\ Forall (fun c => call_stmt c = updateUserDailyVisitsStmt) calls
    /\ p_log p' = (p_log p ++ lines)%list
    /\ length (List.filter (fun l => negb (is_error_line l)) lines) = n
    /\ length (List.filter is_error_line lines) =
         length (List.filter (faulty fault)
                   (seq (length (w_calls (p_world p))) n)).
Proof.
  intros Ht.
  apply (fire_n_armed n (Timers.startTimers p) (Timers.Minute * 5)).
  unfold Timers.startTimers, Timers.AfterFunc. simpl. by rewrite Ht.
Qed.

(** X17: However many timers fire, and whichever inserts fail, the facts
    keep their unique index and are only appended to, and the accounts
    and devices are never written. *)
Theorem timers_keep_unique_index (n : nat) (p p' : Process) :
  unique_visits (user_daily_visits (w_db (p_world p))) ->
  Timers.fire_n clock fault n p = Some p' ->
  unique_visits (user_daily_visits (w_db (p_world p')))
  /\ account_accounts (w_db (p_world p')) = account_accounts (w_db (p_world p))
  /\ device_devices (w_db (p_world p')) = device_devices (w_db (p_world p))
  /\ exists new,
       user_daily_visits (w_db (p_world p')) =
         (user_daily_visits (w_db (p_world p)) ++ new)%list.
Proof.
  revert p. induction n as [|n IH]; intros p Hu Hfire.
  - injection Hfire as <-. repeat split; [done |]. exists []. by rewrite app_nil_r.
  - cbn [Timers.fire_n] in Hfire.
    destruct (p_timers p) as [|d timers] eqn:Ht.
    { unfold Timers.fire in Hfire. by rewrite Ht in Hfire. }
    destruct (fire_armed p d timers Ht) as (p1 & Hfire1 & Hw & _).
    rewrite Hfire1 in Hfire.
    destruct (updateUserDailyVisits_appends clock fault (p_world p))
      as (Ha & Hd & _ & (new & Hnew & _) & Huniq & _).
    rewrite <- Hw in Ha, Hd, Hnew, Huniq.
    destruct (IH p1 (Huniq Hu) Hfire) as (Hu' & Ha' & Hd' & new' & Hnew').
    split; [done |]. split; [congruence |]. split; [congruence |].
    exists (new ++ new')%list. by rewrite Hnew', Hnew, <- app_assoc.
Qed.

End TimerLoop.

Lemma startTimers_keeps_running_witness :
  exists p',
    Timers.fire_n SampleTimers.ticking SampleTimers.flaky 4
      (Timers.startTimers SampleTimers.fresh) = Some p'
    /\ p_timers p' = [GoTime.Hour * 3].
Proof.
  destruct (startTimers_keeps_running SampleTimers.ticking SampleTimers.flaky
              4 SampleTimers.fresh eq_refl)
    as (p' & calls & lines & Hfire & Ht & _).
  exists p'. split; [exact Hfire | exact Ht].
Defined.

Lemma timers_keep_unique_index_witness :
  exists p',
    Timers.fire_n SampleTimers.ticking SampleTimers.flaky 3
      (Timers.startTimers SampleTimers.fresh) = Some p'
    /\ unique_visits (user_daily_visits (w_db (p_world p'))).
Proof.
  destruct (fire_n_armed SampleTimers.ticking SampleTimers.flaky 3
              (Timers.startTimers SampleTimers.fresh) (Timers.Minute * 5)
              eq_refl)
    as (p' & _ & _ & Hfire & _).
  exists p'. split; [exact Hfire |].
  refine (proj1 (timers_keep_unique_index SampleTimers.ticking
                   SampleTimers.flaky 3 (Timers.startTimers SampleTimers.fresh)
                   p' _ Hfire)).
  unfold unique_visits. simpl. apply NoDup_singleton.
Defined.

Example timers_sample :
  exists p',
    Timers.fire_n SampleTimers.ticking SampleTimers.flaky 2
      (Timers.startTimers SampleTimers.fresh) = Some p'
    /\ p_log p' =
         [ LogInfo "Executing UpdateUserDailyVisits";
           LogInfo "Executing UpdateUserDailyVisits";
           LogError "failed to update daily user visits" (StoreError "timeout") ]
    /\ length (user_daily_visits (w_db (p_world p'))) = 3%nat.
Proof. eexists. split; [reflexivity |]. split; reflexivity. Qed.

(** ** [UserStatistics] only reads *)

(** X18: Whatever the store does, [UserStatistics] leaves the tables and the
    watermark as they are.  It reads the clock at most seven times, and
    exactly seven times when it returns no error. *)
Theorem UserStatistics_reads_only (clock : nat -> Z) (fault : nat -> Fault)
    (w : World) :
  let run := UserStatistics clock fault w in
  w_db run.2 = w_db w
  /\ lastUpdate run.2 = lastUpdate w
  /\ (w_reads w <= w_reads run.2)%nat
  /\ (w_reads run.2 <= 7 + w_reads w)%nat
  /\ (run.1.2 = None -> w_reads run.2 = (7 + w_reads w)%nat).
Proof.
  intros run.
  assert (Hrun : run = UserStatistics clock fault w) by done.
  clearbody run. unfold UserStatistics in Hrun.
  (* all users *)
  rewrite bind_run in Hrun.
  pose proof (proj1 (allUsers_cases fault w)) as Hw.
  destruct (allUsers fault w) as [[v1 e1] w1]. cbn [fst snd] in Hw, Hrun.
  subst w1. destruct e1 as [e1|]; cbv beta iota zeta in Hrun;
    [snapshot_world_leaf Hrun |].
  (* daily active *)
  rewrite bind_run in Hrun.
  match type of Hrun with context [dailyUsers clock fault ?w0] =>
    pose proof (proj1 (dailyUsers_cases clock fault w0)) as Hw;
    destruct (dailyUsers clock fault w0) as [[v2 e2] w2]
  end.
  cbn [fst snd] in Hw, Hrun. subst w2.
  destruct e2 as [e2|]; cbv beta iota zeta in Hrun;
    [snapshot_world_leaf Hrun |].
  (* monthly active *)
  rewrite bind_run in Hrun.
  match type of Hrun with context [monthlyUsers clock fault ?w0] =>
    pose proof (proj1 (monthlyUsers_cases clock fault w0)) as Hw;
    destruct (monthlyUsers clock fault w0) as [[v3 e3] w3]
  end.
  cbn [fst snd] in Hw, Hrun. subst w3.
  destruct e3 as [e3|]; cbv beta iota zeta in Hrun;
    [snapshot_world_leaf Hrun |].
  (* R30 *)
  rewrite bind_run in Hrun.
  match type of Hrun with context [r30Users clock fault ?w0] =>
    pose proof (proj1 (r30Users_cases clock fault w0)) as Hw;
    destruct (r30Users clock fault w0) as [[v4 e4] w4]
  end.
  cbn [fst snd] in Hw, Hrun. subst w4.
  destruct e4 as [e4|]; cbv beta iota zeta in Hrun;
    [snapshot_world_leaf Hrun |].
  (* R30V2 *)
  rewrite bind_run in Hrun.
  match type of Hrun with context [r30UsersV2 clock fault ?w0] =>
    pose proof (proj1 (r30UsersV2_cases clock fault w0)) as Hw;
    destruct (r30UsersV2 clock fault w0) as [[v5 e5] w5]
  end.
  cbn [fst snd] in Hw, Hrun. subst w5.
  destruct e5 as [e5|]; cbv beta iota zeta in Hrun;
    [snapshot_world_leaf Hrun |].
  (* non-bridged users *)
  rewrite bind_run in Hrun.
  match type of Hrun with context [nonBridgedUsers fault ?w0] =>
    pose proof (proj1 (nonBridgedUsers_cases fault w0)) as Hw;
    destruct (nonBridgedUsers fault w0) as [[v6 e6] w6]
  end.
  cbn [fst snd] in Hw, Hrun. subst w6.
  destruct e6 as [e6|]; cbv beta iota zeta in Hrun;
    [snapshot_world_leaf Hrun |].
  (* registration breakdown *)
  rewrite bind_run in Hrun.
  match type of Hrun with context [registeredUserByType clock fault ?w0] =>
    pose proof (proj1 (registeredUserByType_cases clock fault w0)) as Hw;
    destruct (registeredUserByType clock fault w0) as [[v7 e7] w7]
  end.
  cbn [fst snd] in Hw, Hrun. subst w7.
  destruct e7 as [e7|]; cbv beta iota zeta in Hrun;
    [snapshot_world_leaf Hrun |].
  (* engine version *)
  rewrite bind_run in Hrun.
  match type of Hrun with
    context [QueryRowContext fault dbEngineVersionStmt [] server_version ?w0] =>
    pose proof (proj1 (version_cases fault w0)) as Hw;
    destruct (QueryRowContext fault dbEngineVersionStmt [] server_version w0)
      as [[v8|e8] w8]
  end;
    cbn [fst snd] in Hw, Hrun; subst w8; cbv beta iota zeta in Hrun;
    snapshot_world_leaf Hrun.
Qed.
